(** * commit-msg-gen: the classification engine of [scripts/analyze.py]
      and [scripts/run.py], embedded and verified

    Both scripts turn a description of changed files into the three parts of
    a conventional commit message (type, scope, subject).  [analyze.py] works
    on a parsed unified diff (per-file line content), [run.py] on a list of
    [{status, path}] records plus the raw diff text.

    Modelling conventions.
    - A Python [str] is a [string]; an [ascii] with code [n] stands for the
      Unicode code point [n], so the development covers texts over code
      points 0..255.  The character tables below ([isspace], [is_word],
      [lower_char], [is_linebreak]) are Python's on that range.  On that
      range every uppercase letter has a lowercase form; beyond it
      [str.lower] leaves some uppercase characters as they are (U+03D2 is
      one), so a statement that a lowered text holds no uppercase
      character is a statement about texts over code points 0..255.
    - Python [int]s that can become negative are [Z]; lengths are [nat].
    - A [dict] whose iteration order is observed ([max] over it, the first
      key) is an association list in insertion order.
    - [re] patterns are terms of [regex], run by a backtracking matcher that
      explores alternatives in the order Python's engine does.
    - [os.path] and [pathlib] are the POSIX flavours. *)

From Stdlib Require Import Bool Arith Lia List ZArith.
From Stdlib Require Import Strings.Ascii Strings.String Numbers.DecimalString.
Import ListNotations.

Open Scope string_scope.
Open Scope list_scope.
Open Scope nat_scope.

Arguments Ascii.eqb !_ !_ : simpl nomatch.

(* ================================================================= *)
(** ** Characters *)

Definition code (c : ascii) : nat := nat_of_ascii c.

Definition between (lo hi : nat) (c : ascii) : bool :=
  (lo <=? code c) && (code c <=? hi).

Definition LF : ascii := "010"%char.
Definition nl : string := String LF "".

(** [str.isspace] and the class [\s] of a [str] pattern. *)
Definition isspace (c : ascii) : bool :=
  between 9 13 c || between 28 32 c || (code c =? 133) || (code c =? 160).

(** [str.isalnum]: letters, decimal digits and the other numeric characters. *)
Definition isalnum (c : ascii) : bool :=
  between 48 57 c || between 65 90 c || between 97 122 c
  || (code c =? 170) || (code c =? 178) || (code c =? 179) || (code c =? 181)
  || (code c =? 185) || (code c =? 186) || between 188 190 c
  || between 192 214 c || between 216 246 c || between 248 255 c.

(** The class [\w] of a [str] pattern. *)
Definition is_word (c : ascii) : bool :=
  isalnum c || (code c =? 95).

(** [str.isupper] on one character. *)
Definition isupper (c : ascii) : bool :=
  between 65 90 c || between 192 214 c || between 216 222 c.

(** [str.lower] on one character. *)
Definition lower_char (c : ascii) : ascii :=
  if isupper c then ascii_of_nat (code c + 32) else c.

(** The line boundaries of [str.splitlines]. *)
Definition is_linebreak (c : ascii) : bool :=
  between 10 13 c || between 28 30 c || (code c =? 133).

(* ================================================================= *)
(** ** Strings *)

Fixpoint lower (s : string) : string :=
  match s with
  | EmptyString => EmptyString
  | String c s' => String (lower_char c) (lower s')
  end.

Fixpoint forall_chars (p : ascii -> bool) (s : string) : bool :=
  match s with
  | EmptyString => true
  | String c s' => p c && forall_chars p s'
  end.

(** [s.startswith(p)]. *)
Fixpoint startswith (p s : string) : bool :=
  match p with
  | EmptyString => true
  | String a p' =>
      match s with
      | String b s' => Ascii.eqb a b && startswith p' s'
      | EmptyString => false
      end
  end.

(** [sub in s]. *)
Fixpoint contains (sub s : string) : bool :=
  startswith sub s ||
  match s with
  | EmptyString => false
  | String _ s' => contains sub s'
  end.

(** [s[n:]]. *)
Fixpoint drop (n : nat) (s : string) : string :=
  match n, s with
  | O, _ => s
  | S n', String _ s' => drop n' s'
  | S _, EmptyString => EmptyString
  end.

(** [s[:n]]. *)
Fixpoint take (n : nat) (s : string) : string :=
  match n, s with
  | O, _ => EmptyString
  | S n', String c s' => String c (take n' s')
  | S _, EmptyString => EmptyString
  end.

(** [s.split(sep)] for a one-character separator: never empty. *)
Fixpoint split (sep : ascii) (s : string) : list string :=
  match s with
  | EmptyString => [EmptyString]
  | String c s' =>
      if Ascii.eqb c sep then EmptyString :: split sep s'
      else match split sep s' with
           | [] => [String c EmptyString]
           | w :: ws => String c w :: ws
           end
  end.

(** [s.rfind(c)] for a one-character needle; [None] stands for [-1]. *)
Fixpoint rfind (c : ascii) (s : string) : option nat :=
  match s with
  | EmptyString => None
  | String x s' =>
      match rfind c s' with
      | Some i => Some (S i)
      | None => if Ascii.eqb x c then Some 0 else None
      end
  end.

(** [s.count(sub)] for a non-empty [sub]: occurrences are counted from the
    left and do not overlap; [skip] is the number of characters of the last
    occurrence still to be passed over. *)
Fixpoint count_from (sub : string) (skip : nat) (s : string) : nat :=
  match s with
  | EmptyString => 0
  | String _ s' =>
      match skip with
      | S k => count_from sub k s'
      | O => if startswith sub s then S (count_from sub (length sub - 1) s')
             else count_from sub 0 s'
      end
  end.

Definition count (sub s : string) : nat := count_from sub 0 s.

(** [sep.join(l)]. *)
Definition join (sep : string) (l : list string) : string := concat sep l.

(** [str(n)] for an [int]. *)
Definition str_of_Z (n : Z) : string := NilZero.string_of_int (Z.to_int n).

(** [str.splitlines()]: a carriage return directly followed by a line feed
    is one boundary, and a final boundary does not open an empty last line.
    [cur] is the line being read, reversed; [after_cr] tells that the
    previous character was a carriage return. *)
Fixpoint rev_string (acc s : string) : string :=
  match s with
  | EmptyString => acc
  | String c s' => rev_string (String c acc) s'
  end.

Fixpoint splitlines_from (cur : string) (after_cr : bool) (s : string)
  : list string :=
  match s with
  | EmptyString =>
      match cur with
      | EmptyString => []
      | _ => [rev_string "" cur]
      end
  | String c s' =>
      if after_cr && (code c =? 10) then splitlines_from "" false s'
      else if is_linebreak c
           then rev_string "" cur :: splitlines_from "" (code c =? 13) s'
           else splitlines_from (String c cur) false s'
  end.

Definition splitlines (s : string) : list string :=
  splitlines_from "" false s.

(* ================================================================= *)
(** ** Regular expressions

    The fragment of Python's [re] syntax that the two scripts use.  A
    character class is starred only on its own ([.*], [\s*], [\s+], [\w+]),
    so the greedy loop is a recursion on the text. *)

Inductive cclass : Type :=
| CAny     (* [.]  : any character but a line feed *)
| CSpace   (* [\s] *)
| CWord.   (* [\w] *)

Inductive regex : Type :=
| Eps                         (* the empty pattern *)
| Chr (c : ascii)             (* a literal character *)
| Cls (k : cclass)            (* one character of a class *)
| Bol                         (* [^] *)
| Eol                         (* [$] *)
| Wordb                       (* [\b] *)
| Cat (r1 r2 : regex)         (* [r1 r2] *)
| Alt (r1 r2 : regex)         (* [r1|r2] *)
| Star (k : cclass)           (* [k*], greedy *)
| Grp (n : nat) (r : regex).  (* the capturing group number [n] *)

(** A position in the text: the character before it (none at the start of
    the text), the text from it on, and the groups captured so far, the most
    recent first. *)
Record cursor : Type := Cur {
  before : option ascii;
  rest : string;
  caps : list (nat * string)
}.

Definition in_class (k : cclass) (c : ascii) : bool :=
  match k with
  | CAny => negb (code c =? 10)
  | CSpace => isspace c
  | CWord => is_word c
  end.

(** A literal of the pattern against a character of the text; under
    [re.IGNORECASE] the two are compared in lower case. *)
Definition chr_match (ignorecase : bool) (c x : ascii) : bool :=
  if ignorecase then Ascii.eqb (lower_char c) (lower_char x)
  else Ascii.eqb c x.

Definition word_opt (o : option ascii) : bool :=
  match o with
  | Some c => is_word c
  | None => false
  end.

Definition next_char (s : string) : option ascii :=
  match s with
  | String c _ => Some c
  | EmptyString => None
  end.

(** [\b]: exactly one of the two neighbours is a word character. *)
Definition at_wordb (z : cursor) : bool :=
  xorb (word_opt (before z)) (word_opt (next_char (rest z))).

(** [^] without [re.MULTILINE]: the start of the text. *)
Definition at_bol (z : cursor) : bool :=
  match before z with
  | None => true
  | Some _ => false
  end.

(** [$] without [re.MULTILINE]: the end of the text, or just before a line
    feed that ends the text. *)
Definition at_eol (z : cursor) : bool :=
  match rest z with
  | EmptyString => true
  | String c EmptyString => code c =? 10
  | _ => false
  end.

(** The positions [k*] can stop at, the longest run first. *)
Fixpoint star_run (k : cclass) (p : option ascii) (s : string)
  (cs : list (nat * string)) : list cursor :=
  match s with
  | String c s' =>
      if in_class k c then star_run k (Some c) s' cs ++ [Cur p s cs]
      else [Cur p s cs]
  | EmptyString => [Cur p s cs]
  end.

(** The text between two positions of one text. *)
Definition consumed (z z' : cursor) : string :=
  take (length (rest z) - length (rest z')) (rest z).

(** All the ways [r] matches from [z], in the order the backtracking engine
    tries them: the first one is the match Python reports. *)
Fixpoint run (ignorecase : bool) (r : regex) (z : cursor) : list cursor :=
  match r with
  | Eps => [z]
  | Chr c =>
      match rest z with
      | String x s' =>
          if chr_match ignorecase c x then [Cur (Some x) s' (caps z)] else []
      | EmptyString => []
      end
  | Cls k =>
      match rest z with
      | String x s' =>
          if in_class k x then [Cur (Some x) s' (caps z)] else []
      | EmptyString => []
      end
  | Bol => if at_bol z then [z] else []
  | Eol => if at_eol z then [z] else []
  | Wordb => if at_wordb z then [z] else []
  | Cat r1 r2 => flat_map (run ignorecase r2) (run ignorecase r1 z)
  | Alt r1 r2 => run ignorecase r1 z ++ run ignorecase r2 z
  | Star k => star_run k (before z) (rest z) (caps z)
  | Grp n r =>
      map (fun z' => Cur (before z') (rest z') ((n, consumed z z') :: caps z'))
          (run ignorecase r z)
  end.

(** [pattern.match(s)]: a match at the start of [s]. *)
Definition re_match (ignorecase : bool) (r : regex) (s : string)
  : option cursor :=
  hd_error (run ignorecase r (Cur None s [])).

(** [pattern.search(s)]: the first position of [s], from the left, that has
    a match. *)
Fixpoint search_from (ignorecase : bool) (r : regex) (p : option ascii)
  (s : string) : option cursor :=
  match run ignorecase r (Cur p s []) with
  | z :: _ => Some z
  | [] =>
      match s with
      | String c s' => search_from ignorecase r (Some c) s'
      | EmptyString => None
      end
  end.

Definition re_search (ignorecase : bool) (r : regex) (s : string)
  : option cursor :=
  search_from ignorecase r None s.

(** [m.group(n)] of a match and the truth value of a match object. *)
Fixpoint assoc_nat (n : nat) (l : list (nat * string)) : option string :=
  match l with
  | [] => None
  | (k, v) :: l' => if k =? n then Some v else assoc_nat n l'
  end.

Definition group (n : nat) (z : cursor) : string :=
  match assoc_nat n (caps z) with
  | Some v => v
  | None => EmptyString
  end.

Definition found (m : option cursor) : bool :=
  match m with
  | Some _ => true
  | None => false
  end.

(** Pattern builders: a literal text, a choice among several patterns, a
    sequence of patterns, and [k+]. *)
Fixpoint Lit (s : string) : regex :=
  match s with
  | EmptyString => Eps
  | String c s' => Cat (Chr c) (Lit s')
  end.

Fixpoint alts (rs : list regex) : regex :=
  match rs with
  | [] => Eps
  | [r] => r
  | r :: rs' => Alt r (alts rs')
  end.

Fixpoint seq (rs : list regex) : regex :=
  match rs with
  | [] => Eps
  | [r] => r
  | r :: rs' => Cat r (seq rs')
  end.

Definition Plus (k : cclass) : regex := Cat (Cls k) (Star k).

(** [re.sub(k+, '', s)]: the runs replaced are maximal and the replacement
    is empty, so every character of class [k] goes and the others stay. *)
Fixpoint sub_plus_empty (k : cclass) (s : string) : string :=
  match s with
  | EmptyString => EmptyString
  | String c s' =>
      if in_class k c then sub_plus_empty k s'
      else String c (sub_plus_empty k s')
  end.

(* ================================================================= *)
(** ** Dictionaries in insertion order *)

Section Dict.
Context {V : Type}.

Definition dict : Type := list (string * V).

Definition keys (d : dict) : list string := map fst d.

(** [d.get(k)]. *)
Fixpoint dict_get (k : string) (d : dict) : option V :=
  match d with
  | [] => None
  | (k', v) :: d' => if String.eqb k' k then Some v else dict_get k d'
  end.

(** [d[k] = v]: a key already present keeps its place. *)
Fixpoint dict_set (k : string) (v : V) (d : dict) : dict :=
  match d with
  | [] => [(k, v)]
  | (k', v') :: d' =>
      if String.eqb k' k then (k', v) :: d'
      else (k', v') :: dict_set k v d'
  end.
End Dict.
Arguments dict : clear implicits.

(** [max(ks, key=score)] after its first element: the first of the largest
    wins, a later element replaces the best one only when strictly larger. *)
Fixpoint max_from (score : string -> Z) (best : string) (ks : list string)
  : string :=
  match ks with
  | [] => best
  | k :: ks' =>
      if (score best <? score k)%Z then max_from score k ks'
      else max_from score best ks'
  end.

(** [max(ks, key=score)]; [None] is the [ValueError] on an empty argument. *)
Definition py_max (score : string -> Z) (ks : list string) : option string :=
  match ks with
  | [] => None
  | k :: ks' => Some (max_from score k ks')
  end.

(** The value of an [int] entry, for a key that is present. *)
Definition ival (d : dict Z) (k : string) : Z :=
  match dict_get k d with
  | Some v => v
  | None => 0%Z
  end.

Definition is_empty {A : Type} (l : list A) : bool :=
  match l with
  | [] => true
  | _ => false
  end.

(** [len(l)] as an [int]. *)
Definition len {A : Type} (l : list A) : Z := Z.of_nat (List.length l).

(* ================================================================= *)
(** ** [scripts/analyze.py] *)

Module Analyze.

(** One entry of the list [parse_diff] returns. *)
Record FileChange : Type := {
  old_path : string;
  new_path : string;
  is_new : bool;
  is_deleted : bool;
  added_lines : list string;
  deleted_lines : list string
}.

Definition set_is_new (f : FileChange) : FileChange :=
  {| old_path := old_path f; new_path := new_path f;
     is_new := true; is_deleted := is_deleted f;
     added_lines := added_lines f; deleted_lines := deleted_lines f |}.

Definition set_is_deleted (f : FileChange) : FileChange :=
  {| old_path := old_path f; new_path := new_path f;
     is_new := is_new f; is_deleted := true;
     added_lines := added_lines f; deleted_lines := deleted_lines f |}.

Definition append_added (l : string) (f : FileChange) : FileChange :=
  {| old_path := old_path f; new_path := new_path f;
     is_new := is_new f; is_deleted := is_deleted f;
     added_lines := added_lines f ++ [l]; deleted_lines := deleted_lines f |}.

Definition append_deleted (l : string) (f : FileChange) : FileChange :=
  {| old_path := old_path f; new_path := new_path f;
     is_new := is_new f; is_deleted := is_deleted f;
     added_lines := added_lines f; deleted_lines := deleted_lines f ++ [l] |}.

(** *** parse_diff *)

(** [^diff --git a/(G) b/(G)], where each group [G] is [.*] *)
Definition header_re : regex :=
  seq [Bol; Lit "diff --git a/"; Grp 1 (Star CAny); Lit " b/";
       Grp 2 (Star CAny)].

(** The loop state of [parse_diff]: the list [files] and the variable
    [current], which is [None] or refers to an entry of [files] (the entry
    is changed in place through it, so it is kept as the entry's index). *)
Record parse_state : Type := {
  files : list FileChange;
  current : option nat
}.

Fixpoint alter_at (g : FileChange -> FileChange) (i : nat)
  (l : list FileChange) : list FileChange :=
  match l, i with
  | [], _ => []
  | f :: l', O => g f :: l'
  | f :: l', S i' => f :: alter_at g i' l'
  end.

(** The record a header line opens. *)
Definition fresh (m : cursor) : FileChange :=
  {| old_path := group 1 m; new_path := group 2 m;
     is_new := false; is_deleted := false;
     added_lines := []; deleted_lines := [] |}.

(** What a line that is not a header does to the current record. *)
Definition apply_line (f : FileChange) (line : string) : FileChange :=
  if startswith "new file mode" line then set_is_new f
  else if startswith "deleted file mode" line then set_is_deleted f
  else if startswith "+" line && negb (startswith "+++" line)
  then append_added (drop 1 line) f
  else if startswith "-" line && negb (startswith "---" line)
  then append_deleted (drop 1 line) f
  else f.

Definition parse_line (st : parse_state) (line : string) : parse_state :=
  match re_match false header_re line with
  | Some m =>
      {| files := files st ++ [fresh m];
         current := Some (List.length (files st)) |}
  | None =>
      match current st with
      | None => st
      | Some i =>
          {| files := alter_at (fun f => apply_line f line) i (files st);
             current := current st |}
      end
  end.

Definition parse_lines (lines : list string) : list FileChange :=
  files (fold_left parse_line lines {| files := []; current := None |}).

Definition parse_diff (raw : string) : list FileChange :=
  parse_lines (splitlines raw).

(** *** The patterns *)

Definition whole (s : string) : regex := seq [Bol; Lit s; Eol].
Definition starting (s : string) : regex := seq [Bol; Lit s].
Definition ending (s : string) : regex := seq [Lit s; Eol].

(** [\b(fix|bug|error|issue|patch|crash|fault|defect|broken|wrong|incorrect)\b],
    [re.IGNORECASE] *)
Definition bug_words : list string :=
  ["fix"; "bug"; "error"; "issue"; "patch"; "crash"; "fault"; "defect";
   "broken"; "wrong"; "incorrect"].

Definition BUG_KEYWORDS : regex :=
  seq [Wordb; Grp 1 (alts (map Lit bug_words)); Wordb].

Definition CHORE_PATTERNS : regex :=
  Grp 1 (alts
    [whole ".gitignore"; whole "Makefile"; whole "Dockerfile";
     starting "docker-compose"; starting ".github/"; starting ".circleci/";
     starting ".gitlab-ci";
     whole "Jenkinsfile"; whole "package.json"; whole "package-lock.json";
     whole "yarn.lock"; whole "Gemfile"; whole "Gemfile.lock";
     starting ".eslintrc"; starting ".prettierrc"; starting "tsconfig";
     whole "setup.cfg"; whole "setup.py"; whole "pyproject.toml";
     whole "Cargo.toml"; whole "Cargo.lock"; whole "go.mod"; whole "go.sum";
     starting ".env"]).

(** [(\.md$|^README|^docs/|^CHANGELOG|^LICENSE|^CONTRIBUTING)],
    [re.IGNORECASE] *)
Definition DOC_PATTERNS : regex :=
  Grp 1 (alts
    [ending ".md"; starting "README"; starting "docs/"; starting "CHANGELOG";
     starting "LICENSE"; starting "CONTRIBUTING"]).

(** [(test_|_test\.|\.test\.|\.spec\.|/tests/|/test/|/__tests__/)],
    [re.IGNORECASE] *)
Definition TEST_PATTERNS : regex :=
  Grp 1 (alts
    [Lit "test_"; Lit "_test."; Lit ".test."; Lit ".spec."; Lit "/tests/";
     Lit "/test/"; Lit "/__tests__/"]).

(** [^\s*(def |function |class |const \w+ = |export )] *)
Definition func_pattern : regex :=
  seq [Bol; Star CSpace;
       Grp 1 (alts
         [Lit "def "; Lit "function "; Lit "class ";
          seq [Lit "const "; Plus CWord; Lit " = "]; Lit "export "])].

(** *** The per-file predicates *)

Definition is_test_path (path : string) : bool :=
  found (re_search true TEST_PATTERNS path).

Definition is_doc_path (path : string) : bool :=
  found (re_search true DOC_PATTERNS path).

Definition is_chore_path (path : string) : bool :=
  found (re_search false CHORE_PATTERNS path).

Definition has_bug_keyword (text : string) : bool :=
  found (re_search true BUG_KEYWORDS text).

Definition adds_construct (f : FileChange) : bool :=
  existsb (fun l => found (re_match false func_pattern l)) (added_lines f).

Definition _normalize_ws (s : string) : string := sub_plus_empty CSpace s.

Definition is_style_only (f : FileChange) : bool :=
  if is_empty (added_lines f) || is_empty (deleted_lines f) then false
  else if (Z.max 1 (len (added_lines f) / 3)
           <? Z.abs (len (added_lines f) - len (deleted_lines f)))%Z
  then false
  else forallb (fun ad => String.eqb (_normalize_ws (fst ad))
                                     (_normalize_ws (snd ad)))
               (combine (added_lines f) (deleted_lines f)).

(** [min(a, d) / max(a, d) > 0.5] is decided on the exact quotient, as
    [2 * min(a, d) > max(a, d)]: the two agree for all lengths below 2^53. *)
Definition is_refactor (f : FileChange) : bool :=
  if is_new f || is_deleted f then false
  else
    let a := len (added_lines f) in
    let d := len (deleted_lines f) in
    if (a =? 0)%Z || (d =? 0)%Z then false
    else (Z.max a d <? 2 * Z.min a d)%Z && (3 <=? a)%Z.

(** *** detect_type *)

Definition signals0 : dict Z :=
  [("feat", 0%Z); ("fix", 0%Z); ("test", 0%Z); ("docs", 0%Z);
   ("chore", 0%Z); ("style", 0%Z); ("refactor", 0%Z)].

(** [signals[k] += 1] *)
Definition bump (k : string) (signals : dict Z) : dict Z :=
  dict_set k (ival signals k + 1)%Z signals.

(** The body of the loop over [files]. *)
Definition tally (signals : dict Z) (f : FileChange) : dict Z :=
  let path := new_path f in
  if is_test_path path then bump "test" signals
  else if is_doc_path path then bump "docs" signals
  else if is_chore_path path then bump "chore" signals
  else if is_new f then bump "feat" signals
  else if has_bug_keyword (join nl (added_lines f)) then bump "fix" signals
  else if is_style_only f then bump "style" signals
  else if is_refactor f then bump "refactor" signals
  else if adds_construct f then bump "feat" signals
  else bump "chore" signals.

(** [None] stands for the [ValueError] of [max] on an empty dictionary. *)
Definition detect_type (files : list FileChange) : option string :=
  if is_empty files then Some "chore"
  else
    let signals := fold_left tally files signals0 in
    match py_max (ival signals) (keys signals) with
    | None => None
    | Some best =>
        if (ival signals best =? 0)%Z then Some "chore" else Some best
    end.

(** *** detect_scope *)

(** [os.path.splitext(p)] of [posixpath]: the extension starts at the last
    dot of the last component, unless only dots come before it there. *)
Definition splitext (p : string) : string * string :=
  match rfind "." p with
  | None => (p, "")
  | Some dotIndex =>
      let filenameIndex :=
        match rfind "/" p with
        | Some sepIndex => S sepIndex
        | None => 0
        end in
      if filenameIndex <=? dotIndex then
        if forall_chars (Ascii.eqb ".")
             (take (dotIndex - filenameIndex) (drop filenameIndex p))
        then (p, "")
        else (take dotIndex p, drop dotIndex p)
      else (p, "")
  end.

(** The first path segment of a path with a directory part, the file name
    without its extension otherwise, as both branches of [detect_scope]
    compute it from [path.split("/")]. *)
Definition top_of (path : string) : string :=
  let parts := split "/" path in
  if 1 <? List.length parts then hd "" parts
  else fst (splitext (hd "" parts)).

(** [dirs.add(x)] on a set kept as a list without repetition. *)
Definition set_add (x : string) (dirs : list string) : list string :=
  if existsb (String.eqb x) dirs then dirs else dirs ++ [x].

Definition count_changes (change_counts : dict Z) (f : FileChange) : dict Z :=
  dict_set (new_path f) (len (added_lines f) + len (deleted_lines f))%Z
           change_counts.

Definition detect_scope (files : list FileChange) : string :=
  if is_empty files then ""
  else
    let change_counts := fold_left count_changes files [] in
    match keys change_counts with
    | [] => ""
    | [path] =>
        let parts := split "/" path in
        if List.length parts =? 1 then lower (fst (splitext (hd "" parts)))
        else lower (hd "" parts)
    | first :: others =>
        let most_changed := max_from (ival change_counts) first others in
        let dirs :=
          fold_left (fun dirs path => set_add (top_of path) dirs)
                    (keys change_counts) [] in
        match dirs with
        | [d] => lower d
        | _ =>
            let parts := split "/" most_changed in
            if 1 <? List.length parts then lower (hd "" parts)
            else lower (fst (splitext (hd "" parts)))
        end
    end.

(** *** detect_summary *)

Definition basename (path : string) : string := last (split "/" path) "".

Definition plural (n : Z) : string := if (1 <? n)%Z then "s" else "".

Definition how_many (f : FileChange -> bool) (files : list FileChange) : Z :=
  len (filter f files).

Definition detect_summary (files : list FileChange) (commit_type : string)
  : string :=
  match files with
  | [] => "empty change"
  | [f] =>
      let name := basename (new_path f) in
      if is_new f then "add " ++ name
      else if is_deleted f then "remove " ++ name
      else if String.eqb commit_type "fix" then "fix issue in " ++ name
      else if String.eqb commit_type "refactor" then "refactor " ++ name
      else if String.eqb commit_type "style" then "format " ++ name
      else if String.eqb commit_type "docs" then "update " ++ name
      else if String.eqb commit_type "test" then "update tests in " ++ name
      else "update " ++ name
  | _ =>
      let new_count := how_many is_new files in
      let del_count := how_many is_deleted files in
      let mod_count := (len files - new_count - del_count)%Z in
      let parts := [] in
      let parts :=
        if (new_count =? 0)%Z then parts
        else (parts ++ [("add " ++ str_of_Z new_count ++ " file"
                         ++ plural new_count)%string])%list in
      let parts :=
        if (del_count =? 0)%Z then parts
        else (parts ++ [("remove " ++ str_of_Z del_count ++ " file"
                         ++ plural del_count)%string])%list in
      let parts :=
        if (mod_count =? 0)%Z then parts
        else (parts ++ [("update " ++ str_of_Z mod_count ++ " file"
                         ++ plural mod_count)%string])%list in
      if is_empty parts then "update " ++ str_of_Z (len files) ++ " files"
      else join ", " parts
  end%string.

End Analyze.
(* ================================================================= *)
(** ** [scripts/run.py] *)

Module Run.

(** One entry of the list [get_staged_files] returns. *)
Record StagedFile : Type := {
  status : string;
  path : string
}.

Definition DOC_PATTERNS : list string := [".md"; ".txt"; ".rst"; ".adoc"].
Definition CONFIG_PATTERNS : list string :=
  [".json"; ".yml"; ".yaml"; ".toml"; ".ini"; ".cfg"; ".conf"; ".env"].
Definition TEST_PATTERNS : list string := ["test"; "spec"; "__tests__"; "tests"].
Definition FIX_KEYWORDS : list string :=
  ["fix"; "bug"; "error"; "patch"; "issue"; "crash"; "broken"].
Definition PERF_KEYWORDS : list string :=
  ["perf"; "optimize"; "cache"; "speed"; "fast"; "slow"; "memory"].

(** [x in S] for a set of strings. *)
Definition mem (x : string) (S : list string) : bool :=
  existsb (String.eqb x) S.

(** *** [pathlib.Path] *)

(** The root of a path: one slash, or two when the path starts with exactly
    two; and the text after it. *)
Definition splitroot (p : string) : string * string :=
  match p with
  | String "/" (String "/" (String "/" _)) => ("/", drop 1 p)
  | String "/" (String "/" _) => ("//", drop 2 p)
  | String "/" _ => ("/", drop 1 p)
  | _ => ("", p)
  end.

(** The components after the root: empty ones and single dots are dropped. *)
Definition path_tail (p : string) : list string :=
  match p with
  | EmptyString => []
  | _ => filter (fun x => negb (String.eqb x "") && negb (String.eqb x "."))
                (split "/" (snd (splitroot p)))
  end.

(** [Path(p).parts] *)
Definition parts_of (p : string) : list string :=
  match fst (splitroot p) with
  | EmptyString => path_tail p
  | root => root :: path_tail p
  end.

(** [Path(p).name] *)
Definition name_of (p : string) : string := last (path_tail p) "".

(** [Path(p).suffix]: from the last dot of the name on, when that dot is
    neither its first nor its last character. *)
Definition suffix_of (p : string) : string :=
  let name := name_of p in
  match rfind "." name with
  | Some i => if (0 <? i) && (i <? length name - 1) then drop i name else ""
  | None => ""
  end.

(** *** detect_type *)

Definition all_new (files : list StagedFile) : bool :=
  forallb (fun s => String.eqb s "A") (map status files).

Definition all_tests (files : list StagedFile) : bool :=
  forallb (fun p => existsb (fun tp => contains tp (lower p)) TEST_PATTERNS)
          (map path files).

Definition all_docs (files : list StagedFile) : bool :=
  forallb (fun p => mem (lower (suffix_of p)) DOC_PATTERNS) (map path files).

Definition all_config (files : list StagedFile) : bool :=
  forallb (fun p => mem (lower (suffix_of p)) CONFIG_PATTERNS)
          (map path files).

(** [any(kw in text for kw in kws)] *)
Definition any_in (kws : list string) (text : string) : bool :=
  existsb (fun kw => contains kw text) kws.

Definition added_count (diff_lower : string) : Z :=
  Z.of_nat (count (nl ++ "+") diff_lower)
  - Z.of_nat (count (nl ++ "+++") diff_lower).

Definition removed_count (diff_lower : string) : Z :=
  Z.of_nat (count (nl ++ "-") diff_lower)
  - Z.of_nat (count (nl ++ "---") diff_lower).

Definition detect_type (files : list StagedFile) (diff_content : string)
  : string :=
  if is_empty files then "chore"
  else if all_new files then "feat"
  else if all_tests files then "test"
  else if all_docs files then "docs"
  else if all_config files then "chore"
  else
    let diff_lower := lower diff_content in
    if any_in FIX_KEYWORDS diff_lower then "fix"
    else if any_in PERF_KEYWORDS diff_lower then "perf"
    else
      let added := added_count diff_lower in
      let removed := removed_count diff_lower in
      if (added <? removed)%Z && (5 <? removed)%Z then "refactor"
      else "feat".

(** *** detect_scope *)

Definition roots : list string := ["src"; "lib"; "app"; "pkg"].

(** The entry a file with a directory part adds to [dirs]. *)
Definition dir_of (parts : list string) : string :=
  if mem (nth 0 parts "") roots && (2 <? List.length parts)
  then nth 1 parts ""
  else if negb (mem (nth 0 parts "") roots) then nth 0 parts ""
  else if 1 <? List.length parts then nth 1 parts "" else "".

Definition collect_dir (dirs : list string) (f : StagedFile) : list string :=
  let parts := parts_of (path f) in
  if 1 <? List.length parts then dirs ++ [dir_of parts] else dirs.

(** [dir_counts[d] = dir_counts.get(d, 0) + 1] for a non-empty [d]. *)
Definition count_dir (dir_counts : dict Z) (d : string) : dict Z :=
  if String.eqb d "" then dir_counts
  else dict_set d (ival dir_counts d + 1)%Z dir_counts.

Definition detect_scope (files : list StagedFile) : string :=
  if is_empty files then ""
  else
    let dirs := fold_left collect_dir files [] in
    if is_empty dirs || forallb (fun d => String.eqb d "") dirs then ""
    else
      let dir_counts := fold_left count_dir dirs [] in
      match py_max (ival dir_counts) (keys dir_counts) with
      | None => ""
      | Some d => d
      end.

(** *** generate_subject *)

Definition how_many (s : string) (files : list StagedFile) : Z :=
  len (filter (fun f => String.eqb (status f) s) files).

Definition plural (n : Z) : string := if (1 <? n)%Z then "s" else "".

Definition generate_subject (files : list StagedFile) (commit_type : string)
  : string :=
  match files with
  | [f] =>
      let name := name_of (path f) in
      if String.eqb (status f) "A" then "add " ++ name
      else if String.eqb (status f) "D" then "remove " ++ name
      else "update " ++ name
  | _ =>
      let file_count := len files in
      if String.eqb commit_type "docs" then
        let names := map (fun f => name_of (path f)) (firstn 3 files) in
        if (List.length names <=? 2)%nat then "update " ++ join " and " names
        else "update " ++ str_of_Z file_count ++ " doc files"
      else if String.eqb commit_type "test" then
        "update " ++ str_of_Z file_count ++ " test files"
      else
        let added := how_many "A" files in
        let modified := how_many "M" files in
        let deleted := how_many "D" files in
        let parts := [] in
        let parts :=
          if (added =? 0)%Z then parts
          else (parts ++ [("add " ++ str_of_Z added ++ " file"
                           ++ plural added)%string])%list in
        let parts :=
          if (modified =? 0)%Z then parts
          else (parts ++ [("update " ++ str_of_Z modified ++ " file"
                           ++ plural modified)%string])%list in
        let parts :=
          if (deleted =? 0)%Z then parts
          else (parts ++ [("remove " ++ str_of_Z deleted ++ " file"
                           ++ plural deleted)%string])%list in
        if is_empty parts then "update " ++ str_of_Z file_count ++ " files"
        else join ", " parts
  end%string.

End Run.

(* ================================================================= *)
(** ** The specification's reading of the per-file vote *)

Module Voting.
Import Analyze.

(** The priority chain as an ordered list of (predicate, outcome) pairs. *)
Definition rules : list ((FileChange -> bool) * string) :=
  [ (fun f => is_test_path (new_path f), "test");
    (fun f => is_doc_path (new_path f), "docs");
    (fun f => is_chore_path (new_path f), "chore");
    (is_new, "feat");
    (fun f => has_bug_keyword (join nl (added_lines f)), "fix");
    (is_style_only, "style");
    (is_refactor, "refactor");
    (adds_construct, "feat");
    (fun _ => true, "chore") ].

(** The outcome of the first rule whose predicate holds. *)
Definition vote_of (f : FileChange) : string :=
  match find (fun r => fst r f) rules with
  | Some r => snd r
  | None => "chore"
  end.

(** The number of files that vote for [t]. *)
Definition votes (files : list FileChange) (t : string) : Z :=
  len (filter (fun f => String.eqb (vote_of f) t) files).

(** The enumeration order of the commit types. *)
Definition type_order : list string :=
  ["feat"; "fix"; "test"; "docs"; "chore"; "style"; "refactor"; "perf"].

(** [t] is the first of [order] among those with the most votes. *)
Definition first_of_the_most (score : string -> Z) (order : list string)
  (t : string) : Prop :=
  exists earlier later,
    order = earlier ++ t :: later /\
    (forall u, In u earlier -> (score u < score t)%Z) /\
    (forall u, In u later -> (score u <= score t)%Z).

(** The dictionary whose seven entries are given by [c]. *)
Definition table (c : string -> Z) : dict Z :=
  map (fun t => (t, c t)) (keys signals0).

End Voting.


(* ================================================================= *)
(** ** The specification's reading of the style-only predicate *)

Module Style.

(** A text with all its whitespace characters removed. *)
Definition without_whitespace (s : string) : string :=
  string_of_list_ascii
    (filter (fun c => negb (isspace c)) (list_ascii_of_string s)).

End Style.

(* ================================================================= *)
(** ** The specification's reading of the parser: header blocks *)

Module Blocks.
Import Analyze.

(** A line that matches the header pattern. *)
Definition is_header (line : string) : bool :=
  found (re_match false header_re line).

(** The lines up to the next header. *)
Fixpoint body (lines : list string) : list string :=
  match lines with
  | [] => []
  | l :: lines' => if is_header l then [] else l :: body lines'
  end.

(** One block per header line: the record the header opens and the lines
    that follow it up to the next header.  Lines before the first header
    belong to no block. *)
Fixpoint blocks (lines : list string) : list (FileChange * list string) :=
  match lines with
  | [] => []
  | l :: lines' =>
      match re_match false header_re l with
      | Some m => (fresh m, body lines') :: blocks lines'
      | None => blocks lines'
      end
  end.

(** The record of a block once its lines are read. *)
Definition record_of (b : FileChange * list string) : FileChange :=
  fold_left apply_line (snd b) (fst b).

Definition marks_new (line : string) : bool :=
  startswith "new file mode" line.

Definition marks_deleted (line : string) : bool :=
  startswith "deleted file mode" line.


End Blocks.

(* ================================================================= *)
(** ** The specification's reading of a keyword match *)

Module Words.

(** The last character of a text. *)
Fixpoint last_char (s : string) : option ascii :=
  match s with
  | EmptyString => None
  | String c EmptyString => Some c
  | String _ s' => last_char s'
  end.

(** [text] holds, in any letter case, one of [kws] as a whole word: the
    occurrence is neither preceded nor followed by a word character. *)
Definition whole_word_in (kws : list string) (text : string) : Prop :=
  exists pre w post,
    text = (pre ++ w ++ post)%string /\
    In (lower w) kws /\
    word_opt (last_char pre) = false /\
    word_opt (next_char post) = false.

(** [text] holds one of [kws] somewhere, inside a longer word or not. *)
Definition part_in (kws : list string) (text : string) : Prop :=
  exists kw pre post,
    In kw kws /\ text = (pre ++ kw ++ post)%string.

(** The character before the position reached after reading [m] from a
    position whose previous character was [p]. *)
Definition before_after (m : string) (p : option ascii) : option ascii :=
  match last_char m with
  | Some c => Some c
  | None => p
  end.

End Words.

(* ================================================================= *)
(** ** The specification's reading of a scope *)

(** No character of [s] is an uppercase one. *)
Definition no_upper (s : string) : bool :=
  forall_chars (fun c => negb (isupper c)) s.

(* ================================================================= *)
(** ** The specification's reading of a multi-file subject *)

Module Clauses.

(** The clause [verb N file(s)]. *)
Definition clause (verb : string) (n : Z) : string :=
  (verb ++ " " ++ str_of_Z n ++ " file" ++ (if (1 <? n)%Z then "s" else ""))%string.

(** The clauses of the counts that are not zero, in the order given. *)
Definition clauses (counts : list (string * Z)) : list string :=
  map (fun vn => clause (fst vn) (snd vn))
      (filter (fun vn => negb (snd vn =? 0)%Z) counts).

End Clauses.

(* ================================================================= *)
(** ** Concrete inputs *)

Module Inputs.
Import Analyze.


(** A text without any header line. *)
Definition no_header_text : string :=
  concat nl ["index 1111111..2222222 100644"; "+added"; "-removed"].

(** A diff that modifies [README.md] in place. *)
Definition readme_diff : string :=
  concat nl
    ["diff --git a/README.md b/README.md"; "--- a/README.md";
     "+++ b/README.md"; "@@ -1 +1 @@"; "-old text"; "+new text"].

(** A diff that adds one file and changes another. *)
Definition two_files_diff : string :=
  concat nl
    ["diff --git a/src/login.ts b/src/login.ts"; "new file mode 100644";
     "--- /dev/null"; "+++ b/src/login.ts"; "+export function login() {}";
     "diff --git a/api/users.py b/api/users.py"; "--- a/api/users.py";
     "+++ b/api/users.py"; "-    return None"; "+    return user"].

(** One modified file under a capitalised directory. *)
Definition capital_dir : list Run.StagedFile :=
  [{| Run.status := "M"; Run.path := "Foo/bar.py" |}].

(** One modified source file and the full diff that [git diff --cached]
    prints for it: six lines removed, five added. *)
Definition main_py : list Run.StagedFile :=
  [{| Run.status := "M"; Run.path := "main.py" |}].

Definition six_removed_five_added : string :=
  concat nl
    ["diff --git a/main.py b/main.py"; "index 1111111..2222222 100644";
     "--- a/main.py"; "+++ b/main.py"; "@@ -1,6 +1,5 @@";
     "-a1"; "-a2"; "-a3"; "-a4"; "-a5"; "-a6";
     "+b1"; "+b2"; "+b3"; "+b4"; "+b5"].

(** Six removed lines whose own text begins with two dashes. *)
Definition six_dashed_removed : string :=
  concat nl
    ["diff --git a/main.py b/main.py"; "index 1111111..2222222 100644";
     "--- a/main.py"; "+++ b/main.py"; "@@ -1,6 +0,0 @@";
     "--- a1"; "--- a2"; "--- a3"; "--- a4"; "--- a5"; "--- a6"].

(** Two added, one deleted and three modified files, for both scripts. *)
Definition change (p : string) (n d : bool) : Analyze.FileChange :=
  {| Analyze.old_path := p; Analyze.new_path := p;
     Analyze.is_new := n; Analyze.is_deleted := d;
     Analyze.added_lines := []; Analyze.deleted_lines := [] |}.

Definition six_changes : list Analyze.FileChange :=
  [change "src/a.py" true false; change "src/b.py" true false;
   change "src/c.py" false true; change "src/d.py" false false;
   change "src/e.py" false false; change "src/f.py" false false].

(** Two records for one path. *)
Definition same_path_twice : list Analyze.FileChange :=
  [change "Src/app.py" false false; change "Src/app.py" false false].

Definition staged (s p : string) : Run.StagedFile :=
  {| Run.status := s; Run.path := p |}.

Definition six_staged : list Run.StagedFile :=
  [staged "A" "src/a.py"; staged "A" "src/b.py"; staged "D" "src/c.py";
   staged "M" "src/d.py"; staged "M" "src/e.py"; staged "M" "src/f.py"].

(** One file of each status word, and one of a status without a word. *)
Definition five_statuses : list Run.StagedFile :=
  [staged "A" "src/a.py"; staged "M" "b.py"; staged "D" "docs/c.md";
   staged "R" "d.py"; staged "C" "e.py"].

End Inputs.

(* ================================================================= *)
(** ** More string operations *)

(** [s.split(sep, 1)] for a one-character separator: the text before the
    first separator and the text after it, or the text alone. *)
Fixpoint split1 (sep : ascii) (s : string) : list string :=
  match s with
  | EmptyString => [EmptyString]
  | String c s' =>
      if Ascii.eqb c sep then [EmptyString; s']
      else match split1 sep s' with
           | w :: ws => String c w :: ws
           | [] => [String c EmptyString]
           end
  end.

(** No character of [s] is [sep]. *)
Definition free_of (sep : ascii) (s : string) : bool :=
  forall_chars (fun x => negb (Ascii.eqb x sep)) s.

(** [not s.strip()]: stripping leaves nothing exactly when every character
    is whitespace. *)
Definition blank (s : string) : bool := forall_chars isspace s.

(* ================================================================= *)
(** ** [scripts/analyze.py]: the command line and [main] *)

Module AnalyzeMain.
Import Analyze.

(** The dictionary [opts] of [parse_args]: [diff_file] starts as [None]. *)
Record options : Type := {
  diff_file : option string;
  format : string
}.

Definition parse_arg (opts : options) (arg : string) : options :=
  if startswith "--diff-file=" arg then
    {| diff_file := Some (nth 1 (split1 "=" arg) ""); format := format opts |}
  else if startswith "--format=" arg then
    {| diff_file := diff_file opts; format := nth 1 (split1 "=" arg) "" |}
  else opts.

(** [parse_args(argv)]: the loop runs over [argv[1:]]. *)
Definition parse_args (argv : list string) : options :=
  fold_left parse_arg (tl argv) {| diff_file := None; format := "text" |}.

(** The dictionary [result] of [main]. *)
Record result : Type := {
  r_type : string;
  r_scope : string;
  r_summary : string;
  r_message : string
}.


(** What is printed on the standard output: [json.dumps(result)] or the
    message. *)
Inductive output : Type :=
| Json (r : result)
| Line (message : string).




End AnalyzeMain.



(* ================================================================= *)
(** ** [scripts/run.py]: the staged files and the body *)

Module RunMore.
Import Run.

(** The loop body of [get_staged_files]: a line that is blank or has no tab
    is passed over; [None] is the [IndexError] of [parts[0][0]] on a line
    that starts with its tab. *)
Definition staged_line (line : string) : option (list StagedFile) :=
  if blank line then Some []
  else
    match split1 "009" line with
    | [s; p] =>
        match s with
        | String c _ => Some [{| status := String c ""; path := p |}]
        | EmptyString => None
        end
    | _ => Some []
    end.

Fixpoint staged_lines (lines : list string) : option (list StagedFile) :=
  match lines with
  | [] => Some []
  | l :: lines' =>
      match staged_line l with
      | None => None
      | Some fs =>
          match staged_lines lines' with
          | None => None
          | Some fs' => Some (fs ++ fs')
          end
      end
  end.

(** [get_staged_files], as a function of what [git] returned: the exit code
    and the stripped output. *)
Definition get_staged_files (code : Z) (output : string)
  : option (list StagedFile) :=
  if negb (code =? 0)%Z || String.eqb output "" then Some []
  else staged_lines (split LF output).

Definition status_words : dict string :=
  [("A", "added"); ("M", "modified"); ("D", "deleted"); ("R", "renamed")].

Definition status_word (s : string) : string :=
  match dict_get s status_words with
  | Some w => w
  | None => "changed"
  end.

Definition body_line (f : StagedFile) : string :=
  ("- " ++ path f ++ " (" ++ status_word (status f) ++ ")")%string.

Definition generate_body (files : list StagedFile) : string :=
  join nl (fold_left (fun lines f => lines ++ [body_line f]) files
             ["Files changed:"; ""]).

End RunMore.

(* ================================================================= *)
(** ** The parser, read off a block at once *)

Module Reading.
Import Analyze Blocks.

(** A line that [parse_diff] takes for an added, respectively a removed,
    line. *)
Definition is_added (line : string) : bool :=
  startswith "+" line && negb (startswith "+++" line).

Definition is_removed (line : string) : bool :=
  startswith "-" line && negb (startswith "---" line).

(** The record of a block, field by field. *)
Definition read_block (b : FileChange * list string) : FileChange :=
  {| old_path := old_path (fst b);
     new_path := new_path (fst b);
     is_new := existsb marks_new (snd b);
     is_deleted := existsb marks_deleted (snd b);
     added_lines := map (drop 1) (filter is_added (snd b));
     deleted_lines := map (drop 1) (filter is_removed (snd b)) |}.

End Reading.

(* ================================================================= *)
(** ** The changed-line count of a record *)

Module Changes.
Import Analyze.

(** The number of added and deleted lines of a record. *)
Definition changed (f : FileChange) : Z :=
  (len (added_lines f) + len (deleted_lines f))%Z.

End Changes.

(* ================================================================= *)
(** ** The directories that [run.py] counts *)

Module Dirs.
Import Run.

(** How often [d] occurs in [l]. *)
Definition occurrences (d : string) (l : list string) : Z :=
  len (filter (String.eqb d) l).

(** The entries of [dirs]: one for each file with a directory part, in the
    order of the files. *)
Definition dirs_of (fl : list StagedFile) : list string :=
  map (fun f => dir_of (parts_of (path f)))
      (filter (fun f => 1 <? List.length (parts_of (path f))) fl).

End Dirs.

(* ================================================================= *)
(** ** The lines of [git diff --cached --name-status] *)

Module NameStatus.
Import Run.

Definition TAB : ascii := "009"%char.

(** A line of the listing: a status code, a tab, a path. *)
Definition line_of (e : string * string) : string :=
  (fst e ++ String TAB (snd e))%string.

(** A status code that starts with a character other than whitespace and
    holds no tab, and a code and a path that hold no line feed. *)
Definition entry_ok (e : string * string) : bool :=
  match fst e with
  | String c _ => negb (isspace c)
  | EmptyString => false
  end
  && free_of TAB (fst e) && free_of LF (fst e) && free_of LF (snd e).

(** The record read from a line: the first character of the code and the
    path. *)
Definition file_of (e : string * string) : StagedFile :=
  {| status := take 1 (fst e); path := snd e |}.

End NameStatus.

(* ================================================================= *)
(** ** The line counts of the two scripts side by side *)

Module Totals.
Import Analyze.

(** The sum of [g] over the records. *)
Definition total (g : FileChange -> Z) (fl : list FileChange) : Z :=
  fold_right Z.add 0%Z (map g fl).

(** [w] put in front of the first line. *)
Definition prepend (w : string) (l : list string) : list string :=
  match l with
  | x :: xs => (w ++ x)%string :: xs
  | [] => [w]
  end.

(** Every line boundary of the text is a line feed. *)
Definition only_line_feeds (s : string) : bool :=
  forall_chars (fun c => implb (is_linebreak c) (Ascii.eqb c LF)) s.

End Totals.

(* ================================================================= *)
(** ** The specification's reading of the path patterns *)

Module Paths.

(** [m] is [w], in any letter case when [ignorecase] is set. *)
Definition same (ignorecase : bool) (m w : string) : Prop :=
  if ignorecase then lower m = lower w else m = w.

(** The end of a text, or a single line feed that ends it. *)
Definition at_end (t : string) : Prop := t = ""%string \/ t = nl.

(** [s] holds [w] somewhere; begins with [w]; ends with [w]; is [w]. *)
Definition holds (ignorecase : bool) (w s : string) : Prop :=
  exists pre m t, s = (pre ++ m ++ t)%string /\ same ignorecase m w.

Definition begins (ignorecase : bool) (w s : string) : Prop :=
  exists m t, s = (m ++ t)%string /\ same ignorecase m w.

Definition ends (ignorecase : bool) (w s : string) : Prop :=
  exists pre m t,
    s = (pre ++ m ++ t)%string /\ same ignorecase m w /\ at_end t.

Definition is_exactly (ignorecase : bool) (w s : string) : Prop :=
  exists m t, s = (m ++ t)%string /\ same ignorecase m w /\ at_end t.

Definition test_marks : list string :=
  ["test_"; "_test."; ".test."; ".spec."; "/tests/"; "/test/"; "/__tests__/"].

Definition doc_prefixes : list string :=
  ["README"; "docs/"; "CHANGELOG"; "LICENSE"; "CONTRIBUTING"].

Definition chore_names : list string :=
  [".gitignore"; "Makefile"; "Dockerfile"; "Jenkinsfile"; "package.json";
   "package-lock.json"; "yarn.lock"; "Gemfile"; "Gemfile.lock"; "setup.cfg";
   "setup.py"; "pyproject.toml"; "Cargo.toml"; "Cargo.lock"; "go.mod";
   "go.sum"].

Definition chore_prefixes : list string :=
  ["docker-compose"; ".github/"; ".circleci/"; ".gitlab-ci"; ".eslintrc";
   ".prettierrc"; "tsconfig"; ".env"].

End Paths.
(* ================================================================= *)
(** ** Lemmas on dictionaries and [max] *)

Lemma max_from_first (score : string -> Z) :
  forall ks best pre mid,
    (forall u, In u pre -> (score u < score best)%Z) ->
    (forall u, In u mid -> (score u <= score best)%Z) ->
    exists earlier later,
      pre ++ best :: mid ++ ks = earlier ++ max_from score best ks :: later /\
      (forall u, In u earlier ->
                 (score u < score (max_from score best ks))%Z) /\
      (forall u, In u later ->
                 (score u <= score (max_from score best ks))%Z).
Proof.
  induction ks as [|k ks IH]; intros best pre mid Hpre Hmid; simpl.
  - exists pre, mid. rewrite app_nil_r. auto.
  - destruct (score best <? score k)%Z eqn:E.
    + apply Z.ltb_lt in E.
      destruct (IH k (pre ++ best :: mid) []) as (e & l & Heq & He & Hl).
      * intros u Hu. apply in_app_or in Hu. destruct Hu as [Hu|[Hu|Hu]].
        -- specialize (Hpre u Hu). lia.
        -- subst u. exact E.
        -- specialize (Hmid u Hu). lia.
      * intros u [].
      * exists e, l. split; [|auto].
        rewrite <- Heq. simpl. rewrite <- app_assoc. reflexivity.
    + apply Z.ltb_ge in E.
      destruct (IH best pre (mid ++ [k])) as (e & l & Heq & He & Hl).
      * exact Hpre.
      * intros u Hu. apply in_app_or in Hu. destruct Hu as [Hu|[Hu|[]]].
        -- auto.
        -- subst u. exact E.
      * exists e, l. split; [|auto].
        rewrite <- Heq. rewrite <- app_assoc. reflexivity.
Qed.

Lemma py_max_first (score : string -> Z) (ks : list string) (t : string) :
  py_max score ks = Some t -> Voting.first_of_the_most score ks t.
Proof.
  destruct ks as [|k ks]; simpl; [discriminate|].
  intros H. injection H as <-.
  destruct (max_from_first score ks k [] []) as (e & l & Heq & He & Hl).
  - intros u [].
  - intros u [].
  - exists e, l. simpl in Heq. auto.
Qed.

Lemma max_from_in (score : string -> Z) :
  forall ks best, In (max_from score best ks) (best :: ks).
Proof.
  induction ks as [|k ks IH]; intros best; simpl; [auto|].
  destruct (score best <? score k)%Z.
  - right. apply IH.
  - destruct (IH best) as [H|H]; auto.
Qed.

(* ================================================================= *)
(** ** The per-file vote of [analyze.py] *)

Section VotingProofs.
Import Analyze Voting.

Lemma tally_bump (signals : dict Z) (f : FileChange) :
  tally signals f = bump (vote_of f) signals.
Proof.
  unfold tally, vote_of, rules; simpl.
  destruct (is_test_path (new_path f)); [reflexivity|].
  destruct (is_doc_path (new_path f)); [reflexivity|].
  destruct (is_chore_path (new_path f)); [reflexivity|].
  destruct (is_new f); [reflexivity|].
  destruct (has_bug_keyword (join nl (added_lines f))); [reflexivity|].
  destruct (is_style_only f); [reflexivity|].
  destruct (is_refactor f); [reflexivity|].
  destruct (adds_construct f); reflexivity.
Qed.

Lemma vote_of_key (f : FileChange) : In (vote_of f) (keys signals0).
Proof.
  unfold vote_of, rules; simpl.
  destruct (is_test_path (new_path f)); [simpl; tauto|].
  destruct (is_doc_path (new_path f)); [simpl; tauto|].
  destruct (is_chore_path (new_path f)); [simpl; tauto|].
  destruct (is_new f); [simpl; tauto|].
  destruct (has_bug_keyword (join nl (added_lines f))); [simpl; tauto|].
  destruct (is_style_only f); [simpl; tauto|].
  destruct (is_refactor f); [simpl; tauto|].
  destruct (adds_construct f); simpl; tauto.
Qed.

Lemma table_ext (c1 c2 : string -> Z) :
  (forall t, In t (keys signals0) -> c1 t = c2 t) -> table c1 = table c2.
Proof.
  intros H. unfold table. apply map_ext_in. intros t Ht. now rewrite H.
Qed.

Lemma ival_table (c : string -> Z) (t : string) :
  In t (keys signals0) -> ival (table c) t = c t.
Proof.
  simpl. intros H.
  repeat (destruct H as [<-|H]; [reflexivity|]). destruct H.
Qed.

Lemma bump_table (c : string -> Z) (k : string) :
  In k (keys signals0) ->
  bump k (table c) =
  table (fun t => if String.eqb k t then (c t + 1)%Z else c t).
Proof.
  simpl. intros H.
  repeat (destruct H as [<-|H]; [reflexivity|]). destruct H.
Qed.

Lemma votes_cons (f : FileChange) (files : list FileChange) (t : string) :
  votes (f :: files) t =
  ((if String.eqb (vote_of f) t then 1 else 0) + votes files t)%Z.
Proof.
  unfold votes, len. cbn [filter].
  destruct (String.eqb (vote_of f) t); cbn [List.length]; lia.
Qed.

Lemma votes_nonneg (files : list FileChange) (t : string) :
  (0 <= votes files t)%Z.
Proof. unfold votes, len. lia. Qed.

Lemma tally_all (files : list FileChange) :
  forall c, fold_left tally files (table c) =
            table (fun t => (c t + votes files t)%Z).
Proof.
  induction files as [|f files IH]; intros c; simpl.
  - apply table_ext. intros t _. unfold votes, len. simpl. lia.
  - rewrite tally_bump, bump_table by apply vote_of_key.
    rewrite IH. apply table_ext. intros t _. rewrite votes_cons.
    destruct (String.eqb (vote_of f) t); lia.
Qed.

Lemma votes_outside (files : list FileChange) (t : string) :
  ~ In t (keys signals0) -> votes files t = 0%Z.
Proof.
  intros Ht. induction files as [|f files IH]; [reflexivity|].
  rewrite votes_cons, IH.
  destruct (String.eqb_spec (vote_of f) t) as [E|E]; [|reflexivity].
  exfalso. apply Ht. rewrite <- E. apply vote_of_key.
Qed.

Lemma first_of_the_most_ext (s1 s2 : string -> Z) (ks : list string)
  (t : string) :
  (forall u, In u ks -> s1 u = s2 u) ->
  first_of_the_most s1 ks t -> first_of_the_most s2 ks t.
Proof.
  intros H (e & l & Heq & He & Hl). exists e, l. subst ks.
  assert (Ht : s1 t = s2 t) by (apply H, in_or_app; simpl; auto).
  split; [reflexivity|]. split; intros u Hu.
  - rewrite <- Ht, <- H by (apply in_or_app; auto). auto.
  - rewrite <- Ht, <- H by (apply in_or_app; simpl; auto). auto.
Qed.

(** C1. For every sequence of FileChange records, each file raises exactly
    the signal of the first rule of the priority chain (test path, doc path,
    chore path, new file, bug keyword in the added lines, style only,
    refactor-like, new construct added, fallback) that holds for it; for a
    non-empty sequence the detector returns the type with the most votes,
    the first in the order feat, fix, test, docs, chore, style, refactor,
    perf among those that tie; and when every count is zero it returns
    chore. *)
Theorem detect_type_is_first_of_the_most (files : list FileChange) :
  fold_left tally files signals0 =
    map (fun t => (t, votes files t)) (keys signals0)
  /\ (files <> [] ->
      exists t, detect_type files = Some t /\
                first_of_the_most (votes files) type_order t)
  /\ ((forall t, In t type_order -> votes files t = 0%Z) ->
      detect_type files = Some "chore").
Proof.
  assert (Hsig : fold_left tally files signals0 = table (votes files)).
  { change signals0 with (table (fun _ => 0%Z)). rewrite tally_all.
    apply table_ext. intros; lia. }
  split; [exact Hsig|]. split.
  - intros Hne. unfold detect_type.
    destruct files as [|f0 files0]; [congruence|]. cbv beta iota delta [is_empty].
    set (files := f0 :: files0) in *. rewrite Hsig.
    destruct (py_max (ival (table (votes files))) (keys (table (votes files))))
      as [best|] eqn:Hmax; [|discriminate Hmax].
    pose proof (py_max_first _ _ _ Hmax) as Hfirst.
    assert (Hkeys : keys (table (votes files)) = keys signals0) by reflexivity.
    rewrite Hkeys in Hfirst.
    apply first_of_the_most_ext with (s2 := votes files) in Hfirst;
      [|intros u Hu; now apply ival_table].
    assert (Hbest : In best (keys signals0)).
    { destruct Hfirst as (e & l & Heq & _). rewrite Heq.
      apply in_or_app; simpl; auto. }
    rewrite ival_table by exact Hbest.
    assert (Hpos : (0 < votes files best)%Z).
    { destruct Hfirst as (e & l & Heq & He & Hl).
      pose proof (vote_of_key f0) as Hk. rewrite Heq in Hk.
      assert (Hone : (1 <= votes files (vote_of f0))%Z).
      { unfold files. rewrite votes_cons, String.eqb_refl.
        pose proof (votes_nonneg files0 (vote_of f0)). lia. }
      apply in_app_or in Hk. destruct Hk as [Hk|[Hk|Hk]].
      - specialize (He _ Hk). lia.
      - rewrite Hk. lia.
      - specialize (Hl _ Hk). lia. }
    destruct (votes files best =? 0)%Z eqn:E; [apply Z.eqb_eq in E; lia|].
    exists best. split; [reflexivity|].
    destruct Hfirst as (e & l & Heq & He & Hl).
    exists e, (l ++ ["perf"]). split; [|split].
    + change type_order with (keys signals0 ++ ["perf"]).
      rewrite Heq, <- app_assoc. reflexivity.
    + exact He.
    + intros u Hu. apply in_app_or in Hu. destruct Hu as [Hu|[<-|[]]]; auto.
      rewrite (votes_outside files "perf"); [lia|].
      simpl. intros H. repeat (destruct H as [H|H]; [discriminate H|]).
      exact H.
  - intros Hzero. destruct files as [|f0 files0]; [reflexivity|].
    exfalso.
    assert (Hin : In (vote_of f0) type_order).
    { change type_order with (keys signals0 ++ ["perf"]).
      apply in_or_app. left. apply vote_of_key. }
    specialize (Hzero _ Hin). rewrite votes_cons, String.eqb_refl in Hzero.
    pose proof (votes_nonneg files0 (vote_of f0)). lia.
Qed.

End VotingProofs.

(* ================================================================= *)
(** ** The style-only predicate *)

Section StyleProofs.
Import Analyze Style.

Lemma normalize_ws_removes (s : string) :
  _normalize_ws s = without_whitespace s.
Proof.
  unfold _normalize_ws, without_whitespace.
  induction s as [|c s IH]; simpl; [reflexivity|].
  destruct (isspace c); simpl; now rewrite IH.
Qed.

Lemma forallb_combine_nth {A B : Type} (p : A * B -> bool) :
  forall (l1 : list A) (l2 : list B),
    forallb p (combine l1 l2) = true <->
    (forall i a b, nth_error l1 i = Some a -> nth_error l2 i = Some b ->
                   p (a, b) = true).
Proof.
  induction l1 as [|x l1 IH]; intros l2.
  - simpl. split; [|reflexivity]. intros _ [|i] a b H; discriminate H.
  - destruct l2 as [|y l2].
    + simpl. split; [|reflexivity]. intros _ [|i] a b _ H; discriminate H.
    + simpl. rewrite andb_true_iff, IH. split.
      * intros [Hxy Hrest] [|i] a b Ha Hb; simpl in *.
        -- injection Ha as <-. injection Hb as <-. exact Hxy.
        -- eauto.
      * intros H. split.
        -- apply (H 0); reflexivity.
        -- intros i a b Ha Hb. apply (H (S i)); assumption.
Qed.

(** C5. The style-only predicate holds exactly when the added and the
    deleted lines are both non-empty, their lengths differ by at most
    max(1, floor(addedCount / 3)), and at every index that both sequences
    have, the added and the deleted line are equal once all whitespace
    characters are removed. *)
Theorem is_style_only_iff (f : FileChange) :
  is_style_only f = true <->
  added_lines f <> [] /\ deleted_lines f <> [] /\
  (Z.abs (len (added_lines f) - len (deleted_lines f))
   <= Z.max 1 (len (added_lines f) / 3))%Z /\
  (forall i a d,
      nth_error (added_lines f) i = Some a ->
      nth_error (deleted_lines f) i = Some d ->
      without_whitespace a = without_whitespace d).
Proof.
  unfold is_style_only.
  destruct (added_lines f) as [|a0 al] eqn:Ea.
  { simpl. split; [discriminate|]. intros [H _]. congruence. }
  destruct (deleted_lines f) as [|d0 dl] eqn:Ed.
  { simpl. split; [discriminate|]. intros (_ & H & _). congruence. }
  cbv beta iota delta [is_empty orb].
  destruct (Z.ltb_spec (Z.max 1 (len (a0 :: al) / 3))
                       (Z.abs (len (a0 :: al) - len (d0 :: dl)))) as [L|L].
  { split; [discriminate|]. intros (_ & _ & H & _). lia. }
  rewrite forallb_combine_nth. split.
  - intros H. repeat split; try discriminate; [exact L|].
    intros i a d Ha Hd. specialize (H i a d Ha Hd). simpl in H.
    apply String.eqb_eq in H. now rewrite <- !normalize_ws_removes.
  - intros (_ & _ & _ & H) i a d Ha Hd. simpl.
    apply String.eqb_eq. rewrite !normalize_ws_removes. eauto.
Qed.

End StyleProofs.

(* ================================================================= *)
(** ** The parser, block by block *)

Section ParserProofs.
Import Analyze Blocks.

Lemma alter_at_last (g : FileChange -> FileChange) (f : FileChange) :
  forall fs, alter_at g (List.length fs) (fs ++ [f]) = fs ++ [g f].
Proof.
  induction fs as [|x fs IH]; simpl; [reflexivity|]. now rewrite IH.
Qed.

Lemma parse_from_record :
  forall lines fs f,
    files (fold_left parse_line lines
             {| files := fs ++ [f]; current := Some (List.length fs) |}) =
    fs ++ fold_left apply_line (body lines) f :: map record_of (blocks lines).
Proof.
  induction lines as [|l lines IH]; intros fs f; simpl; [reflexivity|].
  unfold parse_line at 2, is_header. simpl files. simpl current.
  destruct (re_match false header_re l) as [m|] eqn:E; simpl found.
  - rewrite IH. simpl. rewrite <- app_assoc. reflexivity.
  - rewrite alter_at_last, IH. reflexivity.
Qed.

Lemma parse_lines_blocks (lines : list string) :
  parse_lines lines = map record_of (blocks lines).
Proof.
  unfold parse_lines. induction lines as [|l lines IH]; simpl; [reflexivity|].
  unfold parse_line at 2. simpl files. simpl current.
  destruct (re_match false header_re l) as [m|] eqn:E.
  - exact (parse_from_record lines [] (fresh m)).
  - exact IH.
Qed.

Lemma blocks_no_header (lines : list string) :
  (forall l, In l lines -> is_header l = false) -> blocks lines = [].
Proof.
  induction lines as [|l lines IH]; intros H; simpl; [reflexivity|].
  pose proof (H l (or_introl eq_refl)) as Hl. unfold is_header in Hl.
  destruct (re_match false header_re l); [discriminate Hl|].
  apply IH. intros l' Hl'. apply H. now right.
Qed.

Lemma blocks_skip (pre lines : list string) :
  (forall l, In l pre -> is_header l = false) ->
  blocks (pre ++ lines) = blocks lines.
Proof.
  induction pre as [|l pre IH]; intros H; simpl; [reflexivity|].
  pose proof (H l (or_introl eq_refl)) as Hl. unfold is_header in Hl.
  destruct (re_match false header_re l); [discriminate Hl|].
  apply IH. intros l' Hl'. apply H. now right.
Qed.

Lemma starts_new_not_deleted (l : string) :
  marks_new l = true -> marks_deleted l = false.
Proof.
  unfold marks_new, marks_deleted.
  destruct l as [|c l]; simpl; [discriminate|].
  destruct (Ascii.eqb_spec "n" c) as [<-|_]; simpl; intros H;
    [reflexivity|discriminate H].
Qed.







End ParserProofs.

(* ================================================================= *)
(** ** The parser on concrete inputs *)

Section ParserExamples.
Import Analyze Blocks Inputs.

Lemma detect_type_is_first_of_the_most_witness :
  parse_diff two_files_diff <> [] /\
  exists t, detect_type (parse_diff two_files_diff) = Some t /\
            Voting.first_of_the_most
              (Voting.votes (parse_diff two_files_diff)) Voting.type_order t.
Proof.
  assert (H : parse_diff two_files_diff <> []) by (vm_compute; discriminate).
  split; [exact H|].
  exact (proj1 (proj2 (detect_type_is_first_of_the_most
                         (parse_diff two_files_diff))) H).
Defined.



End ParserExamples.

(* ================================================================= *)
(** ** Lemmas on characters and strings *)

(** On code points 0..255 the lowered form of a character is never an
    uppercase character, so a lowered text holds none. *)
Lemma lower_char_not_upper (c : ascii) : isupper (lower_char c) = false.
Proof.
  destruct c as [[] [] [] [] [] [] [] []]; reflexivity.
Qed.

Lemma lower_no_upper (s : string) : no_upper (lower s) = true.
Proof.
  unfold no_upper. induction s as [|c s IH]; simpl; [reflexivity|].
  now rewrite lower_char_not_upper, IH.
Qed.

Lemma split_not_nil (sep : ascii) (s : string) : split sep s <> [].
Proof.
  destruct s as [|c s]; simpl; [discriminate|].
  destruct (Ascii.eqb c sep); [discriminate|].
  destruct (split sep s); discriminate.
Qed.

Lemma split_single (sep : ascii) :
  forall s w, split sep s = [w] -> w = s.
Proof.
  induction s as [|c s IH]; intros w; simpl.
  - intros H. now injection H as <-.
  - destruct (Ascii.eqb c sep).
    + intros H. injection H as _ H. now apply split_not_nil in H.
    + destruct (split sep s) as [|w' ws] eqn:E.
      * now apply split_not_nil in E.
      * intros H. injection H as <- ->. now rewrite (IH w' eq_refl).
Qed.

(* ================================================================= *)
(** ** The scope detector of [analyze.py] *)

Section ScopeProofs.
Import Analyze.

Lemma keys_dict_set {V : Type} (k : string) (v : V) :
  forall (d : dict V) k',
    In k' (keys (dict_set k v d)) -> k' = k \/ In k' (keys d).
Proof.
  induction d as [|[k0 v0] d IH]; intros k'; simpl.
  - intros [H|[]]; auto.
  - destruct (String.eqb k0 k); simpl.
    + intros [H|H]; auto.
    + intros [H|H]; auto. destruct (IH _ H); auto.
Qed.

Lemma keys_dict_set_single {V : Type} (k : string) (v : V) (d : dict V) :
  keys d = [k] -> dict_set k v d = [(k, v)].
Proof.
  destruct d as [|[k0 v0] [|e d]]; simpl; try discriminate.
  intros H. injection H as ->. now rewrite String.eqb_refl.
Qed.

Lemma keys_count_changes :
  forall fl d k,
    In k (keys (fold_left count_changes fl d)) ->
    In k (keys d) \/ exists f, In f fl /\ new_path f = k.
Proof.
  induction fl as [|f fl IH]; intros d k; simpl; [auto|].
  intros H. apply IH in H. destruct H as [H|(g & Hg & Hk)].
  - apply keys_dict_set in H. destruct H as [->|H]; eauto.
  - eauto.
Qed.

Lemma count_changes_same_path (p : string) :
  forall fl d,
    (forall f, In f fl -> new_path f = p) ->
    keys d = [p] ->
    keys (fold_left count_changes fl d) = [p].
Proof.
  induction fl as [|f fl IH]; intros d Hp Hd; simpl; [exact Hd|].
  apply IH; [intros g Hg; apply Hp; now right|].
  unfold count_changes. rewrite (Hp f (or_introl eq_refl)).
  now rewrite (keys_dict_set_single p _ d Hd).
Qed.

Lemma single_scope (path : string) :
  (if List.length (split "/" path) =? 1
   then lower (fst (splitext (hd "" (split "/" path))))
   else lower (hd "" (split "/" path))) = lower (top_of path).
Proof.
  unfold top_of. pose proof (split_not_nil "/" path) as H.
  destruct (split "/" path) as [|w [|w' ws]]; [congruence| |]; reflexivity.
Qed.

Lemma dirs_from_keys :
  forall ks acc d,
    In d (fold_left (fun dirs path => set_add (top_of path) dirs) ks acc) ->
    In d acc \/ exists k, In k ks /\ d = top_of k.
Proof.
  induction ks as [|k ks IH]; intros acc d; simpl; [auto|].
  intros H. apply IH in H. destruct H as [H|(k' & Hk' & Hd)]; [|eauto].
  unfold set_add in H. destruct (existsb (String.eqb (top_of k)) acc); auto.
  apply in_app_or in H. destruct H as [H|[H|[]]]; eauto.
Qed.

(** The scope is empty or the lowered top of one of the input paths. *)
Lemma detect_scope_origin (files : list FileChange) :
  detect_scope files = "" \/
  exists f, In f files /\ detect_scope files = lower (top_of (new_path f)).
Proof.
  unfold detect_scope. destruct (is_empty files); [auto|].
  set (cc := fold_left count_changes files []).
  assert (Hk : forall k, In k (keys cc) ->
                         exists f, In f files /\ new_path f = k).
  { intros k Hk. apply keys_count_changes in Hk.
    destruct Hk as [[]|Hk]; exact Hk. }
  destruct (keys cc) as [|k1 [|k2 ks]] eqn:Ek; [auto| |].
  - right. destruct (Hk k1 (or_introl eq_refl)) as (f & Hf & Hp).
    exists f. split; [exact Hf|]. rewrite single_scope. now rewrite Hp.
  - right.
    set (dirs := fold_left _ (k1 :: k2 :: ks) []).
    assert (Hd : forall d, In d dirs ->
                           exists f, In f files /\ d = top_of (new_path f)).
    { intros d Hd. apply dirs_from_keys in Hd.
      destruct Hd as [[]|(k & Hin & ->)].
      destruct (Hk k Hin) as (f & Hf & <-). eauto. }
    assert (Hm : exists f, In f files /\
                   new_path f = max_from (ival cc) k1 (k2 :: ks)).
    { apply Hk. apply max_from_in. }
    assert (Hlast : exists f, In f files /\
              (let parts := split "/" (max_from (ival cc) k1 (k2 :: ks)) in
               if 1 <? List.length parts then lower (hd "" parts)
               else lower (fst (splitext (hd "" parts)))) =
              lower (top_of (new_path f))).
    { destruct Hm as (f & Hf & Hp). exists f. split; [exact Hf|].
      rewrite Hp. unfold top_of. cbv zeta.
      now destruct (1 <? List.length (split "/" _)). }
    destruct dirs as [|d [|d' ds]]; [exact Hlast| |exact Hlast].
    destruct (Hd d (or_introl eq_refl)) as (f & Hf & ->). eauto.
Qed.

(** C10. When two or more records all carry the same path, the per-path
    change counts have one key, so the scope is the one of a single file
    with that path: its first path segment in lower case, or for a path
    without a directory part the file name without its extension, in lower
    case. *)
Theorem detect_scope_same_path (files : list FileChange) (p : string) :
  2 <= List.length files ->
  (forall f, In f files -> new_path f = p) ->
  keys (fold_left count_changes files []) = [p] /\
  (forall f, new_path f = p -> detect_scope files = detect_scope [f]) /\
  detect_scope files =
    (if List.length (split "/" p) =? 1 then lower (fst (splitext p))
     else lower (hd "" (split "/" p))).
Proof.
  intros Hlen Hp.
  assert (Hone : forall f, new_path f = p ->
            detect_scope [f] =
              (if List.length (split "/" p) =? 1
               then lower (fst (splitext p))
               else lower (hd "" (split "/" p)))).
  { intros f Hf. unfold detect_scope. simpl. rewrite Hf.
    destruct (split "/" p) as [|w [|w' ws]] eqn:E; try reflexivity.
    simpl. now rewrite (split_single _ _ _ E). }
  destruct files as [|f0 files0]; [simpl in Hlen; lia|].
  assert (Hk : keys (fold_left count_changes (f0 :: files0) []) = [p]).
  { simpl. apply count_changes_same_path.
    - intros g Hg. apply Hp. now right.
    - simpl. now rewrite (Hp f0 (or_introl eq_refl)). }
  assert (Hall : detect_scope (f0 :: files0) =
            (if List.length (split "/" p) =? 1
             then lower (fst (splitext p))
             else lower (hd "" (split "/" p)))).
  { rewrite <- (Hone f0 (Hp f0 (or_introl eq_refl))).
    unfold detect_scope. cbv beta iota delta [is_empty].
    rewrite Hk. simpl. now rewrite (Hp f0 (or_introl eq_refl)). }
  split; [exact Hk|]. split; [|exact Hall].
  intros f Hf. now rewrite Hall, (Hone f Hf).
Qed.

Lemma detect_scope_same_path_witness :
  detect_scope Inputs.same_path_twice = "src".
Proof.
  rewrite (proj2 (proj2 (detect_scope_same_path Inputs.same_path_twice
                    "Src/app.py"
                    (le_n 2)
                    (fun f H => match H with
                                | or_introl E => f_equal new_path (eq_sym E)
                                | or_intror (or_introl E) =>
                                    f_equal new_path (eq_sym E)
                                | or_intror (or_intror F) => match F with end
                                end)))).
  reflexivity.
Defined.

End ScopeProofs.

(* ================================================================= *)
(** ** The scope detector of [run.py] *)

Section RunScopeProofs.
Import Run.

Lemma dir_of_in (parts : list string) :
  1 < List.length parts -> In (dir_of parts) parts.
Proof.
  intros H. unfold dir_of.
  assert (H0 : In (nth 0 parts "") parts) by (apply nth_In; lia).
  assert (H1 : In (nth 1 parts "") parts) by (apply nth_In; lia).
  destruct (mem (nth 0 parts "") roots && (2 <? List.length parts));
    [exact H1|].
  destruct (negb (mem (nth 0 parts "") roots)); [exact H0|].
  apply Nat.ltb_lt in H. now rewrite H.
Qed.

Lemma dirs_origin :
  forall fl acc d,
    In d (fold_left collect_dir fl acc) ->
    In d acc \/ exists f, In f fl /\ In d (parts_of (path f)).
Proof.
  induction fl as [|f fl IH]; intros acc d; simpl; [auto|].
  intros H. apply IH in H. destruct H as [H|(g & Hg & Hd)]; [|eauto].
  unfold collect_dir in H.
  destruct (Nat.ltb_spec 1 (List.length (parts_of (path f)))) as [L|L];
    [|auto].
  apply in_app_or in H. destruct H as [H|[<-|[]]]; [auto|].
  right. exists f. split; [now left|]. now apply dir_of_in.
Qed.

Lemma keys_count_dir :
  forall ds acc k,
    In k (keys (fold_left count_dir ds acc)) -> In k (keys acc) \/ In k ds.
Proof.
  induction ds as [|d ds IH]; intros acc k; simpl; [auto|].
  intros H. apply IH in H. destruct H as [H|H]; [|auto].
  unfold count_dir in H. destruct (String.eqb d ""); [auto|].
  apply keys_dict_set in H. destruct H as [->|H]; auto.
Qed.

(** The scope is empty or a component of one of the input paths, in the
    letter case the path has. *)
Lemma run_detect_scope_origin (fl : list StagedFile) :
  detect_scope fl = "" \/
  exists f, In f fl /\ In (detect_scope fl) (parts_of (path f)).
Proof.
  unfold detect_scope. destruct (is_empty fl); [auto|].
  set (dirs := fold_left collect_dir fl []).
  destruct (is_empty dirs || forallb (fun d => String.eqb d "") dirs);
    [auto|].
  set (dc := fold_left count_dir dirs []).
  destruct (keys dc) as [|k ks] eqn:Ek; [auto|]. right. simpl.
  assert (Hin : In (max_from (ival dc) k ks) (keys dc)).
  { rewrite Ek. apply max_from_in. }
  apply keys_count_dir in Hin. destruct Hin as [[]|Hin].
  apply dirs_origin in Hin. destruct Hin as [[]|Hin]. exact Hin.
Qed.

End RunScopeProofs.

(* ================================================================= *)
(** ** The letter case of a scope *)

(** C7, as the code has it.  The scope detector of [analyze.py] returns the
    empty string or [x.lower()], for [x] the first path segment (or
    extension-stripped file name) of one of the input paths: on paths over
    code points 0..255, the texts of this development, that is never a
    string with an uppercase character.  The scope detector of [run.py]
    returns the empty string or a component of one of the input paths,
    with its letter case unchanged. *)
Theorem detect_scope_letter_case :
  (forall fl : list Analyze.FileChange,
      no_upper (Analyze.detect_scope fl) = true /\
      (Analyze.detect_scope fl = "" \/
       exists f, In f fl /\
         Analyze.detect_scope fl =
           lower (Analyze.top_of (Analyze.new_path f))))
  /\ (forall fl : list Run.StagedFile,
       Run.detect_scope fl = "" \/
       exists f, In f fl /\
         In (Run.detect_scope fl) (Run.parts_of (Run.path f))).
Proof.
  split.
  - intros fl. split; [|apply detect_scope_origin].
    destruct (detect_scope_origin fl) as [->|(f & _ & ->)];
      [reflexivity|apply lower_no_upper].
  - apply run_detect_scope_origin.
Qed.

(** C7 as stated fails for [run.py]: a capitalised directory is returned as
    it is. *)
Lemma run_detect_scope_keeps_case :
  Run.detect_scope Inputs.capital_dir = "Foo" /\
  no_upper (Run.detect_scope Inputs.capital_dir) = false.
Proof. split; reflexivity. Qed.

(* ================================================================= *)
(** ** A diff that touches only README.md *)

(** C4, as the code has it.  For a change whose only file is README.md,
    modified in place (neither added nor deleted), both scripts give the
    type docs and the subject [update README.md]; the scope is empty in
    [run.py] and is [readme] in [analyze.py]. *)
Theorem readme_only :
  (forall f : Analyze.FileChange,
      Analyze.new_path f = "README.md" ->
      Analyze.is_new f = false -> Analyze.is_deleted f = false ->
      Analyze.detect_type [f] = Some "docs" /\
      Analyze.detect_scope [f] = "readme" /\
      Analyze.detect_summary [f] "docs" = "update README.md")
  /\ (forall s diff : string,
       s <> "A" -> s <> "D" ->
       let fl := [{| Run.status := s; Run.path := "README.md" |}] in
       Run.detect_type fl diff = "docs" /\
       Run.detect_scope fl = "" /\
       Run.generate_subject fl "docs" = "update README.md").
Proof.
  split.
  - intros [op np n d al dl]; simpl. intros -> -> ->.
    repeat split; reflexivity.
  - intros s diff HA HD. cbv zeta.
    apply String.eqb_neq in HA, HD.
    unfold Run.detect_type, Run.all_new, Run.generate_subject. simpl.
    rewrite HA, HD. repeat split; reflexivity.
Qed.

Lemma readme_only_witness :
  (Analyze.detect_type (Analyze.parse_diff Inputs.readme_diff) = Some "docs" /\
   Analyze.detect_scope (Analyze.parse_diff Inputs.readme_diff) = "readme" /\
   Analyze.detect_summary (Analyze.parse_diff Inputs.readme_diff) "docs"
     = "update README.md")
  /\ (Run.detect_type [Inputs.staged "M" "README.md"] "" = "docs" /\
      Run.detect_scope [Inputs.staged "M" "README.md"] = "" /\
      Run.generate_subject [Inputs.staged "M" "README.md"] "docs"
        = "update README.md").
Proof.
  split.
  - assert (E : exists f, Analyze.parse_diff Inputs.readme_diff = [f] /\
                  Analyze.new_path f = "README.md" /\
                  Analyze.is_new f = false /\ Analyze.is_deleted f = false).
    { eexists. split; [vm_compute; reflexivity|]. repeat split. }
    destruct E as (f & -> & Hp & Hn & Hd).
    exact (proj1 readme_only f Hp Hn Hd).
  - apply (proj2 readme_only "M" ""); discriminate.
Defined.

(** C4 as stated fails for [analyze.py]: the scope of README.md is not
    empty. *)
Lemma readme_scope_not_empty :
  Analyze.detect_scope (Analyze.parse_diff Inputs.readme_diff) = "readme" /\
  Analyze.detect_scope (Analyze.parse_diff Inputs.readme_diff) <> "".
Proof. split; [reflexivity|discriminate]. Qed.

(* ================================================================= *)
(** ** The subject of a change of several files *)

Section SubjectProofs.
Import Clauses.

Lemma how_many_bounds (p : Analyze.FileChange -> bool)
  (fl : list Analyze.FileChange) :
  (0 <= Analyze.how_many p fl <= len fl)%Z.
Proof.
  unfold Analyze.how_many, len. pose proof (filter_length_le p fl). lia.
Qed.

(** C6, as the code has it.  For two or more files, [analyze.py] joins with
    a comma the non-zero clauses among [add N file(s)], [remove N file(s)]
    and [update N file(s)], in that order and for every type; [run.py], for
    a type other than docs and test, joins the non-zero clauses in the
    order add, update, remove, and falls back to [update N files] when all
    three counts are zero.  For 2 added, 1 deleted and 3 modified files the
    subjects are [add 2 files, remove 1 file, update 3 files] and
    [add 2 files, update 3 files, remove 1 file]. *)
Theorem subject_of_several_files :
  (forall (fl : list Analyze.FileChange) (t : string),
      2 <= List.length fl ->
      Analyze.detect_summary fl t =
        join ", "
          (clauses
             [("add", Analyze.how_many Analyze.is_new fl);
              ("remove", Analyze.how_many Analyze.is_deleted fl);
              ("update", (len fl - Analyze.how_many Analyze.is_new fl
                          - Analyze.how_many Analyze.is_deleted fl)%Z)]))
  /\ (forall (fl : list Run.StagedFile) (t : string),
       2 <= List.length fl -> t <> "docs" -> t <> "test" ->
       Run.generate_subject fl t =
         match clauses [("add", Run.how_many "A" fl);
                        ("update", Run.how_many "M" fl);
                        ("remove", Run.how_many "D" fl)] with
         | [] => ("update " ++ str_of_Z (len fl) ++ " files")%string
         | cs => join ", " cs
         end)
  /\ Analyze.detect_summary Inputs.six_changes "feat"
       = "add 2 files, remove 1 file, update 3 files"
  /\ Run.generate_subject Inputs.six_staged "feat"
       = "add 2 files, update 3 files, remove 1 file".
Proof.
  split; [|split; [|split; reflexivity]].
  - intros fl t Hlen. unfold Analyze.detect_summary.
    destruct fl as [|f1 [|f2 fl]]; try (simpl in Hlen; lia).
    set (files := f1 :: f2 :: fl) in *.
    pose proof (how_many_bounds Analyze.is_new files) as Hn.
    pose proof (how_many_bounds Analyze.is_deleted files) as Hd.
    assert (Hl : (2 <= len files)%Z) by (unfold len; lia).
    cbv beta iota zeta delta [clauses filter snd fst].
    destruct (Z.eqb_spec (Analyze.how_many Analyze.is_new files) 0) as [E1|E1];
      destruct (Z.eqb_spec (Analyze.how_many Analyze.is_deleted files) 0)
        as [E2|E2];
      destruct (Z.eqb_spec (len files
                            - Analyze.how_many Analyze.is_new files
                            - Analyze.how_many Analyze.is_deleted files) 0)
        as [E3|E3];
      try reflexivity.
    exfalso. lia.
  - intros fl t Hlen Hdocs Htest. unfold Run.generate_subject.
    destruct fl as [|f1 [|f2 fl]]; try (simpl in Hlen; lia).
    set (files := f1 :: f2 :: fl) in *.
    apply String.eqb_neq in Hdocs, Htest. rewrite Hdocs, Htest.
    cbv beta iota zeta delta [clauses filter snd fst].
    destruct (Z.eqb_spec (Run.how_many "A" files) 0) as [E1|E1];
      destruct (Z.eqb_spec (Run.how_many "M" files) 0) as [E2|E2];
      destruct (Z.eqb_spec (Run.how_many "D" files) 0) as [E3|E3];
      reflexivity.
Qed.

Lemma subject_of_several_files_witness :
  Analyze.detect_summary Inputs.six_changes "chore"
    = "add 2 files, remove 1 file, update 3 files" /\
  Run.generate_subject Inputs.six_staged "chore"
    = "add 2 files, update 3 files, remove 1 file".
Proof.
  split.
  - rewrite (proj1 subject_of_several_files Inputs.six_changes "chore");
      [reflexivity|simpl; lia].
  - rewrite (proj1 (proj2 subject_of_several_files)
               Inputs.six_staged "chore");
      [reflexivity|simpl; lia|discriminate|discriminate].
Defined.

(** C6 as stated fails for [run.py]: the update clause comes before the
    remove clause. *)
Lemma run_subject_order :
  Run.generate_subject Inputs.six_staged "feat"
    = "add 2 files, update 3 files, remove 1 file" /\
  Run.generate_subject Inputs.six_staged "feat"
    <> "add 2 files, remove 1 file, update 3 files".
Proof. split; [reflexivity|discriminate]. Qed.

End SubjectProofs.

(* ================================================================= *)
(** ** Lemmas on the matcher *)

Section MatcherProofs.
Import Words.

Lemma append_nil_r (s : string) : (s ++ "")%string = s.
Proof. induction s as [|c s IH]; simpl; [reflexivity|now rewrite IH]. Qed.

Lemma append_assoc (a b c : string) :
  ((a ++ b) ++ c)%string = (a ++ b ++ c)%string.
Proof. induction a as [|x a IH]; simpl; [reflexivity|now rewrite IH]. Qed.

Lemma last_char_some :
  forall m a, exists c, last_char (String a m) = Some c.
Proof.
  induction m as [|b m IH]; intros a; [now exists a|].
  destruct (IH b) as [c E]. exists c. exact E.
Qed.

Lemma last_char_cons (c : ascii) (m : string) :
  last_char (String c m) = before_after m (Some c).
Proof.
  destruct m as [|a m]; [reflexivity|].
  destruct (last_char_some m a) as [c' E]. unfold before_after.
  change (last_char (String c (String a m))) with (last_char (String a m)).
  now rewrite E.
Qed.

Lemma in_run_Lit (w : string) :
  forall z y,
    In y (run true (Lit w) z) <->
    exists m, rest z = (m ++ rest y)%string /\ lower m = lower w /\
              before y = before_after m (before z) /\ caps y = caps z.
Proof.
  induction w as [|c w IH]; intros z y; simpl.
  - split.
    + intros [<-|[]]. exists ""%string. auto.
    + intros (m & Hr & Hl & Hb & Hc). left.
      destruct m; [|discriminate Hl]. unfold before_after in Hb.
      destruct z, y; simpl in *. congruence.
  - rewrite in_flat_map. split.
    + intros (z1 & Hz1 & Hy). revert Hz1.
      destruct (rest z) as [|x s'] eqn:Er; cbn [In]; [intros []|].
      destruct (Ascii.eqb_spec (lower_char c) (lower_char x)) as [Ec|Ec];
        cbn [In]; [|intros []].
      intros [<-|[]]. apply IH in Hy. simpl in Hy.
      destruct Hy as (m & Hr & Hl & Hb & Hc).
      exists (String x m). simpl. rewrite Hr, Hl, Ec.
      repeat split; [|exact Hc].
      rewrite Hb. unfold before_after at 2. rewrite last_char_cons.
      unfold before_after. now destruct (last_char m).
    + intros (m & Hr & Hl & Hb & Hc). destruct m as [|x m]; [discriminate Hl|].
      simpl in Hr, Hl. injection Hl as Hx Hl.
      exists (Cur (Some x) (m ++ rest y)%string (caps z)). rewrite Hr. split.
      * rewrite Hx, Ascii.eqb_refl. now left.
      * apply IH. exists m. simpl. repeat split; [exact Hl| |exact Hc].
        rewrite Hb. unfold before_after at 1. rewrite last_char_cons.
        unfold before_after. now destruct (last_char m).
Qed.

Lemma in_run_alts (ci : bool) (z y : cursor) :
  forall rs, rs <> [] ->
    (In y (run ci (alts rs) z) <-> exists r, In r rs /\ In y (run ci r z)).
Proof.
  induction rs as [|r rs IH]; intros Hne; [congruence|].
  destruct rs as [|r' rs].
  - simpl. split; [eauto|]. intros (r0 & [<-|[]] & H). exact H.
  - change (alts (r :: r' :: rs)) with (Alt r (alts (r' :: rs))).
    cbn [run]. rewrite in_app_iff, IH by discriminate. split.
    + intros [H|(r0 & H0 & H)]; [exists r; simpl; auto|].
      exists r0. split; [now right|exact H].
    + intros (r0 & [<-|H0] & H); [auto|]. right. eauto.
Qed.

Lemma search_from_found (ci : bool) (r : regex) :
  forall s p,
    found (search_from ci r p s) = true <->
    exists pre post,
      s = (pre ++ post)%string /\
      run ci r (Cur (before_after pre p) post []) <> [].
Proof.
  induction s as [|c s IH]; intros p; simpl.
  - destruct (run ci r (Cur p "" [])) eqn:E; simpl.
    + split; [discriminate|]. intros (pre & post & Hs & Hr).
      destruct pre; [|discriminate Hs]. simpl in Hs. subst post.
      unfold before_after in Hr; simpl in Hr. now rewrite E in Hr.
    + split; [|reflexivity]. intros _. exists ""%string, ""%string.
      split; [reflexivity|]. unfold before_after; simpl. now rewrite E.
  - destruct (run ci r (Cur p (String c s) [])) eqn:E.
    + rewrite IH. split.
      * intros (pre & post & Hs & Hr). exists (String c pre), post.
        split; [simpl; now rewrite Hs|].
        unfold before_after in *. rewrite last_char_cons.
        unfold before_after. now destruct (last_char pre).
      * intros (pre & post & Hs & Hr). destruct pre as [|x pre].
        -- simpl in Hs. subst post. unfold before_after in Hr; simpl in Hr.
           now rewrite E in Hr.
        -- simpl in Hs. injection Hs as <- ->. exists pre, post.
           split; [reflexivity|]. unfold before_after in *.
           rewrite last_char_cons in Hr. unfold before_after in Hr.
           now destruct (last_char pre).
    + simpl. split; [|reflexivity]. intros _. exists ""%string, (String c s).
      split; [reflexivity|]. unfold before_after; simpl. now rewrite E.
Qed.

Lemma nonempty_has {A : Type} (l : list A) :
  l <> [] <-> exists x, In x l.
Proof.
  destruct l as [|x l]; split.
  - congruence.
  - intros [x []].
  - intros _. exists x. now left.
  - discriminate.
Qed.

(** A pattern of the shape [\b(w1|...|wn)\b] under [re.IGNORECASE]. *)
Lemma run_word_pattern (kws : list string) (z : cursor) :
  kws <> [] ->
  (run true (seq [Wordb; Grp 1 (alts (map Lit kws)); Wordb]) z <> [] <->
   at_wordb z = true /\
   exists w m post,
     In w kws /\ rest z = (m ++ post)%string /\ lower m = lower w /\
     xorb (word_opt (before_after m (before z)))
          (word_opt (next_char post)) = true).
Proof.
  intros Hne.
  assert (Hmap : map Lit kws <> []) by (destruct kws; [congruence|discriminate]).
  rewrite nonempty_has.
  change (seq [Wordb; Grp 1 (alts (map Lit kws)); Wordb])
    with (Cat Wordb (Cat (Grp 1 (alts (map Lit kws))) Wordb)).
  cbn [run]. split.
  - intros (y & Hy). apply in_flat_map in Hy. destruct Hy as (z1 & Hz1 & Hy).
    destruct (at_wordb z) eqn:Ez; [|destruct Hz1].
    destruct Hz1 as [<-|[]]. split; [reflexivity|].
    apply in_flat_map in Hy. destruct Hy as (z2 & Hz2 & Hy).
    apply in_map_iff in Hz2. destruct Hz2 as (y0 & <- & Hy0).
    apply in_run_alts in Hy0; [|exact Hmap].
    destruct Hy0 as (r & Hr & Hy0). apply in_map_iff in Hr.
    destruct Hr as (w & <- & Hw). apply in_run_Lit in Hy0.
    destruct Hy0 as (m & Hrest & Hl & Hb & _).
    exists w, m, (rest y0). repeat split; auto.
    rewrite <- Hb.
    destruct (at_wordb (Cur (before y0) (rest y0)
                (((1, consumed z y0)) :: caps y0))) eqn:Ey; [|destruct Hy].
    exact Ey.
  - intros (Ez & w & m & post & Hw & Hrest & Hl & Hx).
    set (y0 := Cur (before_after m (before z)) post (caps z)).
    exists (Cur (before y0) (rest y0) ((1, consumed z y0) :: caps y0)).
    apply in_flat_map. exists z. rewrite Ez. split; [now left|].
    apply in_flat_map.
    exists (Cur (before y0) (rest y0) ((1, consumed z y0) :: caps y0)). split.
    + apply in_map_iff. exists y0. split; [reflexivity|].
      apply in_run_alts; [exact Hmap|].
      exists (Lit w). split; [now apply in_map|].
      apply in_run_Lit. exists m. unfold y0. cbn [before rest caps].
      repeat split; assumption.
    + unfold at_wordb. cbn [before rest]. unfold y0. cbn [before rest].
      rewrite Hx. now left.
Qed.

End MatcherProofs.

(* ================================================================= *)
(** ** The keyword predicates *)

Section KeywordProofs.
Import Words.

Lemma lower_letter_is_word (c : ascii) :
  between 97 122 (lower_char c) = true -> is_word c = true.
Proof.
  destruct c as [[] [] [] [] [] [] [] []]; vm_compute; intros H;
    (reflexivity || discriminate H).
Qed.

Lemma lower_letters_are_words (m : string) :
  forall_chars (between 97 122) (lower m) = true ->
  forall_chars is_word m = true.
Proof.
  induction m as [|c m IH]; [reflexivity|].
  cbn [lower forall_chars]. rewrite !andb_true_iff. intros [Hc Hm].
  split; [now apply lower_letter_is_word|now apply IH].
Qed.

Lemma before_after_cons (c : ascii) (m : string) (p : option ascii) :
  before_after (String c m) p = before_after m (Some c).
Proof.
  unfold before_after at 1. rewrite last_char_cons.
  unfold before_after. now destruct (last_char m).
Qed.

Lemma word_first (m post : string) :
  m <> ""%string -> forall_chars is_word m = true ->
  word_opt (next_char (m ++ post)) = true.
Proof.
  destruct m as [|c m]; [congruence|]. cbn [forall_chars].
  intros _ H. apply andb_true_iff in H. now destruct H.
Qed.

Lemma word_last :
  forall m p,
    forall_chars is_word m = true ->
    m <> ""%string \/ word_opt p = true ->
    word_opt (before_after m p) = true.
Proof.
  induction m as [|c m IH]; intros p Hm Hp.
  - destruct Hp as [Hp|Hp]; [congruence|exact Hp].
  - rewrite before_after_cons. cbn [forall_chars] in Hm.
    apply andb_true_iff in Hm. destruct Hm as [Hc Hm].
    apply IH; [exact Hm|now right].
Qed.

Lemma bug_words_facts (w : string) :
  In w Analyze.bug_words ->
  lower w = w /\ w <> ""%string /\ forall_chars (between 97 122) w = true.
Proof.
  simpl. intros H.
  repeat (destruct H as [<-|H];
          [split; [reflexivity|split; [discriminate|reflexivity]]|]).
  destruct H.
Qed.

Lemma lower_not_empty (m w : string) :
  lower m = w -> w <> ""%string -> m <> ""%string.
Proof. intros <- H ->. now apply H. Qed.

(** The pattern of [analyze.py] finds a keyword exactly when the text holds
    one as a whole word. *)
Lemma has_bug_keyword_whole_word (text : string) :
  Analyze.has_bug_keyword text = true <->
  whole_word_in Analyze.bug_words text.
Proof.
  unfold Analyze.has_bug_keyword, re_search, Analyze.BUG_KEYWORDS.
  rewrite search_from_found. split.
  - intros (pre & post & Ht & Hr).
    apply run_word_pattern in Hr; [|discriminate].
    cbn [before rest] in Hr.
    destruct Hr as (Hz & w & m & post' & Hw & Hpost & Hl & Hx).
    destruct (bug_words_facts w Hw) as (Hlw & Hne & Hletters).
    rewrite Hlw in Hl.
    assert (Hm : forall_chars is_word m = true).
    { apply lower_letters_are_words. now rewrite Hl. }
    assert (Hmne : m <> ""%string) by (eapply lower_not_empty; eauto).
    exists pre, m, post'. repeat split.
    + now rewrite Ht, Hpost.
    + now rewrite Hl.
    + unfold at_wordb in Hz. cbn [before rest] in Hz.
      rewrite Hpost, (word_first m post' Hmne Hm) in Hz.
      unfold before_after in Hz.
      destruct (last_char pre); [|reflexivity].
      now destruct (word_opt (Some a)).
    + rewrite (word_last m _ Hm (or_introl Hmne)) in Hx.
      now destruct (word_opt (next_char post')).
  - intros (pre & w & post & Ht & Hw & Hb & Ha).
    exists pre, (w ++ post)%string. split; [exact Ht|].
    destruct (bug_words_facts (lower w) Hw) as (Hlw & Hne & Hletters).
    assert (Hm : forall_chars is_word w = true)
      by now apply lower_letters_are_words.
    assert (Hmne : w <> ""%string) by (eapply lower_not_empty; eauto).
    apply run_word_pattern; [discriminate|]. cbn [before rest]. split.
    + unfold at_wordb. cbn [before rest].
      rewrite (word_first w post Hmne Hm).
      unfold before_after. destruct (last_char pre); [|reflexivity].
      now rewrite Hb.
    + exists (lower w), w, post. repeat split; auto.
      rewrite (word_last w _ Hm (or_introl Hmne)). now rewrite Ha.
Qed.

Lemma startswith_iff (p : string) :
  forall s, startswith p s = true <-> exists post, s = (p ++ post)%string.
Proof.
  induction p as [|a p IH]; intros s.
  - split; [intros _; now exists s|reflexivity].
  - destruct s as [|b s]; cbn [startswith].
    + split; [discriminate|]. intros (post & H). discriminate H.
    + rewrite andb_true_iff, IH. split.
      * intros (Hab & post & ->). apply Ascii.eqb_eq in Hab. subst b.
        now exists post.
      * intros (post & H). simpl in H. injection H as <- ->.
        split; [apply Ascii.eqb_refl|now exists post].
Qed.

Lemma contains_iff (sub : string) :
  forall s, contains sub s = true <->
            exists pre post, s = (pre ++ sub ++ post)%string.
Proof.
  induction s as [|c s IH]; cbn [contains]; rewrite orb_true_iff.
  - split.
    + intros [H|H]; [|discriminate H]. apply startswith_iff in H.
      destruct H as (post & H). now exists ""%string, post.
    + intros (pre & post & H). left. apply startswith_iff.
      destruct pre; [now exists post|discriminate H].
  - rewrite IH. split.
    + intros [H|(pre & post & ->)].
      * apply startswith_iff in H. destruct H as (post & H).
        now exists ""%string, post.
      * now exists (String c pre), post.
    + intros (pre & post & H). destruct pre as [|x pre].
      * left. apply startswith_iff. now exists post.
      * right. simpl in H. injection H as _ ->. now exists pre, post.
Qed.

Lemma any_in_part (kws : list string) (text : string) :
  Run.any_in kws text = true <-> part_in kws text.
Proof.
  unfold Run.any_in, part_in. rewrite existsb_exists. split.
  - intros (kw & Hkw & H). apply contains_iff in H.
    destruct H as (pre & post & H). now exists kw, pre, post.
  - intros (kw & pre & post & Hkw & H). exists kw. split; [exact Hkw|].
    apply contains_iff. now exists pre, post.
Qed.

(** C3, as the code has it.  The bug-keyword predicate of [analyze.py]
    holds on a text if and only if the text contains, as a whole word and
    in any letter case, one of the eleven keywords fix, bug, error, issue,
    patch, crash, fault, defect, broken, wrong, incorrect, so [prefix] does
    not satisfy it; the fix-keyword predicate of [run.py] holds on the
    lowered diff text if and only if that text contains one of the seven
    keywords fix, bug, error, patch, issue, crash, broken anywhere, inside
    a longer word or not, so [prefix] satisfies it. *)
Theorem keyword_predicates :
  (Analyze.bug_words =
     ["fix"; "bug"; "error"; "issue"; "patch"; "crash"; "fault"; "defect";
      "broken"; "wrong"; "incorrect"] /\
   forall text,
     Analyze.has_bug_keyword text = true <->
     whole_word_in Analyze.bug_words text)
  /\ (Run.FIX_KEYWORDS =
        ["fix"; "bug"; "error"; "patch"; "issue"; "crash"; "broken"] /\
      forall text,
        Run.any_in Run.FIX_KEYWORDS (lower text) = true <->
        part_in Run.FIX_KEYWORDS (lower text))
  /\ Analyze.has_bug_keyword "prefix" = false
  /\ Run.any_in Run.FIX_KEYWORDS (lower "prefix") = true.
Proof.
  split; [split; [reflexivity|apply has_bug_keyword_whole_word]|].
  split; [split; [reflexivity|intros; apply any_in_part]|].
  split; reflexivity.
Qed.

(** C3 as stated fails for [run.py]: [prefix] holds [fix] only inside a
    longer word, and satisfies the predicate. *)
Lemma prefix_satisfies_fix_keyword :
  Run.any_in Run.FIX_KEYWORDS (lower "prefix") = true /\
  ~ whole_word_in Run.FIX_KEYWORDS "prefix" /\
  Run.detect_type Inputs.main_py "prefix" = "fix".
Proof.
  split; [reflexivity|]. split; [|reflexivity].
  intros H.
  assert (Hbug : whole_word_in Analyze.bug_words "prefix").
  { destruct H as (pre & w & post & Ht & Hw & Hb & Ha).
    exists pre, w, post. repeat split; auto.
    simpl in Hw. simpl.
    repeat (destruct Hw as [Hw|Hw]; [rewrite <- Hw; tauto|]). destruct Hw. }
  apply has_bug_keyword_whole_word in Hbug. discriminate Hbug.
Qed.

End KeywordProofs.

(* ================================================================= *)
(** ** The header pattern *)

Section HeaderProofs.
Import Words Analyze Blocks.

Lemma in_run_Lit_exact (w : string) :
  forall z y,
    In y (run false (Lit w) z) <->
    rest z = (w ++ rest y)%string /\
    before y = before_after w (before z) /\ caps y = caps z.
Proof.
  induction w as [|c w IH]; intros z y; simpl.
  - split.
    + intros [<-|[]]. auto.
    + intros (Hr & Hb & Hc). left. unfold before_after in Hb.
      destruct z, y; simpl in *. congruence.
  - rewrite in_flat_map. split.
    + intros (z1 & Hz1 & Hy). revert Hz1.
      destruct (rest z) as [|x s'] eqn:Er; cbn [In]; [intros []|].
      destruct (Ascii.eqb_spec c x) as [Ec|Ec]; cbn [In]; [|intros []].
      intros [<-|[]]. apply IH in Hy. simpl in Hy.
      destruct Hy as (Hr & Hb & Hc). subst x. rewrite Hr.
      repeat split; [|exact Hc].
      rewrite Hb. now rewrite before_after_cons.
    + intros (Hr & Hb & Hc).
      exists (Cur (Some c) (w ++ rest y)%string (caps z)). rewrite Hr. split.
      * rewrite Ascii.eqb_refl. now left.
      * apply IH. simpl. repeat split; [|exact Hc].
        rewrite Hb. now rewrite before_after_cons.
Qed.

Lemma in_star_run (k : cclass) (cs : list (nat * string)) :
  forall s p y,
    In y (star_run k p s cs) <->
    exists m, s = (m ++ rest y)%string /\
              forall_chars (in_class k) m = true /\
              before y = before_after m p /\ caps y = cs.
Proof.
  induction s as [|c s IH]; intros p y; cbn [star_run].
  - cbn [In]. split.
    + intros [<-|[]]. exists ""%string. auto.
    + intros (m & Hs & _ & Hb & Hc). left.
      destruct m; [|discriminate Hs]. unfold before_after in Hb.
      destruct y; simpl in *. congruence.
  - destruct (in_class k c) eqn:Ek.
    + rewrite in_app_iff, IH. cbn [In]. split.
      * intros [(m & Hs & Hm & Hb & Hc)|[<-|[]]].
        -- exists (String c m). simpl. rewrite <- Hs, Ek, Hm.
           rewrite before_after_cons. auto.
        -- exists ""%string. auto.
      * intros (m & Hs & Hm & Hb & Hc). destruct m as [|x m].
        -- right. left. unfold before_after in Hb.
           destruct y; simpl in *. congruence.
        -- left. simpl in Hs. injection Hs as <- ->.
           cbn [forall_chars] in Hm. apply andb_true_iff in Hm.
           exists m. rewrite before_after_cons in Hb. tauto.
    + cbn [In]. split.
      * intros [<-|[]]. exists ""%string. auto.
      * intros (m & Hs & Hm & Hb & Hc). left. destruct m as [|x m].
        -- unfold before_after in Hb. destruct y; simpl in *. congruence.
        -- simpl in Hs. injection Hs as <- ->.
           cbn [forall_chars] in Hm. rewrite Ek in Hm. discriminate Hm.
Qed.

Lemma star_run_not_nil (k : cclass) (p : option ascii) (s : string)
  (cs : list (nat * string)) : star_run k p s cs <> [].
Proof.
  apply nonempty_has. exists (Cur p s cs). apply in_star_run.
  exists ""%string. auto.
Qed.

Lemma found_hd_error (l : list cursor) :
  found (hd_error l) = true <-> l <> [].
Proof. destruct l; simpl; split; congruence. Qed.

Lemma is_header_iff (line : string) :
  is_header line = true <->
  exists old tail,
    line = ("diff --git a/" ++ old ++ " b/" ++ tail)%string /\
    forall_chars (fun c => negb (code c =? 10)) old = true.
Proof.
  unfold is_header, re_match. rewrite found_hd_error.
  change header_re
    with (Cat Bol (Cat (Lit "diff --git a/")
            (Cat (Grp 1 (Star CAny)) (Cat (Lit " b/") (Grp 2 (Star CAny)))))).
  rewrite nonempty_has. cbn [run at_bol before]. split.
  - intros (y & Hy).
    apply in_flat_map in Hy. destruct Hy as (z1 & [<-|[]] & Hy).
    apply in_flat_map in Hy. destruct Hy as (z2 & Hz2 & Hy).
    apply in_run_Lit_exact in Hz2. destruct Hz2 as (H2 & _ & _).
    apply in_flat_map in Hy. destruct Hy as (z3 & Hz3 & Hy).
    apply in_map_iff in Hz3. destruct Hz3 as (y3 & <- & Hy3).
    apply in_star_run in Hy3. destruct Hy3 as (m & Hm & Hany & _ & _).
    apply in_flat_map in Hy. destruct Hy as (z4 & Hz4 & Hy).
    apply in_run_Lit_exact in Hz4. destruct Hz4 as (H4 & _ & _).
    cbn [rest] in *. exists m, (rest z4). split; [|exact Hany].
    now rewrite H2, Hm, H4.
  - intros (old & tail & -> & Hold).
    set (z2 := Cur (before_after "diff --git a/" None)
                   (old ++ " b/" ++ tail)%string []).
    set (y3 := Cur (before_after old (before z2)) (" b/" ++ tail)%string []).
    set (z3 := Cur (before y3) (rest y3) ((1, consumed z2 y3) :: caps y3)).
    set (z4 := Cur (before_after " b/" (before z3)) tail (caps z3)).
    destruct (proj1 (nonempty_has (star_run CAny (before z4) (rest z4) (caps z4)))
                (star_run_not_nil _ _ _ _)) as (y5 & Hy5).
    exists (Cur (before y5) (rest y5) ((2, consumed z4 y5) :: caps y5)).
    apply in_flat_map. eexists. split; [now left|].
    apply in_flat_map. exists z2. split.
    { apply in_run_Lit_exact. repeat split. }
    apply in_flat_map. exists z3. split.
    { apply in_map_iff. exists y3. split; [reflexivity|].
      apply in_star_run. exists old. repeat split. exact Hold. }
    apply in_flat_map. exists z4. split.
    { apply in_run_Lit_exact. repeat split. }
    apply in_map_iff. exists y5. split; [reflexivity|exact Hy5].
Qed.

(** C9. [parse_diff] is a total function.  A line matches the header
    pattern exactly when it reads [diff --git a/OLD b/NEW] (the first [.*]
    cannot cross a line feed); on an input none of whose lines matches it,
    [parse_diff] returns the empty sequence; and the lines that come before
    the first header do not change its result. *)
Theorem parse_diff_without_header :
  (forall raw,
      (forall l, In l (splitlines raw) -> is_header l = false) ->
      parse_diff raw = [])
  /\ (forall pre lines,
         (forall l, In l pre -> is_header l = false) ->
         parse_lines (pre ++ lines) = parse_lines lines)
  /\ (forall line,
         is_header line = true <->
         exists old tail,
           line = ("diff --git a/" ++ old ++ " b/" ++ tail)%string /\
           forall_chars (fun c => negb (code c =? 10)) old = true).
Proof.
  split; [|split].
  - intros raw H. unfold parse_diff.
    now rewrite parse_lines_blocks, blocks_no_header.
  - intros pre lines H. now rewrite !parse_lines_blocks, blocks_skip.
  - apply is_header_iff.
Qed.

Lemma parse_diff_without_header_witness :
  (forall l, In l (splitlines Inputs.no_header_text) -> is_header l = false)
  /\ parse_diff Inputs.no_header_text = [].
Proof.
  assert (H : forall l, In l (splitlines Inputs.no_header_text) ->
                        is_header l = false).
  { intros l Hl. vm_compute in Hl.
    destruct Hl as [<-|[<-|[<-|[]]]]; reflexivity. }
  split; [exact H|].
  exact (proj1 parse_diff_without_header Inputs.no_header_text H).
Defined.

End HeaderProofs.

(* ================================================================= *)
(** ** The records of the parser, field by field *)

Section ReadingProofs.
Import Analyze Blocks Reading.

Lemma first_char_kinds (l : string) :
  (marks_new l = true -> is_added l = false /\ is_removed l = false) /\
  (marks_deleted l = true -> is_added l = false /\ is_removed l = false) /\
  (is_added l = true -> is_removed l = false).
Proof.
  unfold marks_new, marks_deleted, is_added, is_removed.
  destruct l as [|c l]; [repeat split; discriminate|].
  cbn [startswith].
  destruct (Ascii.eqb_spec "n" c) as [En|En];
    destruct (Ascii.eqb_spec "d" c) as [Ed|Ed];
    destruct (Ascii.eqb_spec "+" c) as [Ep|Ep];
    destruct (Ascii.eqb_spec "-" c) as [Em|Em];
    try congruence;
    cbn [andb]; repeat split; intros; try reflexivity; try discriminate.
Qed.

Lemma apply_lines_fields :
  forall lines f,
    fold_left apply_line lines f =
    {| old_path := old_path f;
       new_path := new_path f;
       is_new := is_new f || existsb marks_new lines;
       is_deleted := is_deleted f || existsb marks_deleted lines;
       added_lines := added_lines f ++ map (drop 1) (filter is_added lines);
       deleted_lines :=
         deleted_lines f ++ map (drop 1) (filter is_removed lines) |}.
Proof.
  induction lines as [|l lines IH]; intros f.
  - destruct f; simpl. now rewrite !orb_false_r, !app_nil_r.
  - cbn [fold_left]. rewrite IH. clear IH.
    destruct (first_char_kinds l) as (Hn & Hd & Ha).
    unfold apply_line. fold (marks_new l) (marks_deleted l).
    fold (is_added l) (is_removed l). cbn [existsb filter].
    destruct (marks_new l) eqn:En.
    { destruct (Hn eq_refl) as [-> ->].
      rewrite (starts_new_not_deleted l En).
      cbn [set_is_new old_path new_path is_new is_deleted added_lines
           deleted_lines orb]. now rewrite orb_true_r. }
    destruct (marks_deleted l) eqn:Ed.
    { destruct (Hd eq_refl) as [-> ->].
      cbn [set_is_deleted old_path new_path is_new is_deleted added_lines
           deleted_lines orb]. now rewrite orb_true_r. }
    destruct (is_added l) eqn:Ea.
    { rewrite (Ha eq_refl).
      cbn [append_added old_path new_path is_new is_deleted added_lines
           deleted_lines orb map]. now rewrite <- app_assoc. }
    destruct (is_removed l) eqn:Er.
    { cbn [append_deleted old_path new_path is_new is_deleted added_lines
           deleted_lines orb map]. now rewrite <- app_assoc. }
    reflexivity.
Qed.

Lemma blocks_read (lines : list string) :
  map record_of (blocks lines) = map read_block (blocks lines).
Proof.
  induction lines as [|l lines IH]; simpl; [reflexivity|].
  destruct (re_match false header_re l) as [m|]; [|exact IH].
  simpl. rewrite IH. f_equal. unfold record_of. simpl fst. simpl snd.
  now rewrite apply_lines_fields.
Qed.

(** X1. [parse_diff] returns one record per header line of the input, in
    the order of the header lines: as many records as there are lines that
    match the header pattern. *)
Theorem parse_diff_one_record_per_header (raw : string) :
  List.length (parse_diff raw) =
  List.length (filter is_header (splitlines raw)).
Proof.
  unfold parse_diff. rewrite parse_lines_blocks, length_map.
  induction (splitlines raw) as [|l lines IH]; simpl; [reflexivity|].
  unfold is_header at 1.
  destruct (re_match false header_re l); simpl; now rewrite IH.
Qed.

(** X2. Each record of [parse_diff] is read off its block (the lines from
    its header to the next header): the paths are the two groups of the
    header, [is_new] and [is_deleted] tell whether the block has a [new file
    mode], respectively a [deleted file mode] line, and the added
    (respectively deleted) lines are the lines of the block that start with
    [+] but not [+++] (with [-] but not [---]), without their first
    character and in the order of the diff. *)
Theorem parse_diff_reads_blocks (raw : string) :
  parse_diff raw = map read_block (blocks (splitlines raw)).
Proof.
  unfold parse_diff. now rewrite parse_lines_blocks, blocks_read.
Qed.

End ReadingProofs.

(* ================================================================= *)
(** ** More on the per-file vote *)

Section VotingMore.
Import Analyze Voting.

Lemma detect_type_result (fl : list FileChange) :
  fl <> [] ->
  exists best,
    detect_type fl = Some best /\
    first_of_the_most (votes fl) (keys signals0) best /\
    (0 < votes fl best)%Z.
Proof.
  intros Hne. unfold detect_type.
  destruct fl as [|f0 fl0]; [congruence|]. cbv beta iota delta [is_empty].
  set (fs := f0 :: fl0) in *.
  assert (Hsig : fold_left tally fs signals0 = table (votes fs)).
  { change signals0 with (table (fun _ => 0%Z)). rewrite tally_all.
    apply table_ext. intros; lia. }
  rewrite Hsig.
  destruct (py_max (ival (table (votes fs))) (keys (table (votes fs))))
    as [best|] eqn:Hmax; [|discriminate Hmax].
  pose proof (py_max_first _ _ _ Hmax) as Hfirst.
  change (keys (table (votes fs))) with (keys signals0) in Hfirst.
  apply first_of_the_most_ext with (s2 := votes fs) in Hfirst;
    [|intros u Hu; now apply ival_table].
  assert (Hbest : In best (keys signals0)).
  { destruct Hfirst as (e & l & Heq & _). rewrite Heq.
    apply in_or_app; simpl; auto. }
  rewrite ival_table by exact Hbest.
  assert (Hpos : (0 < votes fs best)%Z).
  { destruct Hfirst as (e & l & Heq & He & Hl).
    pose proof (vote_of_key f0) as Hk. rewrite Heq in Hk.
    assert (Hone : (1 <= votes fs (vote_of f0))%Z).
    { unfold fs. rewrite votes_cons, String.eqb_refl.
      pose proof (votes_nonneg fl0 (vote_of f0)). lia. }
    apply in_app_or in Hk. destruct Hk as [Hk|[Hk|Hk]].
    - specialize (He _ Hk). lia.
    - rewrite Hk. lia.
    - specialize (Hl _ Hk). lia. }
  destruct (votes fs best =? 0)%Z eqn:E; [apply Z.eqb_eq in E; lia|].
  exists best. auto.
Qed.

(** X3. The per-file detector never fails and never answers perf: for
    every sequence of records, the empty one included, it returns one of
    feat, fix, test, docs, chore, style, refactor. *)
Theorem detect_type_one_of_seven (fl : list FileChange) :
  exists t,
    detect_type fl = Some t /\
    In t ["feat"; "fix"; "test"; "docs"; "chore"; "style"; "refactor"].
Proof.
  destruct fl as [|f0 fl0].
  - exists "chore"%string. split; [reflexivity|simpl; tauto].
  - destruct (detect_type_result (f0 :: fl0)) as (best & Hd & Hf & _);
      [discriminate|].
    exists best. split; [exact Hd|].
    destruct Hf as (e & l & Heq & _).
    change ["feat"; "fix"; "test"; "docs"; "chore"; "style"; "refactor"]
      with (keys signals0).
    rewrite Heq. apply in_or_app; simpl; auto.
Qed.

(** X4. A type that has strictly more votes than every other type is the
    answer of the per-file detector. *)
Theorem detect_type_plurality (fl : list FileChange) (t : string) :
  In t (keys signals0) ->
  (forall u, In u (keys signals0) -> u <> t ->
             (votes fl u < votes fl t)%Z) ->
  detect_type fl = Some t.
Proof.
  intros Ht Hmore.
  assert (Hne : fl <> []).
  { intros ->. simpl in Ht.
    assert (Hu : exists u, In u (keys signals0) /\ u <> t).
    { destruct (String.eqb_spec t "feat") as [->|E].
      - exists "fix"%string. split; [simpl; tauto|discriminate].
      - exists "feat"%string. split; [simpl; tauto|congruence]. }
    destruct Hu as (u & Hu & Hut). specialize (Hmore u Hu Hut).
    unfold votes, len in Hmore. simpl in Hmore. lia. }
  destruct (detect_type_result fl Hne) as (best & Hd & Hf & _).
  rewrite Hd. f_equal.
  destruct (String.eqb_spec best t) as [E|E]; [exact E|exfalso].
  destruct Hf as (e & l & Heq & He & Hl).
  assert (Hbest : In best (keys signals0))
    by (rewrite Heq; apply in_or_app; simpl; auto).
  specialize (Hmore best Hbest E).
  rewrite Heq in Ht. apply in_app_or in Ht. destruct Ht as [H|[H|H]].
  - specialize (He _ H). lia.
  - congruence.
  - specialize (Hl _ H). lia.
Qed.

Lemma votes_all (fl : list FileChange) (t u : string) :
  (forall f, In f fl -> vote_of f = t) ->
  votes fl u = if String.eqb t u then len fl else 0%Z.
Proof.
  intros H. induction fl as [|f fl IH].
  - unfold votes, len. simpl. now destruct (String.eqb t u).
  - rewrite votes_cons, IH by (intros g Hg; apply H; now right).
    rewrite (H f (or_introl eq_refl)). unfold len. cbn [List.length].
    destruct (String.eqb t u); lia.
Qed.

(** X5. When the first rule that holds is the same for every file of a
    non-empty sequence, the detector returns the type of that rule; so a
    change that touches only test paths is a test change, whatever its
    lines say. *)
Theorem detect_type_unanimous (fl : list FileChange) (t : string) :
  fl <> [] ->
  (forall f, In f fl -> vote_of f = t) ->
  detect_type fl = Some t /\
  ((forall f, In f fl -> is_test_path (new_path f) = true) ->
   detect_type fl = Some "test").
Proof.
  intros Hne Hall.
  assert (Hgen : forall t', (forall f, In f fl -> vote_of f = t') ->
                            detect_type fl = Some t').
  { intros t' Hall'.
    destruct (detect_type_result fl Hne) as (best & Hd & _ & Hpos).
    rewrite Hd. f_equal. rewrite (votes_all fl t' best Hall') in Hpos.
    destruct (String.eqb_spec t' best) as [E|E]; [now symmetry|lia]. }
  split; [now apply Hgen|].
  intros Htest. apply Hgen. intros f Hf.
  unfold vote_of, rules. simpl. now rewrite (Htest f Hf).
Qed.

Lemma detect_type_plurality_witness :
  detect_type (parse_diff Inputs.readme_diff) = Some "docs".
Proof.
  apply detect_type_plurality; [simpl; tauto|].
  intros u Hu Hne. simpl in Hu.
  repeat (destruct Hu as [<-|Hu]; [try congruence; reflexivity|]).
  destruct Hu.
Defined.

Lemma detect_type_unanimous_witness :
  detect_type (parse_diff Inputs.readme_diff) = Some "docs".
Proof.
  apply (detect_type_unanimous (parse_diff Inputs.readme_diff) "docs").
  - vm_compute. discriminate.
  - intros f Hf. vm_compute in Hf. destruct Hf as [<-|[]]. reflexivity.
Defined.

End VotingMore.

(* ================================================================= *)
(** ** More on the scope detector of [analyze.py] *)

Section ScopeMore.
Import Analyze Changes.

Lemma dict_set_fresh {V : Type} (k : string) (v : V) :
  forall d : dict V, ~ In k (keys d) -> dict_set k v d = d ++ [(k, v)].
Proof.
  induction d as [|[k0 v0] d IH]; intros Hk; simpl; [reflexivity|].
  simpl in Hk. destruct (String.eqb_spec k0 k) as [E|E]; [tauto|].
  rewrite IH by tauto. reflexivity.
Qed.

Lemma count_changes_distinct :
  forall fl d,
    NoDup (keys d ++ map new_path fl) ->
    fold_left count_changes fl d =
    d ++ map (fun f => (new_path f, changed f)) fl.
Proof.
  induction fl as [|f fl IH]; intros d Hnd; simpl.
  - now rewrite app_nil_r.
  - simpl in Hnd. unfold count_changes at 2. fold (changed f).
    rewrite dict_set_fresh.
    + rewrite IH.
      * now rewrite <- app_assoc.
      * unfold keys. rewrite map_app. simpl. rewrite <- app_assoc. simpl.
        exact Hnd.
    + apply NoDup_remove_2 in Hnd. intros H. apply Hnd.
      apply in_or_app. now left.
Qed.

Lemma ival_distinct :
  forall fl f,
    NoDup (map new_path fl) -> In f fl ->
    ival (map (fun f => (new_path f, changed f)) fl) (new_path f) = changed f.
Proof.
  unfold ival. induction fl as [|g fl IH]; intros f Hnd Hf; [destruct Hf|].
  simpl. inversion Hnd as [|? ? Hg Hnd']; subst.
  destruct Hf as [<-|Hf].
  - now rewrite String.eqb_refl.
  - destruct (String.eqb_spec (new_path g) (new_path f)) as [E|E].
    + exfalso. apply Hg. rewrite E. now apply in_map.
    + now apply IH.
Qed.

Lemma dirs_hold_tops :
  forall ks acc k,
    In k ks ->
    In (top_of k)
       (fold_left (fun dirs path => set_add (top_of path) dirs) ks acc).
Proof.
  assert (Hkeep : forall ks acc d, In d acc ->
            In d (fold_left (fun dirs path => set_add (top_of path) dirs)
                            ks acc)).
  { induction ks as [|k ks IH]; intros acc d Hd; simpl; [exact Hd|].
    apply IH. unfold set_add.
    destruct (existsb (String.eqb (top_of k)) acc); [exact Hd|].
    apply in_or_app. now left. }
  induction ks as [|k0 ks IH]; intros acc k Hk; [destruct Hk|].
  simpl. destruct Hk as [<-|Hk]; [|now apply IH].
  apply Hkeep. unfold set_add.
  destruct (existsb (String.eqb (top_of k0)) acc) eqn:E.
  - apply existsb_exists in E. destruct E as (x & Hx & E).
    apply String.eqb_eq in E. now subst x.
  - apply in_or_app. right. now left.
Qed.

(** X6. For a non-empty sequence of records with pairwise different paths,
    the scope is the lowered first path segment (or extension-stripped file
    name) of the record with the most changed lines, the first such record
    of the sequence when several tie. *)
Theorem detect_scope_most_changed (fl : list FileChange) :
  fl <> [] ->
  NoDup (map new_path fl) ->
  exists earlier f later,
    fl = earlier ++ f :: later /\
    (forall g, In g earlier -> (changed g < changed f)%Z) /\
    (forall g, In g later -> (changed g <= changed f)%Z) /\
    detect_scope fl = lower (top_of (new_path f)).
Proof.
  intros Hne Hnd. unfold detect_scope.
  destruct fl as [|f0 fl0]; [congruence|]. cbv beta iota delta [is_empty].
  set (fs := f0 :: fl0) in *.
  rewrite (count_changes_distinct fs []) by exact Hnd.
  cbn [app].
  set (cc := map (fun f => (new_path f, changed f)) fs).
  assert (Hkeys : keys cc = map new_path fs).
  { unfold cc, keys. rewrite map_map. reflexivity. }
  rewrite Hkeys.
  destruct (map new_path fs) as [|k1 ks] eqn:Ek; [discriminate Ek|].
  destruct (max_from_first (ival cc) ks k1 [] []) as (e & l & Heq & He & Hl);
    [intros u []|intros u []|].
  cbn [app] in Heq. set (best := max_from (ival cc) k1 ks) in *.
  rewrite <- Ek in Heq.
  apply map_eq_app in Heq. destruct Heq as (l1 & r & Hfs & Hl1 & Hr).
  destruct r as [|f l2]; [discriminate Hr|]. simpl in Hr.
  injection Hr as Hf Hl2.
  assert (Hval : forall g, In g fs -> ival cc (new_path g) = changed g).
  { intros g Hg. unfold cc. apply ival_distinct; [|exact Hg].
    now rewrite Ek. }
  assert (Hfin : In f fs) by (rewrite Hfs; apply in_or_app; simpl; auto).
  exists l1, f, l2. split; [exact Hfs|]. split; [|split].
  - intros g Hg. rewrite <- (Hval g), <- (Hval f), Hf; [|exact Hfin|].
    + apply He. rewrite <- Hl1. now apply in_map.
    + rewrite Hfs. apply in_or_app. now left.
  - intros g Hg. rewrite <- (Hval g), <- (Hval f), Hf; [|exact Hfin|].
    + apply Hl. rewrite <- Hl2. now apply in_map.
    + rewrite Hfs. apply in_or_app. right. now right.
  - rewrite Hf.
    assert (Hinline :
      (let parts := split "/" best in
       if 1 <? List.length parts then lower (hd "" parts)
       else lower (fst (splitext (hd "" parts)))) = lower (top_of best)).
    { unfold top_of. cbv zeta. now destruct (1 <? List.length (split "/" best)). }
    destruct ks as [|k2 ks'].
    + rewrite single_scope. reflexivity.
    + set (dirs := fold_left _ (k1 :: k2 :: ks') []).
      assert (Hin : In (top_of best) dirs).
      { apply dirs_hold_tops. apply max_from_in. }
      destruct dirs as [|d [|d' ds]]; [destruct Hin| |exact Hinline].
      destruct Hin as [->|[]]. reflexivity.
Qed.

Lemma detect_scope_most_changed_witness :
  exists earlier f later,
    parse_diff Inputs.two_files_diff = earlier ++ f :: later /\
    (forall g, In g earlier -> (changed g < changed f)%Z) /\
    (forall g, In g later -> (changed g <= changed f)%Z) /\
    detect_scope (parse_diff Inputs.two_files_diff)
      = lower (top_of (new_path f)).
Proof.
  apply detect_scope_most_changed.
  - vm_compute. discriminate.
  - vm_compute. repeat constructor; simpl; intuition discriminate.
Defined.

Lemma keys_dict_set_in {V : Type} (k : string) (v : V) :
  forall (d : dict V) k',
    k' = k \/ In k' (keys d) -> In k' (keys (dict_set k v d)).
Proof.
  induction d as [|[k0 v0] d IH]; intros k' H; simpl.
  - destruct H as [H|[]]. now left.
  - destruct (String.eqb_spec k0 k) as [E|E]; simpl.
    + destruct H as [->|[H|H]]; auto.
    + destruct H as [->|[H|H]]; auto.
Qed.

Lemma keys_count_changes_grow :
  forall fl d k,
    In k (keys d) -> In k (keys (fold_left count_changes fl d)).
Proof.
  induction fl as [|f fl IH]; intros d k Hk; simpl; [exact Hk|].
  apply IH. unfold count_changes. apply keys_dict_set_in. now right.
Qed.

Lemma dirs_no_repetition :
  forall ks acc,
    NoDup acc ->
    NoDup (fold_left (fun dirs path => set_add (top_of path) dirs) ks acc).
Proof.
  induction ks as [|k ks IH]; intros acc Hacc; simpl; [exact Hacc|].
  apply IH. unfold set_add.
  destruct (existsb (String.eqb (top_of k)) acc) eqn:E; [exact Hacc|].
  apply NoDup_app; [exact Hacc|constructor; [intros []|constructor]|].
  intros x Hx [<-|[]].
  assert (Ht : existsb (String.eqb (top_of k)) acc = true).
  { apply existsb_exists. exists (top_of k). split; [exact Hx|].
    apply String.eqb_refl. }
  congruence.
Qed.

(** X7. When all the records of a non-empty sequence have the same first
    path segment (or, without a directory part, the same extension-stripped
    file name), the scope is that name in lower case, whatever the line
    counts and whether or not paths repeat. *)
Theorem detect_scope_common_top (fl : list FileChange) (d : string) :
  fl <> [] ->
  (forall f, In f fl -> top_of (new_path f) = d) ->
  detect_scope fl = lower d.
Proof.
  intros Hne Hall. unfold detect_scope.
  destruct fl as [|f0 fl0]; [congruence|]. cbv beta iota delta [is_empty].
  set (fs := f0 :: fl0) in *.
  set (cc := fold_left count_changes fs []).
  assert (Hk : forall k, In k (keys cc) -> top_of k = d).
  { intros k Hk. apply keys_count_changes in Hk.
    destruct Hk as [[]|(f & Hf & <-)]. now apply Hall. }
  assert (Hin : In (new_path f0) (keys cc)).
  { unfold cc, fs. simpl. apply keys_count_changes_grow.
    unfold count_changes. simpl. now left. }
  destruct (keys cc) as [|k1 [|k2 ks]] eqn:Ek; [destruct Hin| |].
  - rewrite single_scope, Hk; [reflexivity|now left].
  - set (dirs := fold_left _ (k1 :: k2 :: ks) []).
    assert (Hd : forall x, In x dirs -> x = d).
    { intros x Hx. apply dirs_from_keys in Hx.
      destruct Hx as [[]|(k & Hkin & ->)]. now apply Hk. }
    assert (H1 : In (top_of k1) dirs) by (apply dirs_hold_tops; now left).
    assert (Hnd : NoDup dirs) by (apply dirs_no_repetition; constructor).
    destruct dirs as [|x [|y ds]]; [destruct H1| |].
    + now rewrite (Hd x (or_introl eq_refl)).
    + exfalso. inversion Hnd as [|? ? Hx _]; subst. apply Hx.
      rewrite (Hd x), (Hd y); simpl; auto.
Qed.

Lemma detect_scope_common_top_witness :
  detect_scope Inputs.six_changes = "src".
Proof.
  apply (detect_scope_common_top Inputs.six_changes "src").
  - discriminate.
  - intros f Hf. simpl in Hf.
    repeat (destruct Hf as [<-|Hf]; [reflexivity|]). destruct Hf.
Defined.

End ScopeMore.

(* ================================================================= *)
(** ** More on the subject of [analyze.py] *)

Section SummaryMore.
Import Analyze Clauses.

Lemma split_free (sep : ascii) :
  forall s, free_of sep s = true -> split sep s = [s].
Proof.
  unfold free_of. induction s as [|c s IH]; simpl; [reflexivity|].
  intros H. apply andb_true_iff in H. destruct H as [Hc Hs].
  apply negb_true_iff in Hc. rewrite Hc, (IH Hs). reflexivity.
Qed.

Lemma split_last (sep : ascii) :
  forall s,
    free_of sep (last (split sep s) "") = true /\
    exists pre,
      s = (pre ++ last (split sep s) "")%string /\
      (pre = ""%string \/ exists d, pre = (d ++ String sep "")%string).
Proof.
  induction s as [|c s IH].
  - split; [reflexivity|]. exists ""%string. auto.
  - destruct IH as (Hfree & pre & Hs & Hpre). cbn [split].
    destruct (Ascii.eqb_spec c sep) as [->|Hc].
    + pose proof (split_not_nil sep s) as Hne.
      destruct (split sep s) as [|w ws] eqn:E; [congruence|].
      change (last ("" :: w :: ws)%string "") with (last (w :: ws) "").
      split; [exact Hfree|].
      exists (String sep pre). split; [cbn [append]; f_equal; exact Hs|].
      right. destruct Hpre as [->|(d & ->)].
      * now exists ""%string.
      * now exists (String sep d).
    + pose proof (split_not_nil sep s) as Hne.
      destruct (split sep s) as [|w [|w' ws]] eqn:E; [congruence| |].
      * apply split_single in E. subst w. simpl in Hfree |- *.
        split.
        -- unfold free_of in *. simpl. rewrite Hfree.
           apply Ascii.eqb_neq in Hc. now rewrite Hc.
        -- exists ""%string. auto.
      * change (last (String c w :: w' :: ws) "") with (last (w' :: ws) "").
        change (last (w :: w' :: ws) "") with (last (w' :: ws) "") in *.
        split; [exact Hfree|].
        exists (String c pre). split; [cbn [append]; f_equal; exact Hs|].
        right. destruct Hpre as [->|(d & ->)].
        -- simpl in Hs. rewrite Hs in E. rewrite split_free in E by exact Hfree.
           discriminate E.
        -- now exists (String c d).
Qed.

(** X8. The subject of a single record names the file by the part of its
    path after the last slash: the subject is one of seven fixed phrases
    followed by that name, the name holds no slash, and what comes before
    it in the path is empty or ends with a slash.  The phrase is [add] for
    a new file and [remove] for a deleted one that is not new, whatever the
    type. *)
Theorem detect_summary_names_file (f : FileChange) (t : string) :
  exists verb dir,
    detect_summary [f] t = (verb ++ basename (new_path f))%string /\
    In verb ["add "; "remove "; "fix issue in "; "refactor "; "format ";
             "update tests in "; "update "] /\
    new_path f = (dir ++ basename (new_path f))%string /\
    (dir = ""%string \/ exists d, dir = (d ++ "/")%string) /\
    free_of "/" (basename (new_path f)) = true /\
    (is_new f = true -> verb = "add "%string) /\
    (is_new f = false -> is_deleted f = true -> verb = "remove "%string).
Proof.
  destruct (split_last "/" (new_path f)) as (Hfree & dir & Hp & Hdir).
  fold (basename (new_path f)) in Hfree, Hp.
  assert (H : exists verb,
            detect_summary [f] t = (verb ++ basename (new_path f))%string /\
            In verb ["add "; "remove "; "fix issue in "; "refactor ";
                     "format "; "update tests in "; "update "] /\
            (is_new f = true -> verb = "add "%string) /\
            (is_new f = false -> is_deleted f = true ->
             verb = "remove "%string)).
  { unfold detect_summary.
    destruct (is_new f).
    { exists "add "%string. simpl. intuition congruence. }
    destruct (is_deleted f).
    { exists "remove "%string. simpl. intuition congruence. }
    destruct (String.eqb t "fix").
    { exists "fix issue in "%string. simpl. intuition congruence. }
    destruct (String.eqb t "refactor").
    { exists "refactor "%string. simpl. intuition congruence. }
    destruct (String.eqb t "style").
    { exists "format "%string. simpl. intuition congruence. }
    destruct (String.eqb t "docs").
    { exists "update "%string. simpl. intuition congruence. }
    destruct (String.eqb t "test").
    { exists "update tests in "%string. simpl. intuition congruence. }
    exists "update "%string. simpl. intuition congruence. }
  destruct H as (verb & Hs & Hv & Hn & Hd).
  exists verb, dir. repeat split; auto.
Qed.

Lemma how_many_split (fl : list FileChange) :
  (forall f, In f fl -> is_new f && is_deleted f = false) ->
  (len fl - how_many is_new fl - how_many is_deleted fl =
   how_many (fun f => negb (is_new f) && negb (is_deleted f)) fl)%Z.
Proof.
  unfold how_many, len. induction fl as [|f fl IH]; intros H; [reflexivity|].
  assert (IH' := IH (fun g Hg => H g (or_intror Hg))).
  specialize (H f (or_introl eq_refl)). cbn [filter List.length].
  destruct (is_new f), (is_deleted f); try discriminate H;
    cbn [negb andb List.length]; lia.
Qed.

(** X9. For two or more records none of which is both new and deleted, the
    three counts of the subject split the records: the update clause counts
    exactly the records that are neither new nor deleted, and the counts of
    the add, remove and update clauses add up to the number of records. *)
Theorem detect_summary_counts_split (fl : list FileChange) (t : string) :
  2 <= List.length fl ->
  (forall f, In f fl -> is_new f && is_deleted f = false) ->
  detect_summary fl t =
    join ", "
      (clauses
         [("add", how_many is_new fl);
          ("remove", how_many is_deleted fl);
          ("update",
           how_many (fun f => negb (is_new f) && negb (is_deleted f)) fl)])
  /\ (how_many is_new fl + how_many is_deleted fl
      + how_many (fun f => negb (is_new f) && negb (is_deleted f)) fl
      = len fl)%Z.
Proof.
  intros Hlen Hex. pose proof (how_many_split fl Hex) as Hmod.
  split; [|lia]. rewrite <- Hmod. unfold detect_summary.
  destruct fl as [|f1 [|f2 fl]]; try (simpl in Hlen; lia).
  set (fs := f1 :: f2 :: fl) in *.
  pose proof (how_many_bounds is_new fs) as Hn.
  pose proof (how_many_bounds is_deleted fs) as Hd.
  assert (Hl : (2 <= len fs)%Z) by (unfold len; lia).
  cbv beta iota zeta delta [clauses filter snd fst].
  destruct (Z.eqb_spec (how_many is_new fs) 0) as [E1|E1];
    destruct (Z.eqb_spec (how_many is_deleted fs) 0) as [E2|E2];
    destruct (Z.eqb_spec (len fs - how_many is_new fs
                          - how_many is_deleted fs) 0) as [E3|E3];
    try reflexivity.
  exfalso. lia.
Qed.

Lemma detect_summary_counts_split_witness :
  detect_summary Inputs.six_changes "feat"
    = "add 2 files, remove 1 file, update 3 files".
Proof.
  destruct (detect_summary_counts_split Inputs.six_changes "feat") as [H _].
  - simpl. lia.
  - intros f Hf. simpl in Hf.
    repeat (destruct Hf as [<-|Hf]; [reflexivity|]). destruct Hf.
  - rewrite H. reflexivity.
Defined.

End SummaryMore.

(* ================================================================= *)
(** ** More on the whole-diff type detector *)

Section RunTypeMore.
Import Run Reading.

(** X10. The whole-diff detector answers one of chore, feat, test, docs,
    fix, perf, refactor, and never style. *)
Theorem run_detect_type_one_of_seven (fl : list StagedFile) (diff : string) :
  In (detect_type fl diff)
     ["chore"; "feat"; "test"; "docs"; "fix"; "perf"; "refactor"].
Proof.
  unfold detect_type.
  destruct (is_empty fl); [simpl; tauto|].
  destruct (all_new fl); [simpl; tauto|].
  destruct (all_tests fl); [simpl; tauto|].
  destruct (all_docs fl); [simpl; tauto|].
  destruct (all_config fl); [simpl; tauto|].
  cbv zeta.
  destruct (any_in FIX_KEYWORDS (lower diff)); [simpl; tauto|].
  destruct (any_in PERF_KEYWORDS (lower diff)); [simpl; tauto|].
  destruct ((added_count (lower diff) <? removed_count (lower diff))%Z
            && (5 <? removed_count (lower diff))%Z); simpl; tauto.
Qed.

Lemma count_from_drop (sub : string) :
  forall s k, count_from sub k s = count_from sub 0 (drop k s).
Proof.
  induction s as [|c s IH]; intros k.
  - destruct k; reflexivity.
  - destruct k as [|k]; [reflexivity|]. cbn [count_from drop]. apply IH.
Qed.

Lemma startswith_free_line (t : string) :
  free_of LF t = true ->
  forall s, startswith t s = startswith t (hd ""%string (split LF s)).
Proof.
  unfold free_of. induction t as [|a t IH]; intros Ht s; [reflexivity|].
  cbn [forall_chars] in Ht. apply andb_true_iff in Ht.
  destruct Ht as [Ha Ht]. apply negb_true_iff in Ha.
  destruct s as [|c s]; [reflexivity|]. cbn [split].
  destruct (Ascii.eqb_spec c LF) as [->|Hc].
  - cbn [hd startswith]. now rewrite Ha.
  - pose proof (split_not_nil LF s) as Hne.
    specialize (IH Ht s).
    destruct (split LF s) as [|w ws]; [congruence|].
    cbn [hd startswith] in *. now rewrite IH.
Qed.

Lemma count_free_prefix (sub' t : string) :
  free_of LF t = true ->
  forall rest,
    count_from (String LF sub') 0 (t ++ rest) =
    count_from (String LF sub') 0 rest.
Proof.
  unfold free_of. induction t as [|a t IH]; intros Ht rest; [reflexivity|].
  cbn [forall_chars] in Ht. apply andb_true_iff in Ht.
  destruct Ht as [Ha Ht]. apply negb_true_iff in Ha.
  cbn [append count_from startswith].
  rewrite Ascii.eqb_sym, Ha. cbn [andb]. now apply IH.
Qed.

Lemma startswith_split (t : string) :
  forall s, startswith t s = true ->
            s = (t ++ drop (length t) s)%string.
Proof.
  induction t as [|a t IH]; intros s H; [reflexivity|].
  destruct s as [|c s]; [discriminate H|]. cbn [startswith] in H.
  apply andb_true_iff in H. destruct H as [Hc Hs].
  apply Ascii.eqb_eq in Hc. subst c. cbn [length drop append].
  f_equal. now apply IH.
Qed.

Lemma count_step (t : string) (c : ascii) (s : string) :
  free_of LF t = true ->
  count_from (String LF t) 0 (String c s) =
  (if Ascii.eqb LF c && startswith t s then 1 else 0)
  + count_from (String LF t) 0 s.
Proof.
  intros Ht. cbn [count_from startswith].
  assert (Hlen : length (String LF t) - 1 = length t)
    by (cbn [length]; lia).
  rewrite Hlen.
  destruct (Ascii.eqb LF c && startswith t s) eqn:E; [|reflexivity].
  apply andb_true_iff in E. destruct E as [_ Hs].
  rewrite count_from_drop.
  rewrite (startswith_split t s Hs) at 2.
  now rewrite count_free_prefix.
Qed.

Lemma count_is_lines (t : string) :
  free_of LF t = true ->
  forall s,
    count (String LF t) s =
    List.length (filter (startswith t) (tl (split LF s))).
Proof.
  intros Ht. unfold count. induction s as [|c s IH]; [reflexivity|].
  rewrite count_step by exact Ht. rewrite IH. cbn [split].
  destruct (Ascii.eqb_spec c LF) as [->|Hc].
  - rewrite Ascii.eqb_refl. cbn [andb tl].
    rewrite (startswith_free_line t Ht s).
    pose proof (split_not_nil LF s) as Hne.
    destruct (split LF s) as [|w ws]; [congruence|].
    cbn [hd filter tl]. destruct (startswith t w); reflexivity.
  - assert (E : Ascii.eqb LF c = false)
      by (apply Ascii.eqb_neq; congruence).
    rewrite E. cbn [andb].
    pose proof (split_not_nil LF s) as Hne.
    destruct (split LF s) as [|w ws]; [congruence|]. reflexivity.
Qed.

Lemma filter_difference {A : Type} (p q : A -> bool) (l : list A) :
  (forall x, q x = true -> p x = true) ->
  (Z.of_nat (List.length (filter p l)) - Z.of_nat (List.length (filter q l))
   = len (filter (fun x => p x && negb (q x)) l))%Z.
Proof.
  intros H. unfold len. induction l as [|x l IH]; [reflexivity|].
  cbn [filter]. specialize (H x).
  destruct (p x), (q x); cbn [andb negb List.length];
    try lia; discriminate (H eq_refl).
Qed.

Lemma startswith_longer (l : string) (a : ascii) :
  startswith (String a (String a (String a ""))) l = true ->
  startswith (String a "") l = true.
Proof.
  destruct l as [|c l]; [discriminate|]. cbn [startswith].
  intros H. apply andb_true_iff in H. destruct H as [-> _]. reflexivity.
Qed.

Lemma run_line_counts_lemma (text : string) :
  added_count text = len (filter is_added (tl (split LF text))) /\
  removed_count text = len (filter is_removed (tl (split LF text))).
Proof.
  split.
  - unfold added_count.
    change (nl ++ "+")%string with (String LF "+").
    change (nl ++ "+++")%string with (String LF "+++").
    rewrite !count_is_lines by reflexivity.
    apply filter_difference. intros l. apply startswith_longer.
  - unfold removed_count.
    change (nl ++ "-")%string with (String LF "-").
    change (nl ++ "---")%string with (String LF "---").
    rewrite !count_is_lines by reflexivity.
    apply filter_difference. intros l. apply startswith_longer.
Qed.

(** X11. The added line count of the whole-diff detector is the number of
    lines of the text, the first line apart, that start with [+] but not
    with [+++]; the removed line count is the number of such lines that
    start with [-] but not with [---]: the same lines that the parser of
    [analyze.py] takes for added and removed lines.  Neither count is
    negative. *)
Theorem run_line_counts (text : string) :
  added_count text = len (filter is_added (tl (split LF text))) /\
  removed_count text = len (filter is_removed (tl (split LF text))) /\
  (0 <= added_count text)%Z /\ (0 <= removed_count text)%Z.
Proof.
  destruct (run_line_counts_lemma text) as [Ha Hr].
  rewrite Ha, Hr. unfold len. repeat split; lia.
Qed.

End RunTypeMore.

(* ================================================================= *)
(** ** The last rule of the whole-diff type detector *)

Section RunTypeProofs.
Import Run Reading.

(** C2, as the code has it.  When none of the earlier whole-diff rules
    fires, the detector returns refactor exactly when its removed count is
    larger than its added count and larger than 5, and feat otherwise.
    The counts are taken on the lowered diff text, cut at its line feeds,
    the first line apart: the removed count is the number of lines that
    start with [-] but not with [---], the added count the number of lines
    that start with [+] but not with [+++]. *)
Theorem run_detect_type_last_rule (fl : list StagedFile) (diff : string) :
  all_new fl = false -> all_tests fl = false -> all_docs fl = false ->
  all_config fl = false ->
  any_in FIX_KEYWORDS (lower diff) = false ->
  any_in PERF_KEYWORDS (lower diff) = false ->
  let lines := tl (split LF (lower diff)) in
  let added := len (filter is_added lines) in
  let removed := len (filter is_removed lines) in
  ((added < removed /\ 5 < removed)%Z -> detect_type fl diff = "refactor") /\
  (~ (added < removed /\ 5 < removed)%Z -> detect_type fl diff = "feat").
Proof.
  intros Hn Ht Hd Hc Hf Hp. cbv zeta.
  destruct (run_line_counts_lemma (lower diff)) as [Ha Hr].
  rewrite <- Ha, <- Hr. unfold detect_type.
  destruct fl as [|f0 fl0]; [discriminate Hn|].
  cbv beta iota zeta delta [is_empty].
  rewrite Hn, Ht, Hd, Hc, Hf, Hp.
  destruct (Z.ltb_spec (added_count (lower diff))
                       (removed_count (lower diff))) as [L1|L1];
    destruct (Z.ltb_spec 5 (removed_count (lower diff))) as [L2|L2]; simpl;
    split; intros H; try reflexivity; exfalso; lia.
Qed.

End RunTypeProofs.

Section RunTypeExamples.
Import Run Reading Inputs.

Lemma run_detect_type_last_rule_witness :
  detect_type main_py six_removed_five_added = "refactor" /\
  detect_type main_py six_dashed_removed = "feat".
Proof.
  split.
  - refine (proj1 (run_detect_type_last_rule main_py six_removed_five_added
                     eq_refl eq_refl eq_refl eq_refl eq_refl eq_refl) _).
    vm_compute. split; reflexivity.
  - refine (proj2 (run_detect_type_last_rule main_py six_dashed_removed
                     eq_refl eq_refl eq_refl eq_refl eq_refl eq_refl) _).
    vm_compute. intros [H _]. discriminate H.
Defined.

(** C2 as stated fails: six lines removed and five added differ by one,
    yet no earlier rule fires and the type is refactor. *)
Lemma run_detect_type_small_excess :
  all_new main_py = false /\ all_tests main_py = false /\
  all_docs main_py = false /\ all_config main_py = false /\
  any_in FIX_KEYWORDS (lower six_removed_five_added) = false /\
  any_in PERF_KEYWORDS (lower six_removed_five_added) = false /\
  (removed_count (lower six_removed_five_added)
   - added_count (lower six_removed_five_added) = 1)%Z /\
  detect_type main_py six_removed_five_added = "refactor".
Proof. repeat split; reflexivity. Qed.

(** A removed line whose own text begins with two dashes shows in the diff
    as a line that starts with [---] and is not counted: six such removals
    and no addition give a removed count of 0 and the type feat. *)
Lemma run_detect_type_dashed_lines :
  all_new main_py = false /\ all_tests main_py = false /\
  all_docs main_py = false /\ all_config main_py = false /\
  any_in FIX_KEYWORDS (lower six_dashed_removed) = false /\
  any_in PERF_KEYWORDS (lower six_dashed_removed) = false /\
  len (filter is_removed (tl (split LF (lower six_dashed_removed)))) = 0%Z /\
  removed_count (lower six_dashed_removed) = 0%Z /\
  detect_type main_py six_dashed_removed = "feat".
Proof. repeat split; reflexivity. Qed.

End RunTypeExamples.

(* ================================================================= *)
(** ** More on the scope detector of [run.py] *)

Section RunScopeMore.
Import Run.

Lemma split_app_sep (sep : ascii) (a : string) :
  free_of sep a = true ->
  forall b, split sep (a ++ String sep b) = a :: split sep b.
Proof.
  unfold free_of. induction a as [|c a IH]; intros Ha b.
  - cbn [append split]. now rewrite Ascii.eqb_refl.
  - cbn [forall_chars] in Ha. apply andb_true_iff in Ha.
    destruct Ha as [Hc Ha]. apply negb_true_iff in Hc.
    cbn [append split]. rewrite Hc, (IH Ha). reflexivity.
Qed.

Lemma splitroot_free (p : string) :
  free_of "/" p = true -> splitroot p = (""%string, p).
Proof.
  unfold free_of. destruct p as [|c p]; [reflexivity|].
  cbn [forall_chars]. intros H. apply andb_true_iff in H.
  destruct H as [Hc _]. apply negb_true_iff in Hc.
  apply Ascii.eqb_neq in Hc. unfold splitroot.
  destruct (Ascii.eqb_spec c "/") as [E|E]; [congruence|].
  destruct c as [[] [] [] [] [] [] [] []]; try reflexivity. congruence.
Qed.

Lemma parts_of_free (p : string) :
  free_of "/" p = true -> List.length (parts_of p) <= 1.
Proof.
  intros H. unfold parts_of, path_tail. rewrite (splitroot_free p H).
  cbn [fst snd]. destruct p as [|c p]; [simpl; lia|].
  rewrite (split_free "/" _ H). cbn [filter].
  destruct (negb (String.eqb (String c p) "")
            && negb (String.eqb (String c p) ".")); simpl; lia.
Qed.

(** X12. Files without a directory part give no scope: when no path of the
    sequence holds a slash, the scope of [run.py] is empty. *)
Theorem run_detect_scope_root_level (fl : list StagedFile) :
  (forall f, In f fl -> free_of "/" (path f) = true) ->
  detect_scope fl = ""%string.
Proof.
  intros H. unfold detect_scope. destruct (is_empty fl); [reflexivity|].
  assert (Hd : forall l acc,
            (forall f, In f l -> free_of "/" (path f) = true) ->
            fold_left collect_dir l acc = acc).
  { induction l as [|f l IH]; intros acc Hl; [reflexivity|].
    cbn [fold_left]. unfold collect_dir at 2.
    pose proof (parts_of_free (path f) (Hl f (or_introl eq_refl))) as Hp.
    destruct (Nat.ltb_spec 1 (List.length (parts_of (path f)))); [lia|].
    apply IH. intros g Hg. apply Hl. now right. }
  rewrite (Hd fl [] H). reflexivity.
Qed.

Lemma run_detect_scope_root_level_witness :
  detect_scope [Inputs.staged "M" "README.md"; Inputs.staged "A" "setup.py"]
    = ""%string.
Proof.
  apply run_detect_scope_root_level.
  intros f [<-|[<-|[]]]; reflexivity.
Defined.

Lemma parts_of_two (a b : string) :
  free_of "/" a = true -> free_of "/" b = true ->
  a <> ""%string -> a <> "."%string -> b <> ""%string -> b <> "."%string ->
  parts_of (a ++ "/" ++ b) = [a; b].
Proof.
  intros Ha Hb Ha1 Ha2 Hb1 Hb2.
  assert (Hroot : splitroot (a ++ "/" ++ b) = (""%string, (a ++ "/" ++ b)%string)).
  { destruct a as [|c a]; [congruence|].
    unfold free_of in Ha. cbn [forall_chars] in Ha.
    apply andb_true_iff in Ha. destruct Ha as [Hc _].
    apply negb_true_iff in Hc. apply Ascii.eqb_neq in Hc.
    cbn [append]. unfold splitroot.
    destruct c as [[] [] [] [] [] [] [] []]; try reflexivity. congruence. }
  unfold parts_of, path_tail. rewrite Hroot. cbn [fst snd].
  destruct (a ++ "/" ++ b)%string eqn:E.
  { destruct a; [congruence|discriminate E]. }
  rewrite <- E. change ("/" ++ b)%string with (String "/" b).
  rewrite (split_app_sep "/" a Ha), (split_free "/" b Hb).
  cbn [filter].
  apply String.eqb_neq in Ha1, Ha2, Hb1, Hb2.
  now rewrite Ha1, Ha2, Hb1, Hb2.
Qed.

(** X13. A single file directly under one of the conventional roots [src],
    [lib], [app], [pkg] gets its own file name as scope, extension
    included; a single file directly under any other directory gets that
    directory. *)
Theorem run_detect_scope_one_level (s dir name : string) :
  free_of "/" dir = true -> free_of "/" name = true ->
  dir <> ""%string -> dir <> "."%string ->
  name <> ""%string -> name <> "."%string ->
  detect_scope [{| status := s; path := (dir ++ "/" ++ name)%string |}] =
    if mem dir roots then name else dir.
Proof.
  intros Hd Hn Hd1 Hd2 Hn1 Hn2.
  unfold detect_scope. cbn [is_empty fold_left]. unfold collect_dir.
  cbn [path]. rewrite (parts_of_two dir name Hd Hn Hd1 Hd2 Hn1 Hn2).
  cbn [List.length Nat.ltb Nat.leb app]. unfold dir_of.
  cbn [nth List.length Nat.ltb Nat.leb].
  assert (Hcount : forall d, d <> ""%string ->
            (if is_empty [d] || forallb (fun x => String.eqb x "") [d]
             then ""%string
             else match py_max (ival (fold_left count_dir [d] []))
                               (keys (fold_left count_dir [d] [])) with
                  | Some k => k
                  | None => ""%string
                  end) = d).
  { intros d Hne. apply String.eqb_neq in Hne.
    cbn [is_empty forallb orb andb fold_left]. unfold count_dir.
    rewrite Hne. reflexivity. }
  destruct (mem dir roots); cbn [andb negb]; now apply Hcount.
Qed.

Lemma run_detect_scope_one_level_witness :
  detect_scope [{| status := "M"; path := ("src" ++ "/" ++ "main.py")%string |}]
    = "main.py"%string.
Proof.
  apply (run_detect_scope_one_level "M" "src" "main.py");
    (reflexivity || discriminate).
Defined.

End RunScopeMore.

(* ================================================================= *)
(** ** The most common directory *)

Section RunScopeCount.
Import Run Dirs.

Lemma collect_dirs_of :
  forall fl acc, fold_left collect_dir fl acc = acc ++ dirs_of fl.
Proof.
  induction fl as [|f fl IH]; intros acc; cbn [fold_left].
  - unfold dirs_of. simpl. now rewrite app_nil_r.
  - rewrite IH. unfold collect_dir, dirs_of. cbn [filter].
    destruct (1 <? List.length (parts_of (path f))).
    + cbn [map]. now rewrite <- app_assoc.
    + reflexivity.
Qed.

Lemma parts_of_not_empty (p x : string) :
  In x (parts_of p) -> x <> ""%string.
Proof.
  unfold parts_of.
  assert (Ht : In x (path_tail p) -> x <> ""%string).
  { unfold path_tail. destruct p; [intros []|].
    intros H. apply filter_In in H. destruct H as [_ H].
    apply andb_true_iff in H. destruct H as [H _].
    apply negb_true_iff in H. now apply String.eqb_neq in H. }
  destruct (fst (splitroot p)) eqn:E; [exact Ht|].
  intros [<-|H]; [discriminate|now apply Ht].
Qed.

Lemma dirs_of_not_empty (fl : list StagedFile) (d : string) :
  In d (dirs_of fl) -> d <> ""%string.
Proof.
  unfold dirs_of. intros H. apply in_map_iff in H.
  destruct H as (f & <- & Hf). apply filter_In in Hf.
  destruct Hf as [_ Hf]. apply Nat.ltb_lt in Hf.
  apply (parts_of_not_empty (path f)). now apply dir_of_in.
Qed.

Lemma ival_dict_set (d : dict Z) (k u : string) (v : Z) :
  ival (dict_set k v d) u = if String.eqb k u then v else ival d u.
Proof.
  unfold ival. induction d as [|[k0 v0] d IH]; simpl.
  - now destruct (String.eqb k u).
  - destruct (String.eqb_spec k0 k) as [->|E]; simpl.
    + now destruct (String.eqb k u).
    + destruct (String.eqb_spec k0 u) as [->|E'].
      * destruct (String.eqb_spec k u); [congruence|reflexivity].
      * exact IH.
Qed.

Lemma keys_dict_set_eq {V : Type} (k : string) (v : V) :
  forall d : dict V,
    keys (dict_set k v d) =
    if existsb (String.eqb k) (keys d) then keys d else keys d ++ [k].
Proof.
  induction d as [|[k0 v0] d IH]; simpl; [reflexivity|].
  rewrite (String.eqb_sym k k0).
  destruct (String.eqb_spec k0 k) as [->|E]; simpl; [reflexivity|].
  rewrite IH. now destruct (existsb (String.eqb k) (keys d)).
Qed.

Lemma count_dir_ival :
  forall ds acc u,
    (forall x, In x ds -> x <> ""%string) ->
    ival (fold_left count_dir ds acc) u = (ival acc u + occurrences u ds)%Z.
Proof.
  unfold occurrences, len.
  induction ds as [|d ds IH]; intros acc u Hne; cbn [fold_left].
  - simpl. lia.
  - rewrite IH by (intros x Hx; apply Hne; now right).
    unfold count_dir.
    assert (Hd : String.eqb d "" = false)
      by (apply String.eqb_neq, Hne; now left).
    rewrite Hd, ival_dict_set. cbn [filter]. rewrite (String.eqb_sym u d).
    destruct (String.eqb_spec d u) as [->|E]; cbn [List.length]; lia.
Qed.

Lemma count_dir_keys :
  forall ds acc,
    (forall x, In x ds -> x <> ""%string) ->
    NoDup (keys acc) ->
    exists ext,
      keys (fold_left count_dir ds acc) = keys acc ++ ext /\
      NoDup (keys acc ++ ext) /\
      (forall x, In x ext -> In x ds) /\
      (forall x, In x ds -> In x (keys acc ++ ext)).
Proof.
  induction ds as [|d ds IH]; intros acc Hne Hnd; cbn [fold_left].
  - exists []. rewrite app_nil_r. repeat split; auto. intros x [].
  - assert (Hd : String.eqb d "" = false)
      by (apply String.eqb_neq, Hne; now left).
    assert (Hne' : forall x, In x ds -> x <> ""%string)
      by (intros x Hx; apply Hne; now right).
    unfold count_dir at 2. rewrite Hd.
    set (acc' := dict_set d (ival acc d + 1)%Z acc).
    pose proof (keys_dict_set_eq d (ival acc d + 1)%Z acc) as Hk.
    fold acc' in Hk.
    destruct (existsb (String.eqb d) (keys acc)) eqn:Ex.
    + destruct (IH acc' Hne') as (ext & He & Hn & H1 & H2);
        [now rewrite Hk|].
      rewrite Hk in He, Hn, H2. exists ext. repeat split; auto.
      * intros x Hx. right. now apply H1.
      * intros x [<-|Hx]; [|now apply H2].
        apply in_or_app. left. apply existsb_exists in Ex.
        destruct Ex as (y & Hy & E). apply String.eqb_eq in E. now subst y.
    + assert (Hnot : ~ In d (keys acc)).
      { intros Hin.
        assert (existsb (String.eqb d) (keys acc) = true).
        { apply existsb_exists. exists d. split; [exact Hin|].
          apply String.eqb_refl. }
        congruence. }
      destruct (IH acc' Hne') as (ext & He & Hn & H1 & H2).
      { rewrite Hk. apply NoDup_app; [exact Hnd| |].
        - constructor; [intros []|constructor].
        - intros x Hx [<-|[]]. now apply Hnot. }
      rewrite Hk in He, Hn, H2. rewrite <- app_assoc in He, Hn, H2.
      exists ([d] ++ ext). repeat split; auto.
      * intros x [<-|Hx]; [now left|]. right. now apply H1.
      * intros x [<-|Hx]; [|now apply H2].
        apply in_or_app. right. now left.
Qed.

Lemma first_occurrence (d : string) :
  forall l, In d l ->
    exists pre post, l = pre ++ d :: post /\ ~ In d pre.
Proof.
  induction l as [|x l IH]; intros H; [destruct H|].
  destruct (String.eqb_spec x d) as [->|E].
  - exists [], l. split; [reflexivity|intros []].
  - destruct H as [H|H]; [congruence|].
    destruct (IH H) as (pre & post & -> & Hpre).
    exists (x :: pre), post. split; [reflexivity|].
    intros [H'|H']; [congruence|now apply Hpre].
Qed.

Lemma NoDup_split_unique {A : Type} (x : A) :
  forall a b a' b',
    NoDup (a ++ x :: b) -> a ++ x :: b = a' ++ x :: b' ->
    a = a' /\ b = b'.
Proof.
  induction a as [|y a IH]; intros b a' b' Hnd Heq.
  - destruct a' as [|y' a']; simpl in Heq.
    + injection Heq as <-. auto.
    + injection Heq as <- ->. exfalso. simpl in Hnd.
      inversion Hnd as [|? ? Hx _]; subst. apply Hx.
      apply in_or_app. right. now left.
  - destruct a' as [|y' a']; simpl in Heq.
    + injection Heq as <- <-. exfalso. simpl in Hnd.
      inversion Hnd as [|? ? Hx _]; subst. apply Hx.
      apply in_or_app. right. now left.
    + injection Heq as <- Heq. simpl in Hnd.
      inversion Hnd as [|? ? _ Hnd']; subst.
      destruct (IH b a' b' Hnd' Heq) as [-> ->]. auto.
Qed.

(** X14. When some file has a directory part, the scope of [run.py] is the
    entry that occurs most often among the per-file directory entries; of
    several that tie, the one that occurs first wins: every entry before
    its first occurrence is strictly rarer, and no entry is more frequent.
    When no file has a directory part, the scope is empty. *)
Theorem run_detect_scope_most_common (fl : list StagedFile) :
  (dirs_of fl = [] -> detect_scope fl = ""%string) /\
  (dirs_of fl <> [] ->
   exists earlier d later,
     dirs_of fl = earlier ++ d :: later /\
     ~ In d earlier /\
     (forall u, In u earlier ->
                (occurrences u (dirs_of fl) < occurrences d (dirs_of fl))%Z) /\
     (forall u, In u later ->
                (occurrences u (dirs_of fl) <= occurrences d (dirs_of fl))%Z) /\
     detect_scope fl = d).
Proof.
  unfold detect_scope. rewrite (collect_dirs_of fl []). cbn [app].
  split.
  - intros ->. now destruct (is_empty fl).
  - intros Hne.
    assert (Hfl : is_empty fl = false).
    { destruct fl; [now contradiction Hne|reflexivity]. }
    rewrite Hfl.
    pose proof (dirs_of_not_empty fl) as Hnonempty.
    set (ds := dirs_of fl) in *.
    assert (Hgate : is_empty ds || forallb (fun d => String.eqb d "") ds
                    = false).
    { destruct ds as [|d0 ds0]; [congruence|].
      cbn [is_empty forallb orb].
      assert (E : String.eqb d0 "" = false)
        by (apply String.eqb_neq, Hnonempty; now left).
      now rewrite E. }
    rewrite Hgate.
    set (dc := fold_left count_dir ds []).
    destruct (count_dir_keys ds [] Hnonempty) as (ext & Hk & Hnd & H1 & H2);
      [constructor|].
    cbn [keys map app] in Hk, Hnd, H2. fold dc in Hk.
    assert (Hv : forall u, ival dc u = occurrences u ds).
    { intros u. unfold dc. rewrite count_dir_ival by exact Hnonempty.
      reflexivity. }
    destruct (py_max (ival dc) (keys dc)) as [best|] eqn:Hmax.
    2:{ exfalso. rewrite Hk in Hmax. destruct ext; [|discriminate Hmax].
        destruct ds as [|d0 ds0]; [congruence|].
        destruct (H2 d0 (or_introl eq_refl)). }
    apply py_max_first in Hmax. destruct Hmax as (e & l & Heq & He & Hl).
    assert (Hbest : In best ds).
    { apply H1. rewrite <- Hk, Heq. apply in_or_app. right. now left. }
    destruct (first_occurrence best ds Hbest) as (pre & post & Hds & Hpre).
    (* the keys after reading [pre], then [best], then [post] *)
    assert (Hne_pre : forall x, In x pre -> x <> ""%string).
    { intros x Hx. apply Hnonempty. rewrite Hds. apply in_or_app. now left. }
    assert (Hne_post : forall x, In x post -> x <> ""%string).
    { intros x Hx. apply Hnonempty. rewrite Hds. apply in_or_app.
      right. now right. }
    destruct (count_dir_keys pre [] Hne_pre) as (k1 & Hk1 & Hnd1 & H11 & H12);
      [constructor|].
    cbn [keys map app] in Hk1, Hnd1, H12.
    set (d1 := fold_left count_dir pre []) in *.
    assert (Hb1 : ~ In best (keys d1)).
    { rewrite Hk1. intros H. apply Hpre. now apply H11. }
    assert (Hbne : String.eqb best "" = false).
    { apply String.eqb_neq. now apply Hnonempty. }
    assert (Hstep : keys (count_dir d1 best) = keys d1 ++ [best]).
    { unfold count_dir. rewrite Hbne, keys_dict_set_eq.
      destruct (existsb (String.eqb best) (keys d1)) eqn:Ex; [|reflexivity].
      exfalso. apply Hb1. apply existsb_exists in Ex.
      destruct Ex as (y & Hy & E). apply String.eqb_eq in E. now subst y. }
    destruct (count_dir_keys post (count_dir d1 best) Hne_post)
      as (k2 & Hk2 & _).
    { rewrite Hstep, Hk1. apply NoDup_app; [exact Hnd1| |].
      - constructor; [intros []|constructor].
      - intros x Hx [<-|[]]. apply Hb1. now rewrite Hk1. }
    assert (Hall : keys dc = k1 ++ best :: k2).
    { unfold dc. rewrite Hds, fold_left_app. cbn [fold_left]. fold d1.
      rewrite Hk2, Hstep, Hk1, <- app_assoc. reflexivity. }
    assert (Huniq : e = k1 /\ l = k2).
    { apply (NoDup_split_unique best).
      - rewrite <- Heq, Hk. exact Hnd.
      - now rewrite <- Heq, Hall. }
    destruct Huniq as [-> ->].
    exists pre, best, post. split; [exact Hds|]. split; [exact Hpre|].
    split; [|split; [|reflexivity]].
    + intros u Hu. rewrite <- !Hv. apply He. now apply H12.
    + intros u Hu. rewrite <- !Hv.
      assert (Hin : In u (keys dc)).
      { rewrite Hk. apply H2. rewrite Hds. apply in_or_app. right. now right. }
      rewrite Heq in Hin. apply in_app_or in Hin.
      destruct Hin as [Hin|[<-|Hin]].
      * specialize (He u Hin). lia.
      * lia.
      * now apply Hl.
Qed.

Lemma run_detect_scope_most_common_witness :
  exists earlier d later,
    dirs_of Inputs.six_staged = earlier ++ d :: later /\
    ~ In d earlier /\
    (forall u, In u earlier ->
       (occurrences u (dirs_of Inputs.six_staged)
        < occurrences d (dirs_of Inputs.six_staged))%Z) /\
    (forall u, In u later ->
       (occurrences u (dirs_of Inputs.six_staged)
        <= occurrences d (dirs_of Inputs.six_staged))%Z) /\
    detect_scope Inputs.six_staged = d.
Proof.
  apply (proj2 (run_detect_scope_most_common Inputs.six_staged)).
  vm_compute. discriminate.
Defined.

End RunScopeCount.

(* ================================================================= *)
(** ** The body and the staged files of [run.py] *)

Section RunBodyProofs.
Import Run RunMore NameStatus.

Lemma free_of_app (c : ascii) (a b : string) :
  free_of c (a ++ b) = free_of c a && free_of c b.
Proof.
  unfold free_of. induction a as [|x a IH]; [reflexivity|].
  cbn [append forall_chars]. now rewrite IH, andb_assoc.
Qed.

Lemma split_join (sep : ascii) :
  forall l,
    l <> [] ->
    (forall x, In x l -> free_of sep x = true) ->
    split sep (join (String sep "") l) = l.
Proof.
  unfold join. induction l as [|x l IH]; intros Hne Hfree; [congruence|].
  destruct l as [|y l].
  - cbn [concat]. apply split_free. apply Hfree. now left.
  - change (concat (String sep "") (x :: y :: l))
      with (x ++ String sep "" ++ concat (String sep "") (y :: l))%string.
    cbn [append]. rewrite split_app_sep by (apply Hfree; now left).
    f_equal. apply IH; [discriminate|]. intros z Hz. apply Hfree. now right.
Qed.

Lemma body_lines_all :
  forall fl acc,
    fold_left (fun lines f => lines ++ [body_line f]) fl acc =
    acc ++ map body_line fl.
Proof.
  induction fl as [|f fl IH]; intros acc; cbn [fold_left map].
  - now rewrite app_nil_r.
  - rewrite IH, <- app_assoc. reflexivity.
Qed.

Lemma status_word_free (s : string) : free_of LF (status_word s) = true.
Proof.
  unfold status_word, status_words. cbn [dict_get].
  destruct (String.eqb "A" s); [reflexivity|].
  destruct (String.eqb "M" s); [reflexivity|].
  destruct (String.eqb "D" s); [reflexivity|].
  destruct (String.eqb "R" s); reflexivity.
Qed.

(** X15. The body has one line per file, in the order of the files, after
    the heading and an empty line: when no path holds a line feed, cutting
    the body at its line feeds gives back [Files changed:], the empty line
    and, for each file, the line made of a dash, a space, the path, a
    space and, in parentheses, the word of the status: added, modified,
    deleted or renamed for the statuses A, M, D, R, and changed for any
    other status. *)
Theorem generate_body_lines (fl : list StagedFile) :
  (forall f, In f fl -> free_of LF (path f) = true) ->
  split LF (generate_body fl) =
    "Files changed:"%string :: ""%string ::
    map (fun f =>
           "- " ++ path f ++ " (" ++
           (if String.eqb (status f) "A" then "added"
            else if String.eqb (status f) "M" then "modified"
            else if String.eqb (status f) "D" then "deleted"
            else if String.eqb (status f) "R" then "renamed"
            else "changed") ++ ")")%string fl.
Proof.
  intros Hfree.
  assert (Hw : forall s, status_word s =
                 (if String.eqb s "A" then "added"
                  else if String.eqb s "M" then "modified"
                  else if String.eqb s "D" then "deleted"
                  else if String.eqb s "R" then "renamed"
                  else "changed")%string).
  { intros s. unfold status_word, status_words. cbn [dict_get].
    rewrite !(String.eqb_sym s).
    destruct (String.eqb "A" s); [reflexivity|].
    destruct (String.eqb "M" s); [reflexivity|].
    destruct (String.eqb "D" s); [reflexivity|].
    destruct (String.eqb "R" s); reflexivity. }
  transitivity ("Files changed:"%string :: ""%string :: map body_line fl).
  - unfold generate_body. rewrite body_lines_all. cbn [app].
    apply (split_join LF); [discriminate|].
    intros x [<-|[<-|Hx]]; [reflexivity|reflexivity|].
    apply in_map_iff in Hx. destruct Hx as (f & <- & Hf).
    unfold body_line. rewrite !free_of_app, (Hfree f Hf), status_word_free.
    reflexivity.
  - do 2 f_equal. apply map_ext. intros f. unfold body_line.
    now rewrite Hw.
Qed.

Lemma generate_body_lines_witness :
  split LF (generate_body Inputs.five_statuses) =
    ["Files changed:"; ""; "- src/a.py (added)"; "- b.py (modified)";
     "- docs/c.md (deleted)"; "- d.py (renamed)"; "- e.py (changed)"]%string.
Proof.
  refine (generate_body_lines Inputs.five_statuses _).
  intros f Hf. simpl in Hf.
  repeat (destruct Hf as [<-|Hf]; [reflexivity|]). destruct Hf.
Defined.

Lemma split1_app (sep : ascii) (a : string) :
  free_of sep a = true ->
  forall b, split1 sep (a ++ String sep b) = [a; b].
Proof.
  unfold free_of. induction a as [|c a IH]; intros Ha b.
  - cbn [append split1]. now rewrite Ascii.eqb_refl.
  - cbn [forall_chars] in Ha. apply andb_true_iff in Ha.
    destruct Ha as [Hc Ha]. apply negb_true_iff in Hc.
    cbn [append split1]. rewrite Hc, (IH Ha). reflexivity.
Qed.

Lemma staged_line_ok (e : string * string) :
  entry_ok e = true -> staged_line (line_of e) = Some [file_of e].
Proof.
  unfold entry_ok, staged_line, line_of, file_of.
  destruct e as [code p]. cbn [fst snd].
  destruct code as [|c code]; [discriminate|].
  rewrite !andb_true_iff. intros (((Hc & Ht) & _) & _).
  apply negb_true_iff in Hc.
  unfold blank. cbn [append forall_chars]. rewrite Hc. cbn [andb].
  change (String c (code ++ String TAB p))
    with (String c code ++ String TAB p)%string.
  rewrite (split1_app TAB (String c code) Ht). reflexivity.
Qed.

Lemma staged_lines_ok :
  forall entries,
    (forall e, In e entries -> entry_ok e = true) ->
    staged_lines (map line_of entries) = Some (map file_of entries).
Proof.
  induction entries as [|e entries IH]; intros Hok; [reflexivity|].
  cbn [map staged_lines].
  rewrite (staged_line_ok e) by (apply Hok; now left).
  rewrite IH by (intros x Hx; apply Hok; now right). reflexivity.
Qed.

(** X16. [get_staged_files] reads a listing back: for a successful [git]
    call whose output is one line [CODE tab PATH] per entry (the code
    starts with a non-blank character, holds no tab, and neither part
    holds a line feed), it returns one record per line, in order, with the
    first character of the code as status and everything after the first
    tab as path.  A failed call or an empty output gives the empty list. *)
Theorem get_staged_files_reads (entries : list (string * string)) :
  entries <> [] ->
  (forall e, In e entries -> entry_ok e = true) ->
  get_staged_files 0 (join nl (map line_of entries))
    = Some (map file_of entries)
  /\ (forall code output,
        code <> 0%Z \/ output = ""%string ->
        get_staged_files code output = Some []).
Proof.
  intros Hne Hok. split.
  - unfold get_staged_files. cbn [Z.eqb negb orb].
    assert (Hout : String.eqb (join nl (map line_of entries)) "" = false).
    { apply String.eqb_neq. destruct entries as [|e entries]; [congruence|].
      pose proof (Hok e (or_introl eq_refl)) as He.
      unfold entry_ok in He. destruct e as [code p]. cbn [fst] in He.
      destruct code as [|c code]; [discriminate He|].
      unfold join. cbn [map]. destruct (map line_of entries); discriminate. }
    rewrite Hout. unfold nl. rewrite split_join.
    + now apply staged_lines_ok.
    + destruct entries; [congruence|discriminate].
    + intros x Hx. apply in_map_iff in Hx. destruct Hx as (e & <- & He).
      specialize (Hok e He). unfold entry_ok in Hok.
      rewrite !andb_true_iff in Hok. destruct Hok as ((_ & H1) & H2).
      unfold line_of.
      change (String TAB (snd e)) with (String TAB "" ++ snd e)%string.
      rewrite !free_of_app, H1, H2. reflexivity.
  - intros code output [Hc| ->]; unfold get_staged_files.
    + apply Z.eqb_neq in Hc. now rewrite Hc.
    + now rewrite orb_true_r.
Qed.

Lemma get_staged_files_reads_witness :
  get_staged_files 0
    (join nl (map line_of [("M"%string, "src/a.py"%string);
                           ("R100"%string, ("old.py" ++ String TAB "new.py")%string)]))
  = Some (map file_of [("M"%string, "src/a.py"%string);
                       ("R100"%string, ("old.py" ++ String TAB "new.py")%string)]).
Proof.
  apply get_staged_files_reads; [discriminate|].
  intros e [<-|[<-|[]]]; reflexivity.
Defined.

(** X17. A listing line that starts with its tab and is not blank stops
    [get_staged_files] with the [IndexError] of [parts[0][0]]: no list is
    returned. *)
Theorem get_staged_files_index_error (output : string) (rest : string) :
  output <> ""%string ->
  In (String TAB rest) (split LF output) ->
  blank (String TAB rest) = false ->
  get_staged_files 0 output = None.
Proof.
  intros Hout Hin Hb. unfold get_staged_files.
  apply String.eqb_neq in Hout. rewrite Hout. cbn [Z.eqb negb orb].
  induction (split LF output) as [|l lines IH]; [destruct Hin|].
  cbn [staged_lines]. destruct Hin as [->|Hin].
  - unfold staged_line. rewrite Hb. cbn [split1].
    change (Ascii.eqb TAB "009") with true. cbv iota. reflexivity.
  - destruct (staged_line l); [|reflexivity]. now rewrite (IH Hin).
Qed.

Lemma get_staged_files_index_error_witness :
  get_staged_files 0 ("M" ++ String TAB "a.py" ++ nl ++ String TAB "b.py")
    = None.
Proof.
  apply (get_staged_files_index_error _ "b.py").
  - discriminate.
  - vm_compute. right. left. reflexivity.
  - reflexivity.
Defined.

End RunBodyProofs.

(* ================================================================= *)
(** ** [main] and the command line of [analyze.py] *)

Section AnalyzeMainProofs.
Import Analyze AnalyzeMain Blocks.

Lemma forall_chars_rev (p : ascii -> bool) :
  forall s acc,
    forall_chars p (rev_string acc s) = forall_chars p acc && forall_chars p s.
Proof.
  induction s as [|c s IH]; intros acc; cbn [rev_string forall_chars].
  - now rewrite andb_true_r.
  - rewrite IH. cbn [forall_chars].
    destruct (p c), (forall_chars p acc), (forall_chars p s); reflexivity.
Qed.




Lemma keep_format :
  forall more opts,
    (forall a, In a more -> startswith "--format=" a = false) ->
    format (fold_left parse_arg more opts) = format opts.
Proof.
  induction more as [|a more IH]; intros opts H; [reflexivity|].
  cbn [fold_left]. rewrite IH by (intros x Hx; apply H; now right).
  unfold parse_arg. rewrite (H a (or_introl eq_refl)).
  now destruct (startswith "--diff-file=" a).
Qed.

Lemma keep_diff_file :
  forall more opts,
    (forall a, In a more -> startswith "--diff-file=" a = false) ->
    diff_file (fold_left parse_arg more opts) = diff_file opts.
Proof.
  induction more as [|a more IH]; intros opts H; [reflexivity|].
  cbn [fold_left]. rewrite IH by (intros x Hx; apply H; now right).
  unfold parse_arg. rewrite (H a (or_introl eq_refl)).
  now destruct (startswith "--format=" a).
Qed.

(** X19. On the command line of [analyze.py] the last [--format=V] decides
    the format and the last [--diff-file=V] the file, with V everything
    after the first equals sign; without such an argument the format is
    [text] and no file is set.  The program name and all other arguments
    are passed over. *)
Theorem parse_args_last_wins (prog v : string) (args more : list string) :
  (forall a, In a more -> startswith "--format=" a = false) ->
  (forall a, In a more -> startswith "--diff-file=" a = false) ->
  format (parse_args (prog :: args ++ ("--format=" ++ v)%string :: more)) = v
  /\ diff_file (parse_args
                  (prog :: args ++ ("--diff-file=" ++ v)%string :: more))
     = Some v
  /\ format (parse_args (prog :: more)) = "text"%string
  /\ diff_file (parse_args (prog :: more)) = None.
Proof.
  intros Hf Hd. unfold parse_args. cbn [tl].
  rewrite !fold_left_app. cbn [fold_left].
  rewrite !keep_format, !keep_diff_file by assumption.
  repeat split.
Qed.

Lemma parse_args_last_wins_witness :
  format (parse_args ["analyze.py"; "--format=text"; "--format=json";
                      "--verbose"])%string = "json"%string.
Proof.
  apply (parse_args_last_wins "analyze.py" "json" ["--format=text"%string]
           ["--verbose"%string]);
    intros a [<-|[]]; reflexivity.
Defined.

End AnalyzeMainProofs.

(* ================================================================= *)
(** ** The two paths of a header line *)

Section HeaderGroups.
Import Words Analyze Blocks.

Lemma length_append (a b : string) :
  length (a ++ b) = length a + length b.
Proof. induction a as [|c a IH]; simpl; [reflexivity|now rewrite IH]. Qed.

Lemma take_append (m t : string) :
  take (length (m ++ t) - length t) (m ++ t) = m.
Proof.
  rewrite length_append.
  replace (length m + length t - length t) with (length m) by lia.
  induction m as [|c m IH]; simpl; [now destruct t|now rewrite IH].
Qed.

Lemma take_whole (s : string) : take (length s - 0) s = s.
Proof.
  rewrite Nat.sub_0_r. induction s as [|c s IH]; simpl;
    [reflexivity|now rewrite IH].
Qed.

Lemma append_inv_head (a x y : string) :
  (a ++ x)%string = (a ++ y)%string -> x = y.
Proof.
  induction a as [|c a IH]; simpl; [auto|]. intros H. injection H as H. auto.
Qed.

Lemma code_is_lf (c : ascii) : (code c =? 10) = Ascii.eqb c LF.
Proof. destruct c as [[] [] [] [] [] [] [] []]; reflexivity. Qed.

Lemma any_is_free (s : string) :
  forall_chars (in_class CAny) s = free_of LF s.
Proof.
  unfold free_of. induction s as [|c s IH]; [reflexivity|].
  cbn [forall_chars in_class]. now rewrite IH, code_is_lf.
Qed.

Lemma run_Lit_eq (w : string) :
  forall z,
    run false (Lit w) z =
    if startswith w (rest z)
    then [Cur (before_after w (before z)) (drop (length w) (rest z)) (caps z)]
    else [].
Proof.
  induction w as [|c w IH]; intros z.
  - destruct z. reflexivity.
  - cbn [Lit run startswith]. destruct (rest z) as [|x s'] eqn:Er;
      [reflexivity|].
    unfold chr_match. destruct (Ascii.eqb_spec c x) as [<-|E];
      [|reflexivity].
    cbn [flat_map andb]. rewrite IH, app_nil_r. cbn [rest before caps].
    rewrite before_after_cons. reflexivity.
Qed.

Lemma flat_map_map {A B C : Type} (g : A -> B) (f : B -> list C) :
  forall l, flat_map f (map g l) = flat_map (fun x => f (g x)) l.
Proof.
  induction l as [|x l IH]; simpl; [reflexivity|now rewrite IH].
Qed.

Lemma flat_map_nil {A B : Type} (f : A -> list B) :
  forall l, flat_map f l = [] -> forall x, In x l -> f x = [].
Proof.
  induction l as [|y l IH]; intros H x Hx; [destruct Hx|].
  simpl in H. apply app_eq_nil in H. destruct H as [Hy Hl].
  destruct Hx as [<-|Hx]; auto.
Qed.

Lemma hd_error_app {A : Type} (l1 l2 : list A) :
  hd_error (l1 ++ l2) =
  match hd_error l1 with
  | Some x => Some x
  | None => hd_error l2
  end.
Proof. destruct l1; reflexivity. Qed.

Lemma hd_error_none {A : Type} (l : list A) : hd_error l = None -> l = [].
Proof. destruct l; [reflexivity|discriminate]. Qed.

Lemma hd_star_run_all (k : cclass) (cs : list (nat * string)) :
  forall s p,
    forall_chars (in_class k) s = true ->
    hd_error (star_run k p s cs) = Some (Cur (before_after s p) "" cs).
Proof.
  induction s as [|c s IH]; intros p H; [reflexivity|].
  cbn [forall_chars] in H. apply andb_true_iff in H. destruct H as [Hc Hs].
  cbn [star_run]. rewrite Hc, hd_error_app, (IH (Some c) Hs).
  now rewrite before_after_cons.
Qed.

(** The first match of [k*] followed by a pattern takes the longest run of
    [k] after which the pattern matches. *)
Lemma hd_star_flat_map (f : cursor -> list cursor) (k : cclass)
  (cs : list (nat * string)) :
  forall s p y,
    hd_error (flat_map f (star_run k p s cs)) = Some y ->
    exists m t,
      s = (m ++ t)%string /\
      forall_chars (in_class k) m = true /\
      hd_error (f (Cur (before_after m p) t cs)) = Some y /\
      (forall m' t',
          s = (m' ++ t')%string ->
          forall_chars (in_class k) m' = true ->
          length m < length m' ->
          f (Cur (before_after m' p) t' cs) = []).
Proof.
  induction s as [|c s IH]; intros p y H.
  - cbn [star_run flat_map] in H. rewrite app_nil_r in H.
    exists ""%string, ""%string. repeat split; auto.
    intros m' t' Hs _ Hlen. destruct m'; [simpl in Hlen; lia|discriminate Hs].
  - cbn [star_run] in H. destruct (in_class k c) eqn:Ek.
    + rewrite flat_map_app, hd_error_app in H.
      destruct (hd_error (flat_map f (star_run k (Some c) s cs)))
        as [y'|] eqn:Eh.
      * injection H as ->. destruct (IH (Some c) y Eh)
          as (m & t & Hs & Hm & Hy & Hmax).
        exists (String c m), t. rewrite before_after_cons.
        split; [simpl; now rewrite Hs|].
        split; [cbn [forall_chars]; now rewrite Ek, Hm|].
        split; [exact Hy|].
        intros m' t' Hs' Hm' Hlen.
        destruct m' as [|c' m']; [simpl in Hlen; lia|].
        simpl in Hs'. injection Hs' as <- Hs'.
        cbn [forall_chars] in Hm'. apply andb_true_iff in Hm'.
        rewrite before_after_cons. apply Hmax; [exact Hs'|tauto|].
        simpl in Hlen. lia.
      * cbn [flat_map] in H. rewrite app_nil_r in H.
        exists ""%string, (String c s). repeat split; auto.
        intros m' t' Hs' Hm' Hlen.
        destruct m' as [|c' m']; [simpl in Hlen; lia|].
        simpl in Hs'. injection Hs' as <- Hs'.
        cbn [forall_chars] in Hm'. apply andb_true_iff in Hm'.
        rewrite before_after_cons.
        apply (flat_map_nil f _ (hd_error_none _ Eh)).
        apply in_star_run. exists m'. cbn [rest before caps]. tauto.
    + cbn [flat_map] in H. rewrite app_nil_r in H.
      exists ""%string, (String c s). repeat split; auto.
      intros m' t' Hs' Hm' Hlen.
      destruct m' as [|c' m']; [simpl in Hlen; lia|].
      simpl in Hs'. injection Hs' as <- Hs'.
      cbn [forall_chars] in Hm'. rewrite Ek in Hm'. discriminate Hm'.
Qed.

Lemma run_Cat_Lit (w : string) (r : regex) (z : cursor) :
  run false (Cat (Lit w) r) z =
  if startswith w (rest z)
  then run false r (Cur (before_after w (before z))
                        (drop (length w) (rest z)) (caps z))
  else [].
Proof.
  cbn [run]. rewrite run_Lit_eq. destruct (startswith w (rest z));
    [|reflexivity].
  cbn [flat_map]. now rewrite app_nil_r.
Qed.

Lemma run_Grp_Star (n : nat) (k : cclass) (z : cursor) :
  run false (Grp n (Star k)) z =
  map (fun y => Cur (before y) (rest y) ((n, consumed z y) :: caps y))
      (star_run k (before z) (rest z) (caps z)).
Proof. reflexivity. Qed.

Lemma run_Grp_Star_then (n : nat) (k : cclass) (r : regex) (z : cursor) :
  run false (Cat (Grp n (Star k)) r) z =
  flat_map (fun y => run false r (Cur (before y) (rest y)
                                      ((n, consumed z y) :: caps y)))
           (star_run k (before z) (rest z) (caps z)).
Proof.
  change (run false (Cat (Grp n (Star k)) r) z)
    with (flat_map (run false r) (run false (Grp n (Star k)) z)).
  rewrite run_Grp_Star. apply flat_map_map.
Qed.

Lemma hd_error_map {A B : Type} (g : A -> B) (l : list A) :
  hd_error (map g l) = option_map g (hd_error l).
Proof. destruct l; reflexivity. Qed.

(** On a line without line feed, the first group of the header pattern is
    the longest text after which [ b/] follows, and the second group is all
    that comes after that [ b/]. *)
Lemma header_groups (line : string) (m : cursor) :
  free_of LF line = true ->
  re_match false header_re line = Some m ->
  exists old new,
    line = ("diff --git a/" ++ old ++ " b/" ++ new)%string /\
    group 1 m = old /\ group 2 m = new /\
    (forall old' new',
        line = ("diff --git a/" ++ old' ++ " b/" ++ new')%string ->
        length old' <= length old).
Proof.
  intros Hfree. unfold re_match.
  change (run false header_re (Cur None line []))
    with (run false
            (Cat (Lit "diff --git a/")
               (Cat (Grp 1 (Star CAny))
                  (Cat (Lit " b/") (Grp 2 (Star CAny)))))
            (Cur None line []) ++ []).
  rewrite app_nil_r, run_Cat_Lit. cbn [rest before caps].
  destruct (startswith "diff --git a/" line) eqn:Ea; [|discriminate].
  pose proof (startswith_split _ _ Ea) as Hline.
  set (s1 := drop (length "diff --git a/") line) in *.
  set (p1 := before_after "diff --git a/" None).
  assert (Hs1free : free_of LF s1 = true).
  { rewrite Hline, free_of_app in Hfree.
    apply andb_true_iff in Hfree. tauto. }
  rewrite run_Grp_Star_then. cbn [rest before caps].
  intros H. apply hd_star_flat_map in H.
  destruct H as (old & t & Hs1 & Hold & Hy & Hmax).
  cbn [before rest caps] in Hy. rewrite run_Cat_Lit in Hy.
  cbn [before rest caps] in Hy.
  destruct (startswith " b/" t) eqn:Eb; [|discriminate Hy].
  pose proof (startswith_split _ _ Eb) as Ht.
  set (new := drop (length " b/") t) in *.
  assert (Hnew : forall_chars (in_class CAny) new = true).
  { rewrite any_is_free. rewrite Hs1, Ht, !free_of_app in Hs1free.
    apply andb_true_iff in Hs1free. destruct Hs1free as [_ H].
    apply andb_true_iff in H. tauto. }
  rewrite run_Grp_Star, hd_error_map in Hy. cbn [before rest caps] in Hy.
  rewrite (hd_star_run_all CAny _ new _ Hnew) in Hy.
  cbn [option_map before rest caps] in Hy. injection Hy as <-.
  exists old, new. split; [|split; [|split]].
  - rewrite Hline. rewrite Hs1. now rewrite Ht at 1.
  - unfold group, consumed. cbn [caps assoc_nat Nat.eqb rest].
    rewrite Hs1. apply take_append.
  - unfold group, consumed. cbn [caps assoc_nat Nat.eqb rest].
    apply take_whole.
  - intros old' new' Hl'.
    destruct (Nat.le_gt_cases (length old') (length old)) as [L|L];
      [exact L|exfalso].
    rewrite Hline in Hl'. apply append_inv_head in Hl'.
    assert (Hfree' : forall_chars (in_class CAny) old' = true).
    { rewrite any_is_free. rewrite Hl', free_of_app in Hs1free.
      apply andb_true_iff in Hs1free. tauto. }
    specialize (Hmax old' (" b/" ++ new')%string Hl' Hfree' L).
    cbn [before rest caps] in Hmax. rewrite run_Cat_Lit in Hmax.
    cbn [before rest caps] in Hmax.
    change (startswith " b/" (" b/" ++ new')) with true in Hmax.
    cbv iota in Hmax. rewrite run_Grp_Star in Hmax.
    apply map_eq_nil in Hmax. now apply star_run_not_nil in Hmax.
Qed.

Lemma not_break_not_lf (c : ascii) :
  is_linebreak c = false -> negb (Ascii.eqb c LF) = true.
Proof.
  destruct c as [[] [] [] [] [] [] [] []]; vm_compute; intros H;
    (reflexivity || discriminate H).
Qed.

Lemma splitlines_no_break :
  forall s cur b l,
    free_of LF cur = true ->
    In l (splitlines_from cur b s) -> free_of LF l = true.
Proof.
  unfold free_of.
  induction s as [|c s IH]; intros cur b l Hcur; cbn [splitlines_from].
  - destruct cur; [intros []|]. intros [<-|[]].
    rewrite forall_chars_rev. now rewrite Hcur.
  - destruct (b && (code c =? 10)); [now apply IH|].
    destruct (is_linebreak c) eqn:Ec.
    + intros [<-|H].
      * rewrite forall_chars_rev. now rewrite Hcur.
      * revert H. now apply IH.
    + apply IH. cbn [forall_chars].
      now rewrite (not_break_not_lf c Ec), Hcur.
Qed.

Lemma blocks_origin :
  forall lines b,
    In b (blocks lines) ->
    exists l m,
      In l lines /\ re_match false header_re l = Some m /\ fst b = fresh m.
Proof.
  induction lines as [|x lines IH]; intros b Hb; [destruct Hb|].
  cbn [blocks] in Hb.
  destruct (re_match false header_re x) as [m|] eqn:E.
  - destruct Hb as [<-|Hb].
    + exists x, m. cbn [fst]. auto using in_eq.
    + destruct (IH b Hb) as (l & m' & Hl & Hm & Hf).
      exists l, m'. auto using in_cons.
  - destruct (IH b Hb) as (l & m' & Hl & Hm & Hf).
    exists l, m'. auto using in_cons.
Qed.

(** X20. Every record of [parse_diff] gives its header line back: the line
    [diff --git a/OLD b/NEW] built from its two paths is a line of the
    input.  When a header holds [ b/] more than once, the last one
    separates the paths, so the new path of a record never holds [ b/]. *)
Theorem parse_diff_header_paths (raw : string) (f : FileChange) :
  In f (parse_diff raw) ->
  In ("diff --git a/" ++ old_path f ++ " b/" ++ new_path f)%string
     (splitlines raw)
  /\ contains " b/" (new_path f) = false.
Proof.
  unfold parse_diff. rewrite parse_lines_blocks. intros Hf.
  apply in_map_iff in Hf. destruct Hf as (b & <- & Hb).
  destruct (blocks_origin _ b Hb) as (l & m & Hl & Hm & Hfresh).
  assert (Hfree : free_of LF l = true).
  { apply (splitlines_no_break raw "" false); [reflexivity|exact Hl]. }
  destruct (header_groups l m Hfree Hm) as (old & new & Hline & H1 & H2 & Hmax).
  unfold record_of. rewrite apply_lines_fields, Hfresh.
  cbn [old_path new_path fresh]. rewrite H1, H2.
  split; [now rewrite <- Hline|].
  destruct (contains " b/" new) eqn:Ec; [exfalso|reflexivity].
  apply contains_iff in Ec. destruct Ec as (u & v & Hnew).
  assert (Hline' : l = ("diff --git a/" ++ (old ++ " b/" ++ u) ++ " b/" ++ v)%string).
  { rewrite Hline, Hnew. now rewrite !append_assoc. }
  specialize (Hmax _ _ Hline'). rewrite !length_append in Hmax.
  simpl in Hmax. lia.
Qed.

Lemma parse_diff_header_paths_witness :
  In "diff --git a/README.md b/README.md"%string
     (splitlines Inputs.readme_diff).
Proof.
  assert (H : exists f, In f (parse_diff Inputs.readme_diff) /\
                old_path f = "README.md"%string /\
                new_path f = "README.md"%string).
  { eexists. split; [vm_compute; left; reflexivity|]. split; reflexivity. }
  destruct H as (f & Hf & Ho & Hn).
  pose proof (proj1 (parse_diff_header_paths Inputs.readme_diff f Hf)) as H.
  rewrite Ho, Hn in H. exact H.
Defined.

End HeaderGroups.

(* ================================================================= *)
(** ** Style against refactor, and the docs and test subjects *)

Section LastProofs.

(** X21. The style-only rule has to come before the refactor rule: a
    record that is style-only, neither new nor deleted, and has at least
    three added lines is always refactor-like as well. *)
Theorem style_only_is_refactor_like (f : Analyze.FileChange) :
  Analyze.is_style_only f = true ->
  Analyze.is_new f = false -> Analyze.is_deleted f = false ->
  (3 <= len (Analyze.added_lines f))%Z ->
  Analyze.is_refactor f = true.
Proof.
  unfold Analyze.is_style_only, Analyze.is_refactor.
  intros Hs -> -> Ha. cbn [orb].
  destruct (Analyze.added_lines f) as [|a0 al] eqn:Ea; [discriminate Hs|].
  destruct (Analyze.deleted_lines f) as [|d0 dl] eqn:Ed; [discriminate Hs|].
  cbn [is_empty orb] in Hs.
  set (a := len (a0 :: al)) in *. set (d := len (d0 :: dl)) in *.
  destruct (Z.ltb_spec (Z.max 1 (a / 3)) (Z.abs (a - d))) as [L|L];
    [discriminate Hs|].
  assert (Hd : (0 < d)%Z) by (unfold d, len; simpl; lia).
  cbv zeta.
  destruct (Z.eqb_spec a 0) as [E|_]; [lia|].
  destruct (Z.eqb_spec d 0) as [E|_]; [lia|]. cbn [orb].
  assert (Hdiv : (3 * (a / 3) <= a)%Z)
    by (apply Z.mul_div_le; lia).
  assert (Hone : (1 <= a / 3)%Z)
    by (apply Z.div_le_lower_bound; lia).
  apply andb_true_iff. split; [apply Z.ltb_lt|apply Z.leb_le]; lia.
Qed.

Lemma style_only_is_refactor_like_witness :
  Analyze.is_refactor
    {| Analyze.old_path := "a.py"; Analyze.new_path := "a.py";
       Analyze.is_new := false; Analyze.is_deleted := false;
       Analyze.added_lines := ["x = 1"; "y = 2"; "z = 3"];
       Analyze.deleted_lines := ["x=1"; "y=2"; "z=3"] |}%string = true.
Proof.
  apply style_only_is_refactor_like; first [reflexivity | unfold len; simpl; lia].
Defined.

(** X22. For two or more files, the whole-diff subject of a docs change
    names the files only when there are exactly two ([update A and B]),
    and otherwise counts them ([update N doc files]); the subject of a
    test change always counts them ([update N test files]). *)
Theorem run_subject_docs_and_tests (fl : list Run.StagedFile) :
  2 <= List.length fl ->
  Run.generate_subject fl "docs" =
    (if (List.length fl =? 2)%nat
     then "update " ++ join " and " (map (fun f => Run.name_of (Run.path f)) fl)
     else "update " ++ str_of_Z (len fl) ++ " doc files")%string
  /\ Run.generate_subject fl "test" =
       ("update " ++ str_of_Z (len fl) ++ " test files")%string.
Proof.
  intros Hlen. destruct fl as [|f1 [|f2 [|f3 fl]]]; try (simpl in Hlen; lia).
  - split; reflexivity.
  - split; reflexivity.
Qed.

Lemma run_subject_docs_and_tests_witness :
  Run.generate_subject
    [Inputs.staged "M" "README.md"; Inputs.staged "M" "docs/guide.md"] "docs"
  = "update README.md and guide.md"%string.
Proof.
  rewrite (proj1 (run_subject_docs_and_tests
                    [Inputs.staged "M" "README.md";
                     Inputs.staged "M" "docs/guide.md"] (le_n 2))).
  reflexivity.
Defined.

End LastProofs.

(* ================================================================= *)
(** ** The two scripts count the same lines *)

Section TotalsProofs.
Import Analyze Blocks Reading Totals.

Lemma rev_string_acc :
  forall s acc, rev_string acc s = (rev_string "" s ++ acc)%string.
Proof.
  induction s as [|c s IH]; intros acc; [reflexivity|].
  cbn [rev_string]. rewrite (IH (String c acc)), (IH (String c "")).
  now rewrite append_assoc.
Qed.

Lemma split_splitlines :
  forall s cur,
    only_line_feeds s = true ->
    exists extra,
      prepend (rev_string "" cur) (split LF s) =
        splitlines_from cur false s ++ extra /\
      (extra = [] \/ extra = [""%string]).
Proof.
  unfold only_line_feeds.
  induction s as [|c s IH]; intros cur H.
  - cbn [split prepend splitlines_from]. rewrite append_nil_r.
    destruct cur.
    + exists [""%string]. auto.
    + exists []. rewrite app_nil_r. auto.
  - cbn [forall_chars] in H. apply andb_true_iff in H. destruct H as [Hc Hs].
    cbn [split splitlines_from andb].
    destruct (Ascii.eqb_spec c LF) as [->|Hne].
    + change (is_linebreak LF) with true. cbv iota.
      change (code LF =? 13) with false.
      destruct (IH ""%string Hs) as (extra & He & Hx).
      exists extra. split; [|exact Hx].
      cbn [prepend]. rewrite append_nil_r. cbn [app]. f_equal.
      rewrite <- He. cbn [rev_string].
      pose proof (split_not_nil LF s) as Hn.
      destruct (split LF s); [congruence|reflexivity].
    + destruct (is_linebreak c) eqn:Eb.
      { cbn [implb] in Hc. discriminate Hc. }
      destruct (IH (String c cur) Hs) as (extra & He & Hx).
      exists extra. split; [|exact Hx]. rewrite <- He.
      pose proof (split_not_nil LF s) as Hn.
      destruct (split LF s) as [|w ws]; [congruence|].
      cbn [prepend rev_string]. rewrite (rev_string_acc cur (String c "")).
      now rewrite append_assoc.
Qed.

Lemma header_not_added (l : string) :
  is_header l = true -> is_added l = false /\ is_removed l = false.
Proof.
  intros H. apply is_header_iff in H. destruct H as (old & tail & -> & _).
  split; reflexivity.
Qed.

Lemma block_lines_total (p : string -> bool) :
  (forall l, is_header l = true -> p l = false) ->
  forall lines,
    (Z.of_nat (List.length (filter p (body lines)))
     + fold_right Z.add 0
         (map (fun b => len (filter p (snd b))) (blocks lines))
     = len (filter p lines))%Z.
Proof.
  intros Hp. unfold len. induction lines as [|x lines IH]; [reflexivity|].
  cbn [body blocks filter]. unfold is_header at 1.
  pose proof (Hp x) as Hx. unfold is_header in Hx.
  destruct (re_match false header_re x) as [m|]; cbn [found] in *.
  - rewrite (Hx eq_refl). cbn [map fold_right snd filter List.length].
    unfold len. lia.
  - cbn [filter]. destruct (p x); cbn [List.length]; lia.
Qed.

Lemma sign_under_lower (c : ascii) :
  Ascii.eqb "+" (lower_char c) = Ascii.eqb "+" c /\
  Ascii.eqb "-" (lower_char c) = Ascii.eqb "-" c /\
  Ascii.eqb (lower_char c) LF = Ascii.eqb c LF.
Proof.
  destruct c as [[] [] [] [] [] [] [] []]; repeat split; reflexivity.
Qed.

Lemma starts_sign_lower (t l : string) :
  forall_chars (fun a => Ascii.eqb a "+" || Ascii.eqb a "-") t = true ->
  startswith t (lower l) = startswith t l.
Proof.
  revert l. induction t as [|a t IH]; intros l Ht; [reflexivity|].
  cbn [forall_chars] in Ht. apply andb_true_iff in Ht.
  destruct Ht as [Ha Ht]. destruct l as [|c l]; [reflexivity|].
  cbn [lower startswith]. rewrite (IH l Ht).
  destruct (sign_under_lower c) as (Hp & Hm & _).
  apply orb_true_iff in Ha. destruct Ha as [Ha|Ha];
    apply Ascii.eqb_eq in Ha; subst a; now rewrite ?Hp, ?Hm.
Qed.

Lemma split_lower :
  forall s, split LF (lower s) = map lower (split LF s).
Proof.
  induction s as [|c s IH]; [reflexivity|].
  cbn [lower split]. destruct (sign_under_lower c) as (_ & _ & ->).
  rewrite IH. destruct (Ascii.eqb c LF); [reflexivity|].
  pose proof (split_not_nil LF s) as Hn.
  destruct (split LF s); [congruence|reflexivity].
Qed.

Lemma filter_lower_length (p : string -> bool) :
  (forall l, p (lower l) = p l) ->
  forall ls, List.length (filter p (map lower ls))
             = List.length (filter p ls).
Proof.
  intros Hp. induction ls as [|l ls IH]; [reflexivity|].
  cbn [map filter]. rewrite Hp. destruct (p l); cbn [List.length];
    now rewrite IH.
Qed.

(** X23. On a diff text whose only line boundaries are line feeds and
    whose first line is a header, the two scripts count the same lines:
    the added line count that [run.py] takes from the lowered text is the
    total number of added lines in the records of [parse_diff], and the
    removed line count is the total number of deleted lines. *)
Theorem line_counts_agree (raw h : string) (more : list string) :
  only_line_feeds raw = true ->
  splitlines raw = h :: more ->
  is_header h = true ->
  Run.added_count (lower raw)
    = total (fun f => len (added_lines f)) (parse_diff raw)
  /\ Run.removed_count (lower raw)
    = total (fun f => len (deleted_lines f)) (parse_diff raw).
Proof.
  intros Honly Hlines Hh.
  destruct (split_splitlines raw ""%string Honly) as (extra & Hsplit & Hx).
  fold (splitlines raw) in Hsplit. rewrite Hlines in Hsplit.
  assert (Htl : tl (split LF raw) = more ++ extra).
  { pose proof (split_not_nil LF raw) as Hn.
    destruct (split LF raw) as [|w ws]; [congruence|].
    cbn [prepend rev_string app] in Hsplit. now injection Hsplit as _ ->. }
  assert (Hgen : forall (p : string -> bool) (g : FileChange -> list string),
            (forall l, p (lower l) = p l) ->
            (forall l, is_header l = true -> p l = false) ->
            p ""%string = false ->
            (forall b, g (read_block b) = map (drop 1) (filter p (snd b))) ->
            len (filter p (tl (split LF (lower raw))))
              = total (fun f => len (g f)) (parse_diff raw)).
  { intros p g Hlow Hhead Hempty Hg.
    rewrite split_lower.
    assert (Etl : forall l : list string, tl (map lower l) = map lower (tl l))
      by (intros [|? ?]; reflexivity).
    unfold len at 1. rewrite Etl, filter_lower_length by exact Hlow.
    rewrite Htl, filter_app, length_app.
    assert (Hex : List.length (filter p extra) = 0).
    { destruct Hx as [->| ->]; [reflexivity|]. cbn [filter].
      now rewrite Hempty. }
    rewrite Hex, Nat.add_0_r.
    unfold parse_diff. rewrite parse_lines_blocks, blocks_read, Hlines.
    pose proof (block_lines_total p Hhead (h :: more)) as Ht.
    cbn [body filter] in Ht. change (is_header h) with (is_header h) in Ht.
    rewrite Hh, (Hhead h Hh) in Ht. cbn [filter List.length] in Ht.
    unfold len in Ht. rewrite <- Ht. unfold total. rewrite map_map.
    cbn [Z.of_nat Z.add]. f_equal. apply map_ext. intros b.
    rewrite Hg. unfold len. now rewrite length_map. }
  split.
  - rewrite (proj1 (run_line_counts_lemma (lower raw))).
    apply (Hgen is_added added_lines); try reflexivity.
    + intros l. unfold is_added.
      now rewrite !starts_sign_lower by reflexivity.
    + intros l Hl. now apply header_not_added.
  - rewrite (proj2 (run_line_counts_lemma (lower raw))).
    apply (Hgen is_removed deleted_lines); try reflexivity.
    + intros l. unfold is_removed.
      now rewrite !starts_sign_lower by reflexivity.
    + intros l Hl. now apply header_not_added.
Qed.

Lemma line_counts_agree_witness :
  Run.added_count (lower Inputs.six_removed_five_added)
    = total (fun f => len (added_lines f))
            (parse_diff Inputs.six_removed_five_added)
  /\ Run.removed_count (lower Inputs.six_removed_five_added)
    = total (fun f => len (deleted_lines f))
            (parse_diff Inputs.six_removed_five_added).
Proof.
  assert (H : exists h more,
            splitlines Inputs.six_removed_five_added = h :: more /\
            is_header h = true).
  { eexists. eexists. split; [vm_compute; reflexivity|reflexivity]. }
  destruct H as (h & more & H1 & H2).
  assert (H0 : only_line_feeds Inputs.six_removed_five_added = true)
    by (vm_compute; reflexivity).
  exact (line_counts_agree Inputs.six_removed_five_added h more H0 H1 H2).
Defined.

End TotalsProofs.

(* ================================================================= *)
(** ** The path patterns *)

Section PathProofs.
Import Words Analyze Paths.

Lemma in_run_Lit_any (ci : bool) (w : string) (z y : cursor) :
  In y (run ci (Lit w) z) <->
  exists m, rest z = (m ++ rest y)%string /\ same ci m w /\
            before y = before_after m (before z) /\ caps y = caps z.
Proof.
  destruct ci; unfold same.
  - apply in_run_Lit.
  - rewrite in_run_Lit_exact. split.
    + intros (Hr & Hb & Hc). exists w. auto.
    + intros (m & Hr & -> & Hb & Hc). auto.
Qed.

Lemma before_none (pre : string) :
  before_after pre None = None <-> pre = ""%string.
Proof.
  split; [|intros ->; reflexivity].
  destruct pre as [|c pre]; [reflexivity|].
  unfold before_after. destruct (last_char_some pre c) as [x ->].
  discriminate.
Qed.

Lemma at_eol_end (p : option ascii) (t : string) (cs : list (nat * string)) :
  at_eol (Cur p t cs) = true <-> at_end t.
Proof.
  unfold at_eol, at_end. cbn [rest].
  destruct t as [|c [|c' t]].
  - split; auto.
  - rewrite code_is_lf. split.
    + intros H. apply Ascii.eqb_eq in H. subst c. now right.
    + intros [H|H]; [discriminate H|]. injection H as ->. reflexivity.
  - split; [discriminate|]. intros [H|H]; discriminate H.
Qed.

(** The four shapes of an alternative, at a position of the text. *)
Lemma run_lit_at (ci : bool) (w : string) (z : cursor) :
  run ci (Lit w) z <> [] <->
  exists m t, rest z = (m ++ t)%string /\ same ci m w.
Proof.
  rewrite nonempty_has. split.
  - intros (y & Hy). apply in_run_Lit_any in Hy.
    destruct Hy as (m & Hr & Hs & _). eauto.
  - intros (m & t & Hr & Hs).
    exists (Cur (before_after m (before z)) t (caps z)).
    apply in_run_Lit_any. exists m. auto.
Qed.

Lemma run_starting_at (ci : bool) (w : string) (z : cursor) :
  run ci (starting w) z <> [] <->
  before z = None /\ exists m t, rest z = (m ++ t)%string /\ same ci m w.
Proof.
  change (starting w) with (Cat Bol (Lit w)). cbn [run]. unfold at_bol.
  destruct (before z) eqn:Eb.
  - cbn [flat_map]. split; [congruence|]. intros [H _]. discriminate H.
  - cbn [flat_map]. rewrite app_nil_r, run_lit_at. tauto.
Qed.

Lemma run_ending_at (ci : bool) (w : string) (z : cursor) :
  run ci (ending w) z <> [] <->
  exists m t, rest z = (m ++ t)%string /\ same ci m w /\ at_end t.
Proof.
  change (ending w) with (Cat (Lit w) Eol). rewrite nonempty_has.
  cbn [run]. split.
  - intros (y & Hy). apply in_flat_map in Hy. destruct Hy as (y1 & H1 & Hy).
    apply in_run_Lit_any in H1. destruct H1 as (m & Hr & Hs & _).
    destruct (at_eol y1) eqn:Ee; [|destruct Hy].
    destruct y1 as [p t cs]. apply at_eol_end in Ee. cbn [rest] in Hr.
    eauto.
  - intros (m & t & Hr & Hs & He).
    exists (Cur (before_after m (before z)) t (caps z)).
    apply in_flat_map. exists (Cur (before_after m (before z)) t (caps z)).
    split.
    + apply in_run_Lit_any. exists m. auto.
    + apply (at_eol_end (before_after m (before z)) t (caps z)) in He.
      rewrite He. now left.
Qed.

Lemma run_whole_at (ci : bool) (w : string) (z : cursor) :
  run ci (whole w) z <> [] <->
  before z = None /\
  exists m t, rest z = (m ++ t)%string /\ same ci m w /\ at_end t.
Proof.
  change (whole w) with (Cat Bol (ending w)). cbn [run]. unfold at_bol.
  destruct (before z) eqn:Eb.
  - cbn [flat_map]. split; [congruence|]. intros [H _]. discriminate H.
  - cbn [flat_map]. rewrite app_nil_r.
    change (run ci (Cat (Lit w) Eol) z) with (run ci (ending w) z).
    rewrite run_ending_at. tauto.
Qed.

(** A search for a group of alternatives finds one of them at some
    position. *)
Lemma search_alts (ci : bool) (rs : list regex) (s : string) :
  rs <> [] ->
  (found (re_search ci (Grp 1 (alts rs)) s) = true <->
   exists r pre post,
     In r rs /\ s = (pre ++ post)%string /\
     run ci r (Cur (before_after pre None) post []) <> []).
Proof.
  intros Hne. unfold re_search. rewrite search_from_found. split.
  - intros (pre & post & Hs & Hr). apply nonempty_has in Hr.
    destruct Hr as (y & Hy). cbn [run] in Hy. apply in_map_iff in Hy.
    destruct Hy as (y0 & _ & Hy0). apply in_run_alts in Hy0; [|exact Hne].
    destruct Hy0 as (r & Hr & Hy0). exists r, pre, post.
    repeat split; auto. apply nonempty_has. eauto.
  - intros (r & pre & post & Hr & Hs & Hrun). exists pre, post.
    split; [exact Hs|]. apply nonempty_has in Hrun.
    destruct Hrun as (y & Hy). apply nonempty_has. cbn [run].
    eexists. apply in_map. apply in_run_alts; [exact Hne|]. eauto.
Qed.

Lemma search_lit (ci : bool) (w s : string) :
  (exists pre post, s = (pre ++ post)%string /\
     run ci (Lit w) (Cur (before_after pre None) post []) <> []) <->
  holds ci w s.
Proof.
  unfold holds. split.
  - intros (pre & post & Hs & Hr). apply run_lit_at in Hr.
    destruct Hr as (m & t & Hp & Hm). cbn [rest] in Hp. subst post.
    eauto.
  - intros (pre & m & t & Hs & Hm). exists pre, (m ++ t)%string.
    split; [exact Hs|]. apply run_lit_at. cbn [rest]. eauto.
Qed.

Lemma search_starting (ci : bool) (w s : string) :
  (exists pre post, s = (pre ++ post)%string /\
     run ci (starting w) (Cur (before_after pre None) post []) <> []) <->
  begins ci w s.
Proof.
  unfold begins. split.
  - intros (pre & post & Hs & Hr). apply run_starting_at in Hr.
    cbn [before rest] in Hr. destruct Hr as (Hb & m & t & Hp & Hm).
    apply before_none in Hb. subst pre post. exists m, t.
    split; [exact Hs|exact Hm].
  - intros (m & t & Hs & Hm). exists ""%string, s.
    split; [reflexivity|]. apply run_starting_at. cbn [before rest].
    split; [reflexivity|eauto].
Qed.

Lemma search_ending (ci : bool) (w s : string) :
  (exists pre post, s = (pre ++ post)%string /\
     run ci (ending w) (Cur (before_after pre None) post []) <> []) <->
  ends ci w s.
Proof.
  unfold ends. split.
  - intros (pre & post & Hs & Hr). apply run_ending_at in Hr.
    cbn [rest] in Hr. destruct Hr as (m & t & Hp & Hm & He).
    subst post. exists pre, m, t. auto.
  - intros (pre & m & t & Hs & Hm & He). exists pre, (m ++ t)%string.
    split; [exact Hs|]. apply run_ending_at. cbn [rest]. eauto.
Qed.

Lemma search_whole (ci : bool) (w s : string) :
  (exists pre post, s = (pre ++ post)%string /\
     run ci (whole w) (Cur (before_after pre None) post []) <> []) <->
  is_exactly ci w s.
Proof.
  unfold is_exactly. split.
  - intros (pre & post & Hs & Hr). apply run_whole_at in Hr.
    cbn [before rest] in Hr. destruct Hr as (Hb & m & t & Hp & Hm & He).
    apply before_none in Hb. subst pre post. exists m, t.
    split; [exact Hs|auto].
  - intros (m & t & Hs & Hm & He). exists ""%string, s.
    split; [reflexivity|]. apply run_whole_at. cbn [before rest].
    split; [reflexivity|eauto].
Qed.

(** X24. A path is a test path for [analyze.py] exactly when it holds, in
    any letter case, one of [test_], [_test.], [.test.], [.spec.],
    [/tests/], [/test/], [/__tests__/]. *)
Theorem is_test_path_iff (p : string) :
  is_test_path p = true <-> exists w, In w test_marks /\ holds true w p.
Proof.
  unfold is_test_path, TEST_PATTERNS.
  change [Lit "test_"; Lit "_test."; Lit ".test."; Lit ".spec.";
          Lit "/tests/"; Lit "/test/"; Lit "/__tests__/"]
    with (map Lit test_marks).
  rewrite search_alts by discriminate. split.
  - intros (r & pre & post & Hr & Hs & Hrun). apply in_map_iff in Hr.
    destruct Hr as (w & <- & Hw). exists w. split; [exact Hw|].
    apply search_lit. eauto.
  - intros (w & Hw & Hh). apply search_lit in Hh.
    destruct Hh as (pre & post & Hs & Hrun).
    exists (Lit w), pre, post. split; [now apply in_map|]. auto.
Qed.

(** X25. A path is a doc path for [analyze.py] exactly when, in any letter
    case, it ends with [.md] (a final line feed apart) or begins with one
    of [README], [docs/], [CHANGELOG], [LICENSE], [CONTRIBUTING]. *)
Theorem is_doc_path_iff (p : string) :
  is_doc_path p = true <->
  ends true ".md" p \/ exists w, In w doc_prefixes /\ begins true w p.
Proof.
  unfold is_doc_path, DOC_PATTERNS.
  change [ending ".md"; starting "README"; starting "docs/";
          starting "CHANGELOG"; starting "LICENSE"; starting "CONTRIBUTING"]
    with (ending ".md" :: map starting doc_prefixes).
  rewrite search_alts by discriminate. split.
  - intros (r & pre & post & [<-|Hr] & Hs & Hrun).
    + left. apply search_ending. eauto.
    + right. apply in_map_iff in Hr. destruct Hr as (w & <- & Hw).
      exists w. split; [exact Hw|]. apply search_starting. eauto.
  - intros [He|(w & Hw & Hb)].
    + apply search_ending in He. destruct He as (pre & post & Hs & Hrun).
      exists (ending ".md"), pre, post. split; [now left|]. auto.
    + apply search_starting in Hb. destruct Hb as (pre & post & Hs & Hrun).
      exists (starting w), pre, post.
      split; [right; now apply in_map|]. auto.
Qed.

(** X26. A path is a chore path for [analyze.py] exactly when it is, letter
    case included and a final line feed apart, one of sixteen build and
    package file names, or begins with one of eight configuration
    prefixes. *)
Theorem is_chore_path_iff (p : string) :
  is_chore_path p = true <->
  (exists w, In w chore_names /\ is_exactly false w p) \/
  (exists w, In w chore_prefixes /\ begins false w p).
Proof.
  unfold is_chore_path, CHORE_PATTERNS.
  rewrite search_alts by discriminate. split.
  - intros (r & pre & post & Hr & Hs & Hrun).
    assert (Hkind : (exists w, In w chore_names /\ r = whole w) \/
                    (exists w, In w chore_prefixes /\ r = starting w)).
    { cbn [In] in Hr.
      repeat (destruct Hr as [<-|Hr];
              [first [left; eexists; split; [|reflexivity]; simpl; tauto
                     |right; eexists; split; [|reflexivity]; simpl; tauto]|]).
      destruct Hr. }
    destruct Hkind as [(w & Hw & ->)|(w & Hw & ->)].
    + left. exists w. split; [exact Hw|]. apply search_whole. eauto.
    + right. exists w. split; [exact Hw|]. apply search_starting. eauto.
  - intros [(w & Hw & He)|(w & Hw & Hb)].
    + apply search_whole in He. destruct He as (pre & post & Hs & Hrun).
      exists (whole w), pre, post. split; [|auto].
      cbn [In chore_names] in Hw.
      repeat (destruct Hw as [<-|Hw]; [simpl; tauto|]). destruct Hw.
    + apply search_starting in Hb. destruct Hb as (pre & post & Hs & Hrun).
      exists (starting w), pre, post. split; [|auto].
      cbn [In chore_prefixes] in Hw.
      repeat (destruct Hw as [<-|Hw]; [simpl; tauto|]). destruct Hw.
Qed.

End PathProofs.

(* ================================================================= *)
(** ** A whole run of [analyze.py] *)

Section AnalyzeRunProofs.
Import Analyze AnalyzeMain Blocks.








End AnalyzeRunProofs.
